(** * The species database layer: a shallow embedding and its properties

    The development follows [species/data/database.py] and
    [species/data/isochrones.py].  The HDF5 file is a tree of groups and
    datasets, NumPy arrays are nested lists of binary64 numbers (Rocq's
    primitive floats, so that comparisons with not-a-number behave as they
    do in Python), and a Python exception is the left summand of the result
    type.  Modules of the package that are not part of the sources at hand
    (filter download, synthetic photometry, the retrieval utilities, ...)
    are the fields of the class [Collab]. *)

From Stdlib Require Import ZArith Floats Lia Ascii String.
From stdpp Require Import base option list gmap strings pretty.

Set Warnings "-inexact-float,-register-all".

(** ** Python: exceptions, integers in f-strings, slices *)

Module Py.

Inductive exn :=
| ValueError
| KeyError
| IndexError
| TypeError
| NameError
| AttributeError
| OSError
| LinAlgError.

Definition result (A : Type) : Type := (exn + A)%type.

Definition ok {A} (a : A) : result A := inr a.
Definition raise {A} (e : exn) : result A := inl e.

Definition bind {A B} (m : result A) (k : A -> result B) : result B :=
  match m with
  | inl e => inl e
  | inr a => k a
  end.

Definition of_option {A} (e : exn) (o : option A) : result A :=
  match o with
  | Some a => ok a
  | None => raise e
  end.

(** [for x in xs: acc = body(acc, x)], stopping at the first exception. *)
Fixpoint for_each {A S} (xs : list A) (body : S -> A -> result S) (acc : S)
  : result S :=
  match xs with
  | [] => ok acc
  | x :: xs' => bind (body acc x) (for_each xs' body)
  end.

(** [range(n)]; a negative bound gives the empty range. *)
Definition range (n : Z) : list nat := seq 0 (Z.to_nat n).

(** [f'{i}'] for an integer. *)
Definition fmt (i : Z) : string := pretty i.
Definition fmt_nat (i : nat) : string := pretty (Z.of_nat i).

(** [l[b:]] for an integer [b] of either sign. *)
Definition slice_from {A} (b : Z) (l : list A) : list A :=
  let n := Z.of_nat (length l) in
  drop (Z.to_nat (if (b <? 0)%Z then Z.max 0 (n + b) else b)) l.

(** [s[0:n]] and [s[:-n]] on strings. *)
Definition str_take (n : nat) (s : string) : string := String.substring 0 n s.
Definition str_drop_last (n : nat) (s : string) : string :=
  String.substring 0 (String.length s - n) s.

(** [s.endswith(suffix)] *)
Definition ends_with (s suffix : string) : bool :=
  (String.length suffix <=? String.length s)%nat
  && String.eqb (String.substring (String.length s - String.length suffix)
                                  (String.length suffix) s) suffix.

(** [s.lower()] on the ASCII letters. *)
Definition ascii_lower (c : ascii) : ascii :=
  let n := Ascii.nat_of_ascii c in
  if (65 <=? n)%nat && (n <=? 90)%nat then Ascii.ascii_of_nat (n + 32) else c.

Fixpoint str_lower (s : string) : string :=
  match s with
  | EmptyString => EmptyString
  | String c s' => String (ascii_lower c) (str_lower s')
  end.

(** [s.split(sep)] for a separator of one character: the pieces between
    separators, empty ones included.  [cur] is the piece being read,
    backwards. *)
Fixpoint split_aux (sep : ascii) (cur : string) (s : string) : list string :=
  match s with
  | EmptyString => [String.rev cur]
  | String c s' =>
      if Ascii.eqb c sep
      then String.rev cur :: split_aux sep EmptyString s'
      else split_aux sep (String c cur) s'
  end.

Definition split_on (sep : ascii) (s : string) : list string :=
  split_aux sep EmptyString s.

Definition split_slash (s : string) : list string := split_on "/" s.

End Py.

Export Py.

Notation "'let*' x ':=' m 'in' k" := (Py.bind m (fun x => k))
  (at level 10, x pattern, m at level 100, k at level 200).

(** ** NumPy: arrays of doubles *)

Module Np.

#[global] Instance float_inhabited : Inhabited float := populate 0%float.

Definition is_nan (x : float) : bool := negb (PrimFloat.eqb x x).

(** The order NumPy sorts doubles by: not-a-number comes last. *)
Definition sort_lt (a b : float) : bool :=
  PrimFloat.ltb a b || (is_nan b && negb (is_nan a)).

(** Arrays of one, two and three dimensions, and the one-dimensional array
    of strings that holds filter names. *)
Inductive ndarray :=
| Arr1 (v : list float)
| Arr2 (m : list (list float))
| Arr3 (c : list (list (list float)))
| ArrStr (l : list string).

Definition ndim (a : ndarray) : nat :=
  match a with
  | Arr1 _ => 1
  | Arr2 _ => 2
  | Arr3 _ => 3
  | ArrStr _ => 1
  end.

(** [a.shape[0]] *)
Definition shape0 (a : ndarray) : nat :=
  match a with
  | Arr1 v => length v
  | Arr2 m => length m
  | Arr3 c => length c
  | ArrStr l => length l
  end.

(** The length of the first element, the second dimension of a rectangular
    array ([0] for an empty one, as a parser would produce it). *)
Definition width {A} (m : list (list A)) : nat :=
  match m with
  | [] => 0
  | r :: _ => length r
  end.

Definition rectangular {A} (n : nat) (m : list (list A)) : Prop :=
  Forall (fun r => length r = n) m.

(** [m[:, j]] *)
Definition column (j : nat) (m : list (list float)) : result (list float) :=
  for_each m (fun acc r => let* x := of_option IndexError (r !! j) in ok (acc ++ [x])) [].

(** [np.column_stack((a, b))] of two vectors. *)
Definition column_stack2 (a b : list float) : result (list (list float)) :=
  if decide (length a = length b)
  then ok (zip_with (fun x y => [x; y]) a b)
  else raise ValueError.

(** [np.append(m, col[..., np.newaxis], axis=1)] *)
Definition append_column (m : list (list float)) (col : list float)
  : result (list (list float)) :=
  if decide (length m = length col)
  then ok (zip_with (fun r x => r ++ [x]) m col)
  else raise ValueError.

(** [np.reshape(a, (-1, n))] on the flattened contents. *)
Fixpoint chunks (fuel n : nat) (l : list float) : list (list float) :=
  match fuel with
  | 0 => []
  | S fuel' =>
      match l with
      | [] => []
      | _ => take n l :: chunks fuel' n (drop n l)
      end
  end.

Definition reshape_rows (flat : list float) (n : Z) : result (list (list float)) :=
  if (n <=? 0)%Z then raise ValueError
  else if decide (length flat `mod` Z.to_nat n = 0)
       then ok (chunks (length flat) (Z.to_nat n) flat)
       else raise ValueError.

(** [v.argmax()] as NumPy computes it for doubles: the first entry that no
    earlier entry is greater than or equal to; a not-a-number wins. *)
Fixpoint argmax_loop (mp : float) (best i : nat) (xs : list float) : nat :=
  match xs with
  | [] => best
  | x :: xs' =>
      if negb (PrimFloat.leb x mp)
      then if is_nan x then i else argmax_loop x i (S i) xs'
      else argmax_loop mp best (S i) xs'
  end.

Definition argmax (v : list float) : result nat :=
  match v with
  | [] => raise ValueError
  | x :: xs => if is_nan x then ok 0 else ok (argmax_loop x 0 1 xs)
  end.

(** Insertion of a keyed item into a list sorted by [sort_lt] on the key:
    the item goes before the first one that is not smaller.  With [foldr]
    items of equal keys keep their order. *)
Fixpoint insert_by {A} (key : A -> float) (x : A) (l : list A) : list A :=
  match l with
  | [] => [x]
  | y :: l' =>
      if sort_lt (key y) (key x) then y :: insert_by key x l'
      else x :: y :: l'
  end.

Definition sort_by {A} (key : A -> float) (l : list A) : list A :=
  foldr (insert_by key) [] l.

(** [np.argsort(v)]: the indices of [v] in ascending order of the entries.
    NumPy's default sort leaves the order of equal entries open; here they
    keep the order they have in [v]. *)
Definition argsort (v : list float) : list nat :=
  (sort_by snd (imap (fun i x => (i, x)) v)).*1.

(** [m[idx, :]] *)
Definition take_rows {A} (idx : list nat) (m : list A) : result (list A) :=
  for_each idx (fun acc i => let* r := of_option IndexError (m !! i) in ok (acc ++ [r])) [].

(** [np.median(v)] *)
Definition median (v : list float) : float :=
  if existsb is_nan v then nan
  else
    let s := sort_by id v in
    let n := length s in
    if decide (n = 0) then nan
    else if Nat.even n
         then PrimFloat.div
                (PrimFloat.add (s !!! (n / 2 - 1)) (s !!! (n / 2))) 2
         else s !!! (n / 2).

(** [np.linspace(start, stop, num)] and [np.logspace(start, stop, num)];
    the power of ten is left to the caller. *)
Definition linspace (start stop : float) (num : nat) : list float :=
  let step := PrimFloat.div (PrimFloat.sub stop start)
                            (PrimFloat.of_uint63 (Uint63.of_Z (Z.of_nat (num - 1)))) in
  imap (fun i _ =>
          if decide (i = num - 1 /\ 1 < num) then stop
          else PrimFloat.add (PrimFloat.mul (PrimFloat.of_uint63 (Uint63.of_Z (Z.of_nat i))) step) start)
       (replicate num tt).

(** [np.diag(m)] *)
Definition diag (m : list (list float)) : list float :=
  omap id (imap (fun i r => r !! i) m).

(** [np.zeros((r, c))] *)
Definition zeros (r c : nat) : list (list float) :=
  replicate r (replicate c 0%float).

(** [m[:, j] = v] *)
Definition set_column (j : nat) (v : list float) (m : list (list float))
  : result (list (list float)) :=
  if decide (j < width m)
  then if decide (length v = length m)
       then ok (zip_with (fun r x => <[j := x]> r) m v)
       else raise ValueError
  else raise IndexError.

End Np.

Export Np.

(** ** h5py: the file as a tree of groups and datasets *)

Module H5.

Inductive attr :=
| AInt (z : Z)
| AFloat (x : float)
| AStr (s : string)
| ABool (b : bool)
| AFloats (l : list float).

(** Groups and datasets both carry attributes. *)
Inductive node :=
| Dataset (data : ndarray) (attrs : gmap string attr)
| Group (children : gmap string node) (attrs : gmap string attr).

Definition empty_group : node := Group ∅ ∅.

Definition node_attrs (n : node) : gmap string attr :=
  match n with
  | Dataset _ a => a
  | Group _ a => a
  end.

(** A slash-separated name as the list of its links; HDF5 skips the empty
    pieces that repeated or trailing slashes leave. *)
Definition h5path (s : string) : list string :=
  filter (fun k => k ≠ EmptyString) (split_slash s).

(** [h5_file[p]] *)
Fixpoint lookup_path (p : list string) (n : node) : option node :=
  match p with
  | [] => Some n
  | k :: p' =>
      match n with
      | Group m _ =>
          match m !! k with
          | Some c => lookup_path p' c
          | None => None
          end
      | Dataset _ _ => None
      end
  end.

(** [p in h5_file] *)
Definition contains (p : list string) (n : node) : bool :=
  match lookup_path p n with
  | Some _ => true
  | None => false
  end.

(** The tree without the link [p] (and everything below it). *)
Fixpoint remove_path (p : list string) (n : node) : node :=
  match p with
  | [] => n
  | k :: p' =>
      match n with
      | Group m a =>
          match p' with
          | [] => Group (delete k m) a
          | _ =>
              match m !! k with
              | Some c => Group (<[k := remove_path p' c]> m) a
              | None => n
              end
          end
      | Dataset _ _ => n
      end
  end.

(** [del h5_file[p]] *)
Definition del_item (p : list string) (n : node) : result node :=
  match p with
  | [] => raise ValueError
  | _ => if contains p n then ok (remove_path p n) else raise KeyError
  end.

(** The guarded deletion every ingestion starts with:
    [if p in h5_file: del h5_file[p]]. *)
Definition del_if_present (p : list string) (n : node) : result node :=
  if contains p n then del_item p n else ok n.

(** A new link [p] to [v]; missing groups on the way are created, and a
    name that is taken is an error. *)
Fixpoint create_node (p : list string) (v : node) (n : node) : result node :=
  match p with
  | [] => raise ValueError
  | k :: p' =>
      match n with
      | Dataset _ _ => raise ValueError
      | Group m a =>
          match p' with
          | [] =>
              match m !! k with
              | Some _ => raise ValueError
              | None => ok (Group (<[k := v]> m) a)
              end
          | _ =>
              let* c := create_node p' v (default empty_group (m !! k)) in
              ok (Group (<[k := c]> m) a)
          end
      end
  end.

Definition create_group (p : list string) (n : node) : result node :=
  create_node p empty_group n.

(** No dataset lies on the way to the link [p]: the groups down to its
    parent are there or can be created.  What [p] itself names is left
    open. *)
Fixpoint writable (p : list string) (n : node) : bool :=
  match p with
  | [] => false
  | k :: p' =>
      match n with
      | Dataset _ _ => false
      | Group m _ =>
          match p' with
          | [] => true
          | _ =>
              match m !! k with
              | Some c => writable p' c
              | None => true
              end
          end
      end
  end.

Definition create_dataset (p : list string) (data : ndarray) (n : node) : result node :=
  create_node p (Dataset data ∅) n.

(** [if p not in h5_file: h5_file.create_group(p)] *)
Definition require_group (p : list string) (n : node) : result node :=
  if contains p n then ok n else create_group p n.

(** The node at [p] replaced by [f] of it. *)
Fixpoint update_path (p : list string) (f : node -> node) (n : node) : result node :=
  match p with
  | [] => ok (f n)
  | k :: p' =>
      match n with
      | Group m a =>
          match m !! k with
          | Some c => let* c' := update_path p' f c in ok (Group (<[k := c']> m) a)
          | None => raise KeyError
          end
      | Dataset _ _ => raise KeyError
      end
  end.

Definition with_attr (k : string) (v : attr) (n : node) : node :=
  match n with
  | Dataset d a => Dataset d (<[k := v]> a)
  | Group m a => Group m (<[k := v]> a)
  end.

(** [h5_file[p].attrs[k] = v] *)
Definition set_attr (p : list string) (k : string) (v : attr) (n : node) : result node :=
  update_path p (with_attr k v) n.

(** [for i, item in enumerate(items): dset.attrs[f'{prefix}{i}'] = item] *)
Definition set_indexed_attrs (p : list string) (prefix : string) (items : list attr)
    (n : node) : result node :=
  for_each (imap (fun i x => (i, x)) items)
           (fun h ix => set_attr p (prefix +:+ fmt_nat ix.1) ix.2 h) n.

(** [np.asarray(h5_file[p])] and [h5_file[p].attrs] *)
Definition read_dataset (p : list string) (n : node) : result (ndarray * gmap string attr) :=
  match lookup_path p n with
  | Some (Dataset d a) => ok (d, a)
  | Some (Group _ _) => raise TypeError
  | None => raise KeyError
  end.

(** [attrs[k]] *)
Definition get_attr (a : gmap string attr) (k : string) : result attr :=
  of_option KeyError (a !! k).

Definition attr_int (v : attr) : result Z :=
  match v with
  | AInt z => ok z
  | _ => raise TypeError
  end.

(** [v == 'text'] for an attribute value and a string. *)
Definition attr_is (v : attr) (s : string) : bool :=
  match v with
  | AStr s' => bool_decide (s' = s)
  | _ => false
  end.

Definition attr_str (v : attr) : result string :=
  match v with
  | AStr s => ok s
  | _ => raise TypeError
  end.

End H5.

Export H5.

(** The forward-model configuration of a retrieval, as [radtrans.json]
    holds it.  [rt_pt_smooth] is [None] when the key is absent. *)
Record radtrans := {
  rt_distance : float;
  rt_line_species : list string;
  rt_cloud_species : list string;
  rt_scattering : bool;
  rt_pt_profile : string;
  rt_chemistry : string;
  rt_wavel_range : float * float;
  rt_quenching : option string;
  rt_pt_smooth : option float;
  rt_pressure_grid : string;
}.

(** A header-data unit of a FITS file: its header cards, the columns of a
    table and the array of an image. *)
Record hdu := {
  hdu_header : gmap string string;
  hdu_table : gmap string ndarray;
  hdu_data : option ndarray;
}.

(** ** Collaborators

    What [database.py] imports from the rest of the package, from NumPy's
    file readers and from emcee.  Nothing is assumed about them.  The
    warnings of the filter download and of the flux calibration, which
    reach the caller of [add_object] together with its own, have fields of
    their own. *)

Class Collab := {
  (** [np.loadtxt(filename)] *)
  loadtxt : string -> result ndarray;
  (** [filters.download_filter(filter_name)]: wavelengths, transmission
      (either may be [None]) and [str(detector_type)] *)
  download_filter : string -> option (list float) * option (list float) * string;
  (** The texts of the warnings that this call of [download_filter]
      issues (for a filter that the service does not know, say) *)
  download_warnings : string -> list string;
  (** [emcee.autocorr.integrated_time(samples)], [None] for the
      [AutocorrError] of a chain that is too short *)
  integrated_time : ndarray -> option (list float);
  (** [np.log10] *)
  log10 : float -> float;
  (** [10.**x] *)
  pow10 : float -> float;
  (** [np.random.randint(high, size=n)] *)
  randint : nat -> nat -> list nat;
  (** [species.core.constants] *)
  M_SUN : float;
  M_JUP : float;
  R_JUP : float;
  GRAVITY : float;
  (** The output folder of a retrieval: [params.json], [radtrans.json] and
      [post_equal_weights.dat] *)
  params_json : string -> result (list string);
  radtrans_json : string -> result radtrans;
  post_equal_weights : string -> result ndarray;
  (** One round of the loop over the samples in the first pass of
      [add_retrieval]: the scaled mass fraction of [cloud_item] for a
      sample (petitRADTRANS, the chemistry module and [retrieval_util]) *)
  cloud_mass_fraction : radtrans -> list string -> string -> list float -> result float;
  (** One round of the loop of the second pass: the quenching pressure of
      a sample ([retrieval_util.quench_pressure] on its P-T profile) *)
  quench_pressure : radtrans -> list string -> list float -> result float;
  (** The third pass: the effective temperatures that the spectra of
      [get_retrieval_spectra] integrate to, one per stored sample *)
  retrieval_teff : node -> string -> result (list float);
  (** [retrieval_util.pt_ret_model] (its first result) and
      [retrieval_util.pt_spline_interp] *)
  pt_ret_model : option (list float) -> float -> float -> float -> list float ->
                 float -> float -> list float;
  pt_spline_interp : list float -> list float -> list float -> float -> list float;
  (** The adders of the spectral libraries ([vega.add_vega],
      [irtf.add_irtf], ...), by the name of the library *)
  add_library : string -> node -> result node;
  (** [photometry.SyntheticPhotometry(filter_name).magnitude_to_flux(mag, err)]
      against the database as it is; a filter that cannot be resolved is a
      [KeyError] *)
  magnitude_to_flux : node -> string -> float -> float -> result (float * float);
  (** The texts of the warnings that [SyntheticPhotometry(filter_name)] and
      its [magnitude_to_flux] issue against the database as it is, whether
      the call returns or raises *)
  flux_warnings : node -> string -> list string;
  (** [read_filter.ReadFilter(filter_name).get_filter()] *)
  get_filter : node -> string -> result (list (list float));
  (** [photometry.SyntheticPhotometry(filter_name).spectrum_to_flux(w, f)]
      (its first result) *)
  spectrum_to_flux : node -> string -> list float -> list float -> result float;
  (** [dust_util.ism_extinction(av, rv, wavelengths)] *)
  ism_extinction : float -> float -> list float -> list float;
  (** [fits.open(filename)] *)
  fits_open : string -> result (list hdu);
  (** [data_util.correlation_to_covariance(matrix, sigma)] *)
  correlation_to_covariance : list (list float) -> list float -> list (list float);
  (** [np.linalg.inv] *)
  linalg_inv : list (list float) -> result (list (list float));
  (** [float(text)] *)
  parse_float : string -> result float;
}.

(** ** [Database.add_filter] *)

Module Filter.

(** One round of the loop over [range(wavelength.size-1)]. *)
Definition keep_increasing (wavelength transmission : list float)
    (acc : list float * list float) (i : nat) : result (list float * list float) :=
  let* w := of_option IndexError (wavelength !! (i + 1)) in
  let* top := of_option IndexError (last acc.1) in
  if PrimFloat.ltb top w
  then let* t := of_option IndexError (transmission !! (i + 1)) in
       ok (acc.1 ++ [w], acc.2 ++ [t])
  else ok acc.

(** [wavel_new] and [transm_new] *)
Definition monotonic_profile (wavelength transmission : list float)
  : result (list float * list float) :=
  let* w0 := of_option IndexError (wavelength !! 0) in
  let* t0 := of_option IndexError (transmission !! 0) in
  for_each (range (Z.of_nat (length wavelength) - 1))
           (keep_increasing wavelength transmission) ([w0], [t0]).

Definition filter_path (filter_name : string) : list string :=
  h5path ("filters/" +:+ filter_name).

(** The profile as read from a file or fetched. *)
Definition read_profile {C : Collab} (filter_name : string) (filename : option string)
    (detector_type : string)
  : result (option (list float) * option (list float) * string) :=
  match filename with
  | Some f =>
      let* data := loadtxt f in
      match data with
      | Arr2 m =>
          let* w := column 0 m in
          let* t := column 1 m in
          ok (Some w, Some t, detector_type)
      | _ => raise IndexError
      end
  | None => ok (download_filter filter_name)
  end.

Definition add_filter {C : Collab} (filter_name : string) (filename : option string)
    (detector_type : string) (h5_file : node) : result node :=
  let filter_split := split_slash filter_name in
  let* h := del_if_present (filter_path filter_name) h5_file in
  let* h := require_group (h5path "filters") h in
  let* h := require_group (h5path ("filters/" +:+ default EmptyString (head filter_split))) h in
  let* (wavelength, transmission, detector_type) :=
    read_profile filter_name filename detector_type in
  match wavelength, transmission with
  | Some wavelength, Some transmission =>
      let* (wavel_new, transm_new) := monotonic_profile wavelength transmission in
      let* data := column_stack2 wavel_new transm_new in
      let* h := create_dataset (filter_path filter_name) (Arr2 data) h in
      set_attr (filter_path filter_name) "det_type" (AStr detector_type) h
  | _, _ => ok h
  end.

(** The texts of the warnings that a call of [add_filter] issues: those
    of the download, when there is one.  [add_filter] has no warning of
    its own. *)
Definition add_filter_warnings {C : Collab} (filter_name : string)
    (filename : option string) : list string :=
  match filename with
  | Some _ => []
  | None => download_warnings filter_name
  end.

(** The wavelength column increases strictly: every entry is less than
    every later one. *)
Definition strictly_increasing (v : list float) : Prop :=
  forall i j x y, i < j -> v !! i = Some x -> v !! j = Some y -> PrimFloat.ltb x y = true.

End Filter.

(** ** Posterior samples: [add_samples], [get_probable_sample],
       [get_median_sample] *)

Module Samples.

Definition fit_path (tag : string) : list string :=
  h5path ("results/fit/" +:+ tag).
Definition samples_path (tag : string) : list string :=
  h5path ("results/fit/" +:+ tag +:+ "/samples").
Definition ln_prob_path (tag : string) : list string :=
  h5path ("results/fit/" +:+ tag +:+ "/ln_prob").

Definition set_opt_attr (p : list string) (k : string) (v : option attr) (h : node)
  : result node :=
  match v with
  | Some v => set_attr p k v h
  | None => ok h
  end.

(** The loop over [enumerate(modelpar)], with its counter of scalings. *)
Definition store_parameter (p : list string) (spec_labels : list string)
    (st : node * nat) (ix : nat * string) : result (node * nat) :=
  let '(h, count_scaling) := st in
  let* h := set_attr p ("parameter" +:+ fmt_nat ix.1) (AStr ix.2) h in
  if decide (ix.2 ∈ spec_labels)
  then let* h := set_attr p ("scaling" +:+ fmt_nat count_scaling) (AStr ix.2) h in
       ok (h, S count_scaling)
  else ok (h, count_scaling).

Definition add_samples {C : Collab} (sampler : string) (samples ln_prob : ndarray)
    (ln_evidence : option (float * float)) (mean_accept : option float)
    (spectrum : string * string) (tag : string) (modelpar : list string)
    (distance : option float) (spec_labels : option (list string))
    (h5_file : node) : result node :=
  let spec_labels := default [] spec_labels in
  let p := samples_path tag in
  let* h := require_group (h5path "results") h5_file in
  let* h := require_group (h5path "results/fit") h in
  let* h := del_if_present (fit_path tag) h in
  let* h := create_dataset p samples h in
  let* h := create_dataset (ln_prob_path tag) ln_prob h in
  let* h := set_attr p "type" (AStr spectrum.1) h in
  let* h := set_attr p "spectrum" (AStr spectrum.2) h in
  let* h := set_attr p "n_param" (AInt (Z.of_nat (length modelpar))) h in
  let* h := set_attr p "sampler" (AStr sampler) h in
  let* h := set_opt_attr p "mean_accept" (AFloat <$> mean_accept) h in
  let* h := set_opt_attr p "distance" (AFloat <$> distance) h in
  let* h := set_opt_attr p "ln_evidence" ((fun e => AFloats [e.1; e.2]) <$> ln_evidence) h in
  let* (h, count_scaling) :=
    for_each (imap (fun i x => (i, x)) modelpar) (store_parameter p spec_labels) (h, 0) in
  let* h := set_attr p "n_scaling" (AInt (Z.of_nat count_scaling)) h in
  match integrated_time samples with
  | Some int_auto => set_indexed_attrs p "autocorrelation" (AFloat <$> int_auto) h
  | None => ok h
  end.

(** [n_param], read from either spelling of the attribute; with neither the
    name stays unbound and its first use fails. *)
Definition read_n_param (a : gmap string attr) : result Z :=
  match a !! "n_param" with
  | Some v => attr_int v
  | None =>
      match a !! "nparam" with
      | Some v => attr_int v
      | None => raise NameError
      end
  end.

(** [samples = samples[burnin:, :, :]] followed by
    [np.reshape(samples, (-1, n_param))]. *)
Definition flatten_chain (burnin : Z) (n_param : result Z)
    (chain : list (list (list float))) : result (list (list float)) :=
  let* n := n_param in
  reshape_rows (concat (concat (slice_from burnin chain))) n.

(** [ln_prob[burnin:, :]] followed by [np.reshape(ln_prob, -1)]. *)
Definition flatten_ln_prob (burnin : Z) (ln_prob : ndarray) : result (list float) :=
  match ln_prob with
  | Arr2 m => ok (concat (slice_from burnin m))
  | Arr3 c => ok (concat (concat (slice_from burnin c)))
  | Arr1 _ | ArrStr _ => raise IndexError
  end.

(** The burn-in step of [get_probable_sample]. *)
Definition trim_probable (burnin : Z) (n_param : result Z) (samples ln_prob : ndarray)
  : result (ndarray * ndarray) :=
  match samples with
  | Arr3 chain =>
      if (Z.of_nat (length chain) <? burnin)%Z then raise ValueError
      else
        let* lp := flatten_ln_prob burnin ln_prob in
        let* rows := flatten_chain burnin n_param chain in
        ok (Arr2 rows, Arr1 lp)
  | _ => ok (samples, ln_prob)
  end.

(** The burn-in step of [get_median_sample]. *)
Definition trim_median (burnin : Z) (n_param : result Z) (samples : ndarray)
  : result ndarray :=
  match samples with
  | Arr3 chain =>
      if (Z.of_nat (length chain) <? burnin)%Z then raise ValueError
      else
        let* rows := flatten_chain burnin n_param chain in
        ok (Arr2 rows)
  | _ => ok samples
  end.

(** [samples[np.unravel_index(ln_prob.argmax(), ln_prob.shape)]]: a row of
    the samples when the log-probabilities are one-dimensional ([Some]),
    and otherwise something that cannot be indexed by a parameter
    ([None]). *)
Definition max_sample (samples ln_prob : ndarray) : result (option (list float)) :=
  match ln_prob with
  | Arr1 v =>
      let* k := argmax v in
      match samples with
      | Arr2 rows => let* r := of_option IndexError (rows !! k) in ok (Some r)
      | Arr1 s => let* _ := of_option IndexError (s !! k) in ok None
      | Arr3 c => let* _ := of_option IndexError (c !! k) in ok None
      | ArrStr l => let* _ := of_option IndexError (l !! k) in ok None
      end
  | Arr2 m =>
      let* k := argmax (concat m) in
      match samples with
      | Arr2 rows =>
          let* r := of_option IndexError (rows !! (k / width m)) in
          let* _ := of_option IndexError (r !! (k `mod` width m)) in
          ok None
      | _ => raise IndexError
      end
  | Arr3 _ => raise IndexError
  | ArrStr _ => raise TypeError
  end.

(** [max_sample[i]] *)
Definition sample_item (s : option (list float)) (i : nat) : result float :=
  match s with
  | Some r => of_option IndexError (r !! i)
  | None => raise IndexError
  end.

(** The entries [distance] and [pt_smooth] that both accessors add. *)
Definition add_float_attr (a : gmap string attr) (k : string)
    (d : gmap string float) : result (gmap string float) :=
  match a !! k with
  | Some (AFloat x) => ok (<[k := x]> d)
  | Some _ => raise TypeError
  | None => ok d
  end.

Definition get_probable_sample (tag : string) (burnin : option Z) (h5_file : node)
  : result (gmap string float) :=
  let burnin := default 0%Z burnin in
  let* (samples, attrs) := read_dataset (samples_path tag) h5_file in
  let* (ln_prob, _) := read_dataset (ln_prob_path tag) h5_file in
  let n_param := read_n_param attrs in
  let* (samples, ln_prob) := trim_probable burnin n_param samples ln_prob in
  let* max_sample := max_sample samples ln_prob in
  let* n := n_param in
  let* prob_sample :=
    for_each (range n)
      (fun d i =>
         let* par_key := bind (get_attr attrs ("parameter" +:+ fmt_nat i)) attr_str in
         let* par_value := sample_item max_sample i in
         ok (<[par_key := par_value]> d)) ∅ in
  let* prob_sample := add_float_attr attrs "distance" prob_sample in
  add_float_attr attrs "pt_smooth" prob_sample.

(** [np.median(samples[:, i])] *)
Definition median_column (samples : ndarray) (i : nat) : result float :=
  match samples with
  | Arr2 rows => let* c := column i rows in ok (median c)
  | _ => raise IndexError
  end.

Definition get_median_sample (tag : string) (burnin : option Z) (h5_file : node)
  : result (gmap string float) :=
  let burnin := default 0%Z burnin in
  let* (samples, attrs) := read_dataset (samples_path tag) h5_file in
  let n_param := read_n_param attrs in
  let* samples := trim_median burnin n_param samples in
  let* n := n_param in
  let* median_sample :=
    for_each (range n)
      (fun d i =>
         let* par_key := bind (get_attr attrs ("parameter" +:+ fmt_nat i)) attr_str in
         let* par_value := median_column samples i in
         ok (<[par_key := par_value]> d)) ∅ in
  let* median_sample := add_float_attr attrs "distance" median_sample in
  add_float_attr attrs "pt_smooth" median_sample.

End Samples.

(** ** [Database.add_retrieval] *)

Module Retrieval.

Import Samples.

(** [samples[:, -1]] and [samples[:, :-1]] *)
Definition last_column (m : list (list float)) : result (list float) :=
  for_each m (fun acc r => let* x := of_option IndexError (last r) in ok (acc ++ [x])) [].

Definition drop_last_column (m : list (list float)) : list (list float) :=
  (fun r => take (length r - 1) r) <$> m.

(** The loops that number the parameters whose names start with a prefix:
    [if item[0:6] == prefix: dset.attrs[f'{name}{count}'] = item]. *)
Definition store_prefixed (p : list string) (name prefix : string)
    (st : node * nat) (item : string) : result (node * nat) :=
  let '(h, count) := st in
  if decide (str_take 6 item = prefix)
  then let* h := set_attr p (name +:+ fmt_nat count) (AStr item) h in
       ok (h, S count)
  else ok (h, count).

(** The first [with] block: the samples and their attributes. *)
Definition store_retrieval (tag : string) (parameters : list string) (rt : radtrans)
    (samples : list (list float)) (h5_file : node)
  : result (node * list (list float)) :=
  let p := samples_path tag in
  let* h := require_group (h5path "results") h5_file in
  let* h := require_group (h5path "results/fit") h in
  let* h := del_if_present (fit_path tag) h in
  let* ln_prob := last_column samples in
  let* h := create_dataset (ln_prob_path tag) (Arr1 ln_prob) h in
  let samples := drop_last_column samples in
  if decide (width samples ≠ length parameters) then raise ValueError
  else
    let* h := create_dataset p (Arr2 samples) h in
    let* h := set_attr p "type" (AStr "model") h in
    let* h := set_attr p "spectrum" (AStr "petitradtrans") h in
    let* h := set_attr p "n_param" (AInt (Z.of_nat (length parameters))) h in
    let* h := set_attr p "distance" (AFloat (rt_distance rt)) h in
    let* h := set_indexed_attrs p "parameter" (AStr <$> parameters) h in
    let* (h, count_scale) :=
      for_each parameters (store_prefixed p "scaling" "scaling_") (h, 0) in
    let* (h, count_error) :=
      for_each parameters (store_prefixed p "error" "error_") (h, 0) in
    let* h := set_attr p "n_scaling" (AInt (Z.of_nat count_scale)) h in
    let* h := set_attr p "n_error" (AInt (Z.of_nat count_error)) h in
    let* h := set_indexed_attrs p "line_species" (AStr <$> rt_line_species rt) h in
    let* h := set_indexed_attrs p "cloud_species" (AStr <$> rt_cloud_species rt) h in
    let* h := set_attr p "n_line_species" (AInt (Z.of_nat (length (rt_line_species rt)))) h in
    let* h := set_attr p "n_cloud_species" (AInt (Z.of_nat (length (rt_cloud_species rt)))) h in
    let* h := set_attr p "scattering" (ABool (rt_scattering rt)) h in
    let* h := set_attr p "pt_profile" (AStr (rt_pt_profile rt)) h in
    let* h := set_attr p "chemistry" (AStr (rt_chemistry rt)) h in
    let* h := set_attr p "wavel_min" (AFloat (rt_wavel_range rt).1) h in
    let* h := set_attr p "wavel_max" (AFloat (rt_wavel_range rt).2) h in
    let* h := set_attr p "quenching" (AStr (default "None" (rt_quenching rt))) h in
    let* h := set_opt_attr p "pt_smooth" (AFloat <$> rt_pt_smooth rt) h in
    ok (h, samples).

(** The block that every pass ends with: the stored array is read,
    widened by the new column and written anew under the same name, the
    attributes of the old dataset are copied onto the new one, [n_param]
    is raised by one and the new column is named.  The result is the file
    and the widened array, which the caller keeps as [samples]. *)
Definition append_derived (db_tag : list string) (col : list float) (name : string)
    (h5_file : node) : result (node * list (list float)) :=
  let* (data, dset_attrs) := read_dataset db_tag h5_file in
  let* samples :=
    match data with
    | Arr2 m => append_column m col
    | _ => raise ValueError
    end in
  let* h := del_item db_tag h5_file in
  let* h := create_dataset db_tag (Arr2 samples) h in
  let* h := for_each (map_to_list dset_attrs) (fun h kv => set_attr db_tag kv.1 kv.2 h) h in
  let* n0 := bind (get_attr dset_attrs "n_param") attr_int in
  let n_param := (n0 + 1)%Z in
  let* h := set_attr db_tag "n_param" (AInt n_param) h in
  let* h := set_attr db_tag ("parameter" +:+ fmt (n_param - 1)) (AStr name) h in
  ok (h, samples).

(** [f'{cloud_item[:-6].lower()}'] *)
Definition cloud_name (cloud_item : string) : string :=
  str_lower (str_drop_last 6 cloud_item).

(** One round of the loop over [radtrans['cloud_species']]. *)
Definition cloud_pass {C : Collab} (tag : string) (parameters : list string) (rt : radtrans)
    (st : node * list (list float)) (cloud_item : string)
  : result (node * list (list float)) :=
  let '(h, samples) := st in
  if decide ((cloud_name cloud_item +:+ "_tau") ∈ parameters)
  then
    let* cloud_mass :=
      for_each samples
        (fun acc sample =>
           let* x := cloud_mass_fraction rt parameters cloud_item sample in
           ok (acc ++ [x])) [] in
    append_derived (samples_path tag) cloud_mass (cloud_name cloud_item +:+ "_fraction") h
  else ok st.

Definition quench_pass {C : Collab} (tag : string) (parameters : list string) (rt : radtrans)
    (st : node * list (list float)) : result (node * list (list float)) :=
  let '(h, samples) := st in
  if decide (rt_quenching rt = Some "diffusion")
  then
    let* p_quench :=
      for_each samples
        (fun acc sample =>
           let* x := quench_pressure rt parameters sample in
           ok (acc ++ [x])) [] in
    append_derived (samples_path tag) (log10 <$> p_quench) "log_p_quench" h
  else ok st.

Definition teff_pass {C : Collab} (tag : string) (inc_teff : bool)
    (st : node * list (list float)) : result (node * list (list float)) :=
  let '(h, samples) := st in
  if inc_teff
  then
    let* teff := retrieval_teff h tag in
    append_derived (samples_path tag) teff "teff" h
  else ok st.

(** Warnings and console output are left out. *)
Definition add_retrieval {C : Collab} (tag output_folder : string) (inc_teff : bool)
    (h5_file : node) : result node :=
  let* parameters := params_json output_folder in
  let* rt := radtrans_json output_folder in
  let* samples := post_equal_weights output_folder in
  let* samples :=
    match samples with
    | Arr1 v => ok [v]
    | Arr2 m => ok m
    | _ => raise IndexError
    end in
  let* st := store_retrieval tag parameters rt samples h5_file in
  let* st := for_each (rt_cloud_species rt) (cloud_pass tag parameters rt) st in
  let* st := quench_pass tag parameters rt st in
  let* st := teff_pass tag inc_teff st in
  ok st.1.

(** What the data model asks of a stored sample set: it is a
    two-dimensional array whose rows all have [n_param] entries, and no
    parameter is named beyond [n_param]. *)
Definition consistent (d : ndarray) (a : gmap string attr) : Prop :=
  exists m n,
    d = Arr2 m /\ a !! "n_param" = Some (AInt (Z.of_nat n)) /\ rectangular n m /\
    forall i : nat, n <= i -> a !! ("parameter" +:+ fmt_nat i) = None.

(** The test of it on a given dataset: the attributes whose names start
    with [parameter] are among [parameter0] ... [parameter{n_param-1}]. *)
Definition consistentb (d : ndarray) (a : gmap string attr) : bool :=
  match d, a !! "n_param" with
  | Arr2 m, Some (AInt z) =>
      bool_decide (0 <= z)%Z &&
      forallb (fun r => bool_decide (length r = Z.to_nat z)) m &&
      forallb (fun kv : string * attr =>
                 negb (String.prefix "parameter" kv.1) ||
                 bool_decide (kv.1 ∈ (fun i => "parameter" +:+ fmt_nat i) <$> seq 0 (Z.to_nat z)))
              (map_to_list a)
  | _, _ => false
  end.

End Retrieval.

(** ** [Database.get_pt_profiles] *)

Module PT.

Import Samples.

(** [param_index], the position of each parameter name. *)
Definition build_param_index (attrs : gmap string attr) (n_param : Z)
  : result (gmap string nat) :=
  for_each (range n_param)
    (fun d i =>
       let* k := bind (get_attr attrs ("parameter" +:+ fmt_nat i)) attr_str in
       ok (<[k := i]> d)) ∅.

(** [item[param_index[name]]] *)
Definition param_value (param_index : gmap string nat) (item : list float)
    (name : string) : result float :=
  let* i := of_option KeyError (param_index !! name) in
  of_option IndexError (item !! i).

(** [np.logspace(a, b, n)] *)
Definition logspace {C : Collab} (a b : float) (n : nat) : list float :=
  pow10 <$> linspace a b n.

(** The body of the loop over the samples, for sample [i]. *)
Definition profile_step {C : Collab} (pt_profile : attr) (param_index : gmap string nat)
    (press : list float) (samples : list (list float))
    (temp : list (list float)) (i : nat) : result (list (list float)) :=
  let* item := of_option IndexError (samples !! i) in
  let value := param_value param_index item in
  if attr_is pt_profile "molliere" then
    let* t1 := value "t1" in
    let* t2 := value "t2" in
    let* t3 := value "t3" in
    let* log_delta := value "log_delta" in
    let* alpha := value "alpha" in
    let* tint := value "tint" in
    let* metallicity := value "metallicity" in
    let* c_o_ratio := value "c_o_ratio" in
    set_column i
      (pt_ret_model (Some [t1; t2; t3]) (pow10 log_delta) alpha tint press
                    metallicity c_o_ratio) temp
  else if attr_is pt_profile "mod-molliere" then
    let* log_delta := value "log_delta" in
    let* alpha := value "alpha" in
    let* tint := value "tint" in
    let* metallicity := value "metallicity" in
    let* c_o_ratio := value "c_o_ratio" in
    set_column i
      (pt_ret_model None (pow10 log_delta) alpha tint press metallicity c_o_ratio) temp
  else if attr_is pt_profile "free" || attr_is pt_profile "monotonic" then
    let* pt_smooth :=
      match param_index !! "pt_smooth" with
      | Some _ => value "pt_smooth"
      | None => ok 0%float
      end in
    let* p0 := of_option IndexError (head press) in
    let* p1 := of_option IndexError (last press) in
    let knot_press := logspace (log10 p0) (log10 p1) 15 in
    (* for j in range(15): knot_temp.append(item[param_index[f't{i}']]) *)
    let* knot_temp :=
      for_each (range 15)
        (fun acc (j : nat) => let* t := value ("t" +:+ fmt_nat i) in ok (acc ++ [t])) [] in
    (* temp[:, j] = ..., with the [j] that the loop has left *)
    let j := default 0 (last (range 15)) in
    set_column j (pt_spline_interp knot_press knot_temp press pt_smooth) temp
  else ok temp.

Definition get_pt_profiles {C : Collab} (tag : string) (random : option nat) (h5_file : node)
  : result (list float * list (list float)) :=
  let* (data, attrs) := read_dataset (samples_path tag) h5_file in
  let* spectrum := get_attr attrs "spectrum" in
  let* pt_profile := get_attr attrs "pt_profile" in
  if negb (attr_is spectrum "petitradtrans") then raise ValueError
  else
    let n_param := read_n_param attrs in
    let* samples :=
      match data with
      | Arr2 m => ok m
      | _ => raise IndexError
      end in
    let* (n_profiles, samples) :=
      match random with
      | None => ok (length samples, samples)
      | Some random =>
          let* rows := take_rows (randint (length samples) random) samples in
          ok (random, rows)
      end in
    let* n := n_param in
    let* param_index := build_param_index attrs n in
    let press := logspace (-6)%float 3%float 180 in
    let temp := zeros (length press) n_profiles in
    let* temp :=
      for_each (seq 0 (length samples))
               (fun temp i => profile_step pt_profile param_index press samples temp i)
               temp in
    ok (press, temp).

End PT.

(** ** [Database.add_spectra] and [Database.add_object] *)

Module Object.

Import Filter.

(** A value of the dictionary [app_mag]: a pair, or a list of pairs for a
    filter with several magnitudes (the type check of the signature admits
    nothing else). *)
Inductive mag_value :=
| MagTuple (mag err : float)
| MagList (l : list (float * float)).

(** The argument [deredden]: a dictionary ([None] is the empty one) or a
    single extinction. *)
Inductive dered :=
| DeredDict (d : gmap string float)
| DeredFloat (a_v : float).

Inductive warning :=
| FilterNotAvailable (filter_name object_name : string)
| DereddenIgnored (filter_name : string)
| CorrelationConverted (filename : string)
| Foreign (text : string).

(** An entry of the dictionaries [flux] and [error]. *)
Inductive phot :=
| PhotOne (x : float)
| PhotMany (l : list float).

Definition add_spectra {C : Collab} (spec_library : string) (h5_file : node) : result node :=
  let* h := require_group (h5path "spectra") h5_file in
  let* h := del_if_present (h5path ("spectra/" +:+ spec_library)) h in
  if decide (str_take 5 spec_library = "vega") then add_library "vega" h
  else if decide (str_take 5 spec_library = "irtf") then add_library "irtf" h
  else if decide (str_take 5 spec_library = "spex") then add_library "spex" h
  else if decide (str_take 12 spec_library = "kesseli+2017") then add_library "kesseli+2017" h
  else if decide (str_take 13 spec_library = "bonnefoy+2014") then add_library "bonnefoy+2014" h
  else if decide (str_take 11 spec_library = "allers+2013") then add_library "allers+2013" h
  else ok h.

(** The Vega spectrum and the filters that [app_mag] or [flux_density]
    name are added when the database lacks them; the warnings of the
    downloads go to the caller. *)
Definition require_calibration {C : Collab} (names : list string)
    (st : node * list warning) : result (node * list warning) :=
  let '(h5_file, w) := st in
  let* h :=
    if contains (h5path "spectra/calibration/vega") h5_file then ok h5_file
    else add_spectra "vega" h5_file in
  for_each names
    (fun st item =>
       if contains (h5path ("filters/" +:+ item)) st.1 then ok st
       else
         let* h := add_filter item None "photon" st.1 in
         ok (h, st.2 ++ (Foreign <$> add_filter_warnings item None))) (h, w).

(** [isinstance(deredden, float) or item in deredden], with the extinction
    that applies. *)
Definition dered_of (deredden : dered) (item : string) : option float :=
  match deredden with
  | DeredFloat a_v => Some a_v
  | DeredDict d => d !! item
  end.

(** [dered_phot[mag_item]] *)
Definition dered_factor {C : Collab} (deredden : dered) (mag_item : string) (h : node)
  : result float :=
  match dered_of deredden mag_item with
  | Some a_v =>
      let* filter_profile := get_filter h mag_item in
      let* wavelength := column 0 filter_profile in
      let ext_mag := ism_extinction a_v 3.1%float wavelength in
      spectrum_to_flux h mag_item wavelength
        ((fun e => pow10 (PrimFloat.mul 0.4 e)) <$> ext_mag)
  | None => ok 1%float
  end.

(** [try: ... except KeyError: warnings.warn(...); nan, nan] for one
    magnitude; the warnings of the flux calibration come before the one of
    the handler. *)
Definition flux_or_nan {C : Collab} (object_name mag_item : string) (factor : float)
    (h : node) (mag err : float) (w : list warning)
  : result (float * float * list warning) :=
  let w := w ++ (Foreign <$> flux_warnings h mag_item) in
  match magnitude_to_flux h mag_item mag err with
  | inr (f, e) => ok (PrimFloat.mul f factor, e, w)
  | inl KeyError => ok (nan, nan, w ++ [FilterNotAvailable mag_item object_name])
  | inl other => raise other
  end.

Definition calibration : Type :=
  gmap string float * gmap string phot * gmap string phot * list warning.

(** One round of the first loop over [app_mag]. *)
Definition calibrate {C : Collab} (object_name : string) (deredden : dered) (h : node)
    (st : calibration) (item : string * mag_value) : result calibration :=
  let '(dered_phot, flux, error, w) := st in
  let '(mag_item, value) := item in
  let* factor := dered_factor deredden mag_item h in
  let dered_phot := <[mag_item := factor]> dered_phot in
  match value with
  | MagTuple mag err =>
      let* (f, e, w) := flux_or_nan object_name mag_item factor h mag err w in
      ok (dered_phot, <[mag_item := PhotOne f]> flux, <[mag_item := PhotOne e]> error, w)
  | MagList l =>
      let* (flux_list, error_list, w) :=
        for_each l
          (fun acc dupl_item =>
             let '(flux_list, error_list, w) := acc in
             let* (f, e, w) :=
               flux_or_nan object_name mag_item factor h dupl_item.1 dupl_item.2 w in
             ok (flux_list ++ [f], error_list ++ [e], w)) ([], [], w) in
      ok (dered_phot, <[mag_item := PhotMany flux_list]> flux,
          <[mag_item := PhotMany error_list]> error, w)
  end.

Definition object_path (object_name item : string) : list string :=
  h5path ("objects/" +:+ object_name +:+ "/" +:+ item).

(** [mag - 2.5*np.log10(dered_phot[mag_item])] *)
Definition dereddened {C : Collab} (mag factor : float) : float :=
  PrimFloat.sub mag (PrimFloat.mul 2.5 (log10 factor)).

(** One round of the second loop over [app_mag]: the dataset of a filter.
    The pair of a single magnitude is replaced in [app_mag] itself, which
    is the caller's dictionary. *)
Definition store_photometry {C : Collab} (object_name : string)
    (dered_phot : gmap string float) (flux error : gmap string phot)
    (st : node * list (string * mag_value)) (item : string * mag_value)
  : result (node * list (string * mag_value)) :=
  let '(h, app_mag) := st in
  let '(mag_item, value) := item in
  let p := object_path object_name mag_item in
  let* h := del_if_present p h in
  let* factor := of_option KeyError (dered_phot !! mag_item) in
  let* f := of_option KeyError (flux !! mag_item) in
  let* e := of_option KeyError (error !! mag_item) in
  let* (n_phot, value', data) :=
    match value, f, e with
    | MagTuple mag err, PhotOne f, PhotOne e =>
        let mag' := dereddened mag factor in
        ok (1, MagTuple mag' err, Arr1 [mag'; err; f; e])
    | MagList l, PhotMany f, PhotMany e =>
        ok (length l, value,
            Arr2 [(fun d => dereddened d.1 factor) <$> l; snd <$> l; f; e])
    | _, _, _ => raise TypeError
    end in
  let* h := create_dataset p data h in
  let* h := set_attr p "n_phot" (AInt (Z.of_nat n_phot)) h in
  ok (h, app_mag ++ [(mag_item, value')]).

(** The part of [add_object] on [app_mag]: the file, the warnings and
    [app_mag] as the call leaves it. *)
Definition add_magnitudes {C : Collab} (object_name : string)
    (app_mag : list (string * mag_value)) (deredden : dered) (h : node)
  : result (node * list warning * list (string * mag_value)) :=
  let* (dered_phot, flux, error, w) :=
    for_each app_mag (calibrate object_name deredden h) (∅, ∅, ∅, []) in
  let* (h, app_mag) :=
    for_each app_mag (store_photometry object_name dered_phot flux error) (h, []) in
  ok (h, w, app_mag).

(** One round of the loop over [flux_density]. *)
Definition store_flux_density (object_name : string) (deredden : dered)
    (st : node * list warning) (item : string * (float * float))
  : result (node * list warning) :=
  let '(h, w) := st in
  let '(flux_item, (f, e)) := item in
  let w :=
    match dered_of deredden flux_item with
    | Some _ => w ++ [DereddenIgnored flux_item]
    | None => w
    end in
  let p := object_path object_name flux_item in
  let* h := del_if_present p h in
  let* h := create_dataset p (Arr1 [nan; nan; f; e]) h in
  let* h := set_attr p "n_phot" (AInt 1) h in
  ok (h, w).

(** *** Spectra and covariance matrices *)

Definition is_fits (filename : string) : bool :=
  ends_with filename ".fits" || ends_with filename ".fit".

(** ['INSTRU' in header and header['INSTRU'] == 'GRAVITY'] for the first
    unit. *)
Definition is_gravity (hdulist : list hdu) : result bool :=
  let* h0 := of_option IndexError (hdulist !! 0) in
  ok (bool_decide (hdu_header h0 !! "INSTRU" = Some "GRAVITY")).

(** [hdulist[1].data[name]] *)
Definition gravity_column (hdulist : list hdu) (name : string) : result ndarray :=
  let* h0 := of_option IndexError (hdulist !! 0) in
  let* _ := of_option KeyError (hdu_header h0 !! "OBJECT") in
  let* h1 := of_option IndexError (hdulist !! 1) in
  of_option KeyError (hdu_table h1 !! name).

Definition as_vector (a : ndarray) : result (list float) :=
  match a with
  | Arr1 v => ok v
  | _ => raise ValueError
  end.

Definition as_matrix (a : ndarray) : result (list (list float)) :=
  match a with
  | Arr2 m => ok m
  | _ => raise ValueError
  end.

(** [3 in data.shape] and [data.shape[0] == data.shape[1]] *)
Definition three_in_shape (m : list (list float)) : bool :=
  bool_decide (length m = 3) || bool_decide (width m = 3).
Definition square (m : list (list float)) : bool :=
  bool_decide (length m = width m).

(** [np.all(np.diag(data) == 1.)] *)
Definition unit_diagonal (m : list (list float)) : bool :=
  forallb (fun x => PrimFloat.eqb x 1) (diag m).

(** The first unit of a FITS file that holds an array accepted by [test]. *)
Fixpoint first_array (test : list (list float) -> bool) (hdulist : list hdu)
  : option (list (list float)) :=
  match hdulist with
  | [] => None
  | u :: rest =>
      match hdu_data u with
      | Some (Arr2 m) => if test m then Some m else first_array test rest
      | _ => first_array test rest
      end
  end.

(** [read_spec[key]] as the file gives it. *)
Definition load_spectrum {C : Collab} (filename : string) : result (list (list float)) :=
  if is_fits filename then
    let* hdulist := fits_open filename in
    let* gravity := is_gravity hdulist in
    if gravity then
      let* wavelength := bind (gravity_column hdulist "WAVELENGTH") as_vector in
      let* flux := bind (gravity_column hdulist "FLUX") as_vector in
      let* covariance := bind (gravity_column hdulist "COVARIANCE") as_matrix in
      let error := PrimFloat.sqrt <$> diag covariance in
      if decide (length wavelength = length flux /\ length flux = length error)
      then ok (zip_with (fun w fe => [w; fe.1; fe.2]) wavelength (zip flux error))
      else raise ValueError
    else of_option ValueError (first_array three_in_shape hdulist)
  else
    let* data := loadtxt filename in
    match data with
    | Arr2 m => if three_in_shape m then ok m else raise ValueError
    | _ => raise ValueError
    end.

(** [read_spec[key][:, 1] *= 10.**(0.4*ext_mag)] *)
Definition deredden_spectrum {C : Collab} (a_v : float) (m : list (list float))
  : result (list (list float)) :=
  let* wavelength := column 0 m in
  let ext_mag := ism_extinction a_v 3.1%float wavelength in
  if decide (length ext_mag = length m)
  then
    for_each (zip m ext_mag)
      (fun acc re =>
         let* f := of_option IndexError (re.1 !! 1) in
         ok (acc ++ [<[1 := PrimFloat.mul f (pow10 (PrimFloat.mul 0.4 re.2))]> re.1])) []
  else raise ValueError.

(** One round of the loop that reads the spectra. *)
Definition read_spectrum {C : Collab} (deredden : dered)
    (read_spec : gmap string (list (list float)))
    (item : string * (string * option string * option float))
  : result (gmap string (list (list float))) :=
  let '(key, (filename, _, _)) := item in
  let* data := load_spectrum filename in
  let* data :=
    match dered_of deredden key with
    | Some a_v => deredden_spectrum a_v data
    | None => ok data
    end in
  let* wavelength := column 0 data in
  let* _ := column 1 data in
  let* _ := column 2 data in
  let* _ := of_option IndexError (head wavelength) in
  ok (<[key := data]> read_spec).

(** The matrix of a covariance file that is not in the GRAVITY format:
    from a FITS file, the first square array with as many rows as the
    spectrum; from a text file, what [np.loadtxt] gives.  A matrix with
    ones on the diagonal is taken for a correlation matrix. *)
Definition convert_if_correlation {C : Collab} (filename : string)
    (data : list (list float)) (spec : list (list float)) (w : list warning)
  : result (list (list float) * list warning) :=
  if unit_diagonal data
  then
    let* sigma := column 2 spec in
    ok (correlation_to_covariance data sigma, w ++ [CorrelationConverted filename])
  else ok (data, w).

Definition load_covariance {C : Collab} (filename : string) (spec : list (list float))
    (w : list warning) : result (list (list float) * list warning) :=
  if is_fits filename then
    let* hdulist := fits_open filename in
    let* gravity := is_gravity hdulist in
    if gravity then
      let* covariance := bind (gravity_column hdulist "COVARIANCE") as_matrix in
      ok (covariance, w)
    else
      match first_array (fun m => square m && bool_decide (length m = length spec)) hdulist with
      | Some data => convert_if_correlation filename data spec w
      | None => raise ValueError
      end
  else
    let* data := loadtxt filename in
    match data with
    | Arr2 m =>
        if three_in_shape m then convert_if_correlation filename m spec w
        else raise ValueError
    | _ => raise ValueError
    end.

(** One round of the loop that reads the covariance matrices. *)
Definition read_covariance {C : Collab} (read_spec : gmap string (list (list float)))
    (st : gmap string (option (list (list float))) * list warning)
    (item : string * (string * option string * option float))
  : result (gmap string (option (list (list float))) * list warning) :=
  let '(read_cov, w) := st in
  let '(key, (_, cov_file, _)) := item in
  match cov_file with
  | None => ok (<[key := None]> read_cov, w)
  | Some filename =>
      let* spec := of_option KeyError (read_spec !! key) in
      let* (cov, w) := load_covariance filename spec w in
      ok (<[key := Some cov]> read_cov, w)
  end.

Definition spectrum_path (object_name key item : string) : list string :=
  h5path ("objects/" +:+ object_name +:+ "/spectrum/" +:+ key +:+ item).

(** One round of the loop that writes the spectra. *)
Definition store_spectrum {C : Collab} (object_name : string)
    (read_spec : gmap string (list (list float)))
    (read_cov : gmap string (option (list (list float))))
    (h : node) (item : string * (string * option string * option float))
  : result node :=
  let '(key, (_, _, specres)) := item in
  let* spec := of_option KeyError (read_spec !! key) in
  let* cov := of_option KeyError (read_cov !! key) in
  let* h := create_dataset (spectrum_path object_name key "/spectrum") (Arr2 spec) h in
  let* h :=
    match cov with
    | Some cov =>
        let* h := create_dataset (spectrum_path object_name key "/covariance") (Arr2 cov) h in
        let* inv := linalg_inv cov in
        create_dataset (spectrum_path object_name key "/inv_covariance") (Arr2 inv) h
    | None => ok h
    end in
  set_attr (spectrum_path object_name key "") "specres" (AFloat (default 0%float specres)) h.

(** The part of [add_object] on [spectrum]. *)
Definition add_spectrum {C : Collab} (object_name : string)
    (spectrum : list (string * (string * option string * option float)))
    (deredden : dered) (st : node * list warning) : result (node * list warning) :=
  let '(h, w) := st in
  let* h := del_if_present (h5path ("objects/" +:+ object_name +:+ "/spectrum")) h in
  let* read_spec := for_each spectrum (read_spectrum deredden) ∅ in
  let* (read_cov, w) := for_each spectrum (read_covariance read_spec) (∅, w) in
  let* h := for_each spectrum (store_spectrum object_name read_spec read_cov) h in
  ok (h, w).

Definition add_object {C : Collab} (object_name : string)
    (distance : option (float * float))
    (app_mag : option (list (string * mag_value)))
    (flux_density : option (list (string * (float * float))))
    (spectrum : option (list (string * (string * option string * option float))))
    (deredden : option dered) (h5_file : node)
  : result (node * list warning * option (list (string * mag_value))) :=
  let deredden := default (DeredDict ∅) deredden in
  let* st :=
    match app_mag with
    | Some app_mag => require_calibration app_mag.*1 (h5_file, [])
    | None => ok (h5_file, [])
    end in
  let* (h, w0) :=
    match flux_density with
    | Some flux_density => require_calibration flux_density.*1 st
    | None => ok st
    end in
  let* h := require_group (h5path "objects") h in
  let* h := require_group (h5path ("objects/" +:+ object_name)) h in
  let* h :=
    match distance with
    | Some d =>
        let p := object_path object_name "distance" in
        let* h := del_if_present p h in
        create_dataset p (Arr1 [d.1; d.2]) h
    | None => ok h
    end in
  let* (h, w, app_mag) :=
    match app_mag with
    | Some app_mag =>
        let* (h, w, app_mag) := add_magnitudes object_name app_mag deredden h in
        ok (h, w0 ++ w, Some app_mag)
    | None => ok (h, w0, None)
    end in
  let* (h, w) :=
    match flux_density with
    | Some flux_density =>
        for_each flux_density (store_flux_density object_name deredden) (h, w)
    | None => ok (h, w)
    end in
  let* (h, w) :=
    match spectrum with
    | Some spectrum => add_spectrum object_name spectrum deredden (h, w)
    | None => ok (h, w)
    end in
  ok (h, w, app_mag).

End Object.

(** ** [species/data/isochrones.py] *)

Module Isochrones.

Definition evolution_path (tag : string) : list string :=
  h5path ("isochrones/" +:+ tag +:+ "/evolution").

(** [m[:, j] *= factor] *)
Definition scale_column (j : nat) (factor : float) (m : list (list float))
  : result (list (list float)) :=
  for_each m
    (fun acc r =>
       let* x := of_option IndexError (r !! j) in
       ok (acc ++ [<[j := PrimFloat.mul x factor]> r])) [].

(** [index_sort = np.argsort(m[:, 0]); m = m[index_sort, :]] *)
Definition sort_by_age (m : list (list float)) : result (list (list float)) :=
  let* age := column 0 m in
  take_rows (argsort age) m.

(** The age column of a stored table is in ascending order: no entry is
    smaller than the one before it (a not-a-number counts as the
    largest, as in NumPy's sort). *)
Definition ascending (v : list float) : Prop :=
  forall i x y, v !! i = Some x -> v !! (S i) = Some y -> sort_lt y x = false.

Definition ascendingb (v : list float) : bool :=
  forallb (fun xy => negb (sort_lt xy.2 xy.1)) (zip v (drop 1 v)).

(** The ages of a table. *)
Definition ages (m : list (list float)) : list float := omap head m.

(** The second loop of [add_manual], over the lines of the file as the
    first loop has split them: the header, and the rows with the age of
    their block in front. *)
Definition collect_rows (st : option string * option (list string) * list (list string))
    (line : list string)
  : result (option string * option (list string) * list (list string)) :=
  let '(age, header, isochrones) := st in
  if decide ("(Gyr)" ∈ line) then
    let* a := of_option IndexError (last line) in
    ok (Some a, header, isochrones)
  else if decide ("lg(g)" ∈ line) then
    ok (age, Some (["M/Ms"; "Teff(K)"] ++ drop 1 line), isochrones)
  else if decide ("M/Ms" ∈ line) then
    ok (age, Some line, isochrones)
  else
    let* a := of_option NameError age in
    ok (age, header, isochrones ++ [a :: line]).

(** [np.asarray(rows, dtype=float)]: every entry parsed, and rows of one
    length. *)
Definition as_float_table {C : Collab} (rows : list (list string))
  : result (list (list float)) :=
  let* m :=
    for_each rows
      (fun acc r =>
         let* r' := for_each r (fun a x => let* y := parse_float x in ok (a ++ [y])) [] in
         ok (acc ++ [r'])) [] in
  if forallb (fun r => bool_decide (length r = width m)) m then ok m
  else raise ValueError.

(** [add_manual], from the split lines [data] and the flag [check_baraffe]
    that the first loop leaves. *)
Definition add_manual {C : Collab} (tag : string) (data : list (list string))
    (check_baraffe : bool) (database : node) : result node :=
  let* (_, header, isochrones) := for_each data collect_rows (None, None, []) in
  let* header := of_option NameError header in
  let* isochrones := as_float_table isochrones in
  let* isochrones := scale_column 0 1e3%float isochrones in
  let* isochrones := scale_column 1 (PrimFloat.div M_SUN M_JUP) isochrones in
  let* isochrones := sort_by_age isochrones in
  let filters := if check_baraffe then drop 6 header else drop 7 header in
  let* h := create_dataset (h5path ("isochrones/" +:+ tag +:+ "/filters")) (ArrStr filters)
                           database in
  let* h := create_dataset (h5path ("isochrones/" +:+ tag +:+ "/magnitudes"))
                           (Arr2 (drop 8 <$> isochrones)) h in
  let* h := create_dataset (evolution_path tag) (Arr2 (take 8 <$> isochrones)) h in
  set_attr (evolution_path tag) "model" (AStr "manual") h.

(** The columns of a table, for [np.loadtxt(..., unpack=True)]. *)
Definition unpack (a : ndarray) : result (list (list float)) :=
  match a with
  | Arr2 m => for_each (seq 0 (width m)) (fun acc j => let* c := column j m in ok (acc ++ [c])) []
  | _ => raise ValueError
  end.

(** [np.transpose(np.vstack(cols))] *)
Fixpoint rows_of (n : nat) (cols : list (list float)) : list (list float) :=
  match n with
  | 0 => []
  | S n' => omap head cols :: rows_of n' (drop 1 <$> cols)
  end.

Definition add_marleau {C : Collab} (tag file_name : string) (database : node) : result node :=
  let* cols := bind (loadtxt file_name) unpack in
  match cols with
  | [mass; age; _; luminosity; _; radius; teff] =>
      let age := (fun a => PrimFloat.mul a 1e3) <$> age in
      let luminosity := log10 <$> luminosity in
      let mass_cgs := (fun m => PrimFloat.mul (PrimFloat.mul 1e3 m) M_JUP) <$> mass in
      let radius_cgs := (fun r => PrimFloat.mul (PrimFloat.mul 1e2 r) R_JUP) <$> radius in
      let logg :=
        zip_with (fun m r =>
                    log10 (PrimFloat.div (PrimFloat.mul (PrimFloat.mul 1e3 GRAVITY) m)
                                         (PrimFloat.mul r r)))
                 mass_cgs radius_cgs in
      let isochrones := rows_of (length age) [age; mass; teff; luminosity; logg] in
      let* isochrones := sort_by_age isochrones in
      let* h := create_dataset (evolution_path tag) (Arr2 isochrones) database in
      set_attr (evolution_path tag) "model" (AStr "marleau") h
  | _ => raise ValueError
  end.

(** A line of a Sonora or Saumon and Marley table, parsed:
    [age(Gyr), M/Msun, log(L/Lsun), Teff(K), log(g), ...]. *)
Definition evolution_row {C : Collab} (param : list float) : result (list float) :=
  let* p0 := of_option IndexError (param !! 0) in
  let* p1 := of_option IndexError (param !! 1) in
  let p0 := PrimFloat.mul 1e3 p0 in
  let p1 := PrimFloat.div (PrimFloat.mul p1 M_SUN) M_JUP in
  let* p3 := of_option IndexError (param !! 3) in
  let* p2 := of_option IndexError (param !! 2) in
  let* p4 := of_option IndexError (param !! 4) in
  ok [p0; p1; p3; p2; p4].

(** The table that [add_sonora] and [add_saumon] store for one file: the
    parsed lines in the order of the file. *)
Definition evolution_table {C : Collab} (lines : list (list float)) : result (list (list float)) :=
  for_each lines (fun acc param => let* r := evolution_row param in ok (acc ++ [r])) [].

Definition store_evolution (tag model : string) (isochrones : list (list float))
    (database : node) : result node :=
  let* h := create_dataset (evolution_path tag) (Arr2 isochrones) database in
  set_attr (evolution_path tag) "model" (AStr model) h.

(** [add_sonora], from the parsed lines of its three tables. *)
Definition add_sonora {C : Collab} (tables : list (list (list float))) (database : node)
  : result node :=
  let labels := ["[M/H] = +0.0"; "[M/H] = +0.5"; "[M/H] = -0.5"] in
  for_each (zip labels tables)
    (fun h lt =>
       let* isochrones := evolution_table lt.2 in
       let metal := default EmptyString (split_on " " lt.1 !! 2) in
       store_evolution ("sonora" +:+ metal) "sonora" isochrones h) database.

(** [add_saumon], from the parsed lines of its five tables. *)
Definition add_saumon {C : Collab} (tables : list (list (list float))) (database : node)
  : result node :=
  let db_tags := ["saumon2008-nc_solar"; "saumon2008-nc_-0.3"; "saumon2008-nc_+0.3";
                  "saumon2008-f2_solar"; "saumon2008-hybrid_solar"] in
  for_each (zip db_tags tables)
    (fun h tt =>
       let* isochrones := evolution_table tt.2 in
       store_evolution tt.1 "saumon2008" isochrones h) database.

(** [add_baraffe2015], from the table of the downloaded file. *)
Definition add_baraffe2015 {C : Collab} (data_file : string) (database : node) : result node :=
  let* cols := bind (loadtxt data_file) unpack in
  match cols with
  | [mass; log_age; teff; log_lum; log_g; _; _; _; _; _; _; _; _] =>
      let age := (fun a => PrimFloat.mul 1e-6 (pow10 a)) <$> log_age in
      let mass := (fun m => PrimFloat.mul m (PrimFloat.div M_SUN M_JUP)) <$> mass in
      let isochrones := rows_of (length age) [age; mass; teff; log_lum; log_g] in
      store_evolution "baraffe2015" "baraffe2015" isochrones database
  | _ => raise ValueError
  end.


End Isochrones.

(** ** [Database.delete_data] *)

Module Maintenance.

(** The warning of [delete_data]. *)
Inductive notice :=
| NotFound (dataset : string).

Definition delete_data (dataset : string) (h5_file : node) : result (node * list notice) :=
  (* h5py answers [False] to ['' in hdf_file] *)
  if bool_decide (dataset <> EmptyString) && contains (h5path dataset) h5_file
  then let* h := del_item (h5path dataset) h5_file in ok (h, [])
  else ok (h5_file, [NotFound dataset]).

End Maintenance.

(** ** A small world to run the model in

    One instance of the collaborators, with a filter that the profile
    service knows ([Test/Synthetic]) and files of a few lines, and the
    databases that the examples below start from. *)

Module Fixture.

Import Filter Samples Retrieval PT Object Isochrones.

Definition identity4 : list (list float) :=
  [[1; 0; 0; 0]; [0; 1; 0; 0]; [0; 0; 1; 0]; [0; 0; 0; 1]]%float.

Definition spectrum4 : list (list float) :=
  [[1.0; 2.0; 0.1]; [1.1; 2.1; 0.2]; [1.2; 2.2; 0.3]; [1.3; 2.3; 0.4]]%float.

Definition demo_radtrans : radtrans := {|
  rt_distance := 19.75;
  rt_line_species := ["H2O"; "CO"];
  rt_cloud_species := ["MgSiO3(c)_cd"];
  rt_scattering := false;
  rt_pt_profile := "free";
  rt_chemistry := "equilibrium";
  rt_wavel_range := (0.9, 2.5)%float;
  rt_quenching := Some "diffusion";
  rt_pt_smooth := Some 0.3%float;
  rt_pressure_grid := "smaller";
|}.

(** The parameters of a retrieval with a free temperature profile: the
    temperatures at the fifteen knots. *)
Definition knot_names : list string :=
  (fun i => "t" +:+ fmt_nat i) <$> seq 0 15.

Definition scale_by_sigma (m : list (list float)) (sigma : list float)
  : list (list float) :=
  imap (fun i r =>
          imap (fun j x => PrimFloat.mul (PrimFloat.mul x (sigma !!! i)) (sigma !!! j)) r) m.

Definition demo : Collab := {|
  loadtxt f :=
    if decide (f = "covariance.dat") then ok (Arr2 identity4)
    else if decide (f = "spectrum.dat") then ok (Arr2 spectrum4)
    else if decide (f = "marleau.dat")
         then ok (Arr2 [[1; 0.02; 9; 1e-5; 9; 1.1; 400];
                        [1; 0.01; 9; 2e-5; 9; 1.2; 500]]%float)
    else raise OSError;
  download_filter name :=
    if decide (name = "Test/Synthetic")
    then (Some [1.0; 1.5; 1.4; 2.0]%float, Some [0.1; 0.9; 0.8; 0.2]%float, "photon")
    else (None, None, "None");
  download_warnings name :=
    if decide (name = "Test/Synthetic") then []
    else ["Filter not found on the SVO Filter Profile Service"];
  integrated_time _ := None;
  log10 x := if PrimFloat.eqb x 1 then 0%float else x;
  pow10 x := x;
  randint _ n := replicate n 0;
  M_SUN := 1.9885e30;
  M_JUP := 1.898e27;
  R_JUP := 7.1492e7;
  GRAVITY := 6.6743e-11;
  params_json folder :=
    if decide (folder = "multinest") then ok ["logg"; "mgsio3_tau"]
    else if decide (folder = "knots") then ok knot_names
    else raise OSError;
  radtrans_json folder :=
    if decide (folder = "multinest") then ok demo_radtrans
    else if decide (folder = "knots") then ok demo_radtrans
    else raise OSError;
  post_equal_weights folder :=
    if decide (folder = "multinest")
    then ok (Arr2 [[3.5; 0.1; -10]; [4.0; 0.2; -5]]%float)
    else if decide (folder = "knots")
    then ok (Arr2 [[3000; 2500; 2200; 2000; 1800; 1600; 1400; 1200; 1000; 900;
                    800; 700; 600; 500; 400; -10];
                   [3100; 2600; 2300; 2100; 1900; 1700; 1500; 1300; 1100; 950;
                    850; 750; 650; 550; 450; -5]]%float)
    else raise OSError;
  cloud_mass_fraction _ _ _ _ := ok 0.5%float;
  quench_pressure _ _ _ := ok 10%float;
  retrieval_teff _ _ := ok [1000; 1100]%float;
  pt_ret_model _ _ _ _ press _ _ := press;
  pt_spline_interp _ _ press _ := press;
  add_library name h :=
    if decide (name = "vega")
    then create_dataset (h5path "spectra/calibration/vega") (Arr2 []) h
    else ok h;
  magnitude_to_flux h name mag err :=
    match lookup_path (filter_path name) h with
    | Some (Dataset _ _) => ok (1e-15, 1e-16)%float
    | _ => raise KeyError
    end;
  flux_warnings h name :=
    match lookup_path (filter_path name) h with
    | Some (Dataset _ _) => []
    | _ => ["Filter not found on the SVO Filter Profile Service"]
    end;
  get_filter h name :=
    match lookup_path (filter_path name) h with
    | Some (Dataset (Arr2 m) _) => ok m
    | _ => raise KeyError
    end;
  spectrum_to_flux _ _ _ _ := ok 1%float;
  ism_extinction _ _ w := (fun _ => 0%float) <$> w;
  fits_open _ := raise OSError;
  correlation_to_covariance := scale_by_sigma;
  linalg_inv m := ok m;
  parse_float _ := raise ValueError;
|}.

(** The file of a run that went through, and the attributes of the node
    at a path. *)
Definition file_of (r : result node) : node :=
  match r with
  | inr h => h
  | inl _ => empty_group
  end.

Definition attrs_at (p : list string) (h : node) : gmap string attr :=
  node_attrs (default empty_group (lookup_path p h)).

(** The rows of the two-dimensional dataset at a path. *)
Definition rows_at (p : list string) (h : node) : list (list float) :=
  match lookup_path p h with
  | Some (Dataset (Arr2 m) _) => m
  | _ => []
  end.


(** A sample set of two samples from nested sampling. *)
Definition nested : result node :=
  add_samples (C := demo) "multinest" (Arr2 [[1200; 4.5]; [1350; 4.0]]%float)
              (Arr1 [-5.0; -1.0]%float) (Some (-3.0, 0.1)%float) None
              ("model", "drift-phoenix") "planet" ["teff"; "logg"]
              (Some 19.75%float) None empty_group.

(** A chain of 10 walkers, 50 steps and 3 parameters. *)
Definition chain : list (list (list float)) :=
  replicate 10 (replicate 50 [1200; 4.5; 1.1]%float).

Definition sampled : result node :=
  add_samples (C := demo) "emcee" (Arr3 chain) (Arr2 (replicate 10 (replicate 50 (-1)%float)))
              None (Some 0.25%float) ("model", "drift-phoenix") "planet"
              ["teff"; "logg"; "radius"] None None empty_group.

(** The database after the first block of [add_retrieval] on the output
    folder [multinest], before the derived columns are appended, and
    after all of it. *)
Definition stored : result node :=
  let* st := store_retrieval "planet" ["logg"; "mgsio3_tau"] demo_radtrans
                [[3.5; 0.1; -10]; [4.0; 0.2; -5]]%float empty_group in
  ok st.1.

Definition retrieved_clouds : result node :=
  add_retrieval (C := demo) "planet" "multinest" true empty_group.

(** The database after [add_retrieval] on the output folder of a
    retrieval with a free temperature profile and two samples. *)
Definition retrieved : result node :=
  add_retrieval (C := demo) "planet" "knots" false empty_group.


(** The same collaborators with a FITS file [covariance.fits]: a primary
    unit without data and an image unit with the identity matrix; and with
    a file of evolutionary tracks of thirteen columns, the older age first,
    and a reader of the numbers of [manual_lines]. *)
Definition observatory : Collab := {|
  loadtxt f :=
    if decide (f = "BHAC15_tracks+structure")
    then ok (Arr2 [[0.01; 7.0; 2300; -2.5; 3.9; 0.3; 0; 0; 0; 0; 0; 0; 0];
                   [0.01; 6.0; 2400; -2.0; 3.5; 0.5; 0; 0; 0; 0; 0; 0; 0]]%float)
    else @loadtxt demo f;
  download_filter := @download_filter demo;
  download_warnings := @download_warnings demo;
  integrated_time := @integrated_time demo;
  log10 := @log10 demo;
  pow10 := @pow10 demo;
  randint := @randint demo;
  M_SUN := @M_SUN demo;
  M_JUP := @M_JUP demo;
  R_JUP := @R_JUP demo;
  GRAVITY := @GRAVITY demo;
  params_json := @params_json demo;
  radtrans_json := @radtrans_json demo;
  post_equal_weights := @post_equal_weights demo;
  cloud_mass_fraction := @cloud_mass_fraction demo;
  quench_pressure := @quench_pressure demo;
  retrieval_teff := @retrieval_teff demo;
  pt_ret_model := @pt_ret_model demo;
  pt_spline_interp := @pt_spline_interp demo;
  add_library := @add_library demo;
  magnitude_to_flux := @magnitude_to_flux demo;
  flux_warnings := @flux_warnings demo;
  get_filter := @get_filter demo;
  spectrum_to_flux := @spectrum_to_flux demo;
  ism_extinction := @ism_extinction demo;
  fits_open f :=
    if decide (f = "covariance.fits")
    then ok [ {| hdu_header := {["SIMPLE" := "T"]}; hdu_table := ∅; hdu_data := None |};
              {| hdu_header := ∅; hdu_table := ∅; hdu_data := Some (Arr2 identity4) |} ]
    else raise OSError;
  correlation_to_covariance := @correlation_to_covariance demo;
  linalg_inv := @linalg_inv demo;
  parse_float t :=
    if decide (t = "0.01") then ok 0.01%float
    else if decide (t = "0.02") then ok 0.02%float
    else if decide (t = "0.05") then ok 0.05%float
    else if decide (t = "2000") then ok 2000%float
    else raise ValueError;
|}.

(** The lines of a file of isochrones as the first loop of [add_manual]
    leaves them: two ages, the older one first, with one row each. *)
Definition manual_lines : list (list string) :=
  [["t"; "(Gyr)"; "="; "0.02"];
   ["M/Ms"; "Teff"; "L/Ls"; "g"; "R/Rs"; "Li/Li0"; "Mj"];
   ["0.05"; "2000"];
   ["t"; "(Gyr)"; "="; "0.01"];
   ["0.05"; "2000"]].

(** A sample set of two samples of a retrieval with the profile of
    Molliere et al., written by hand: [add_samples] and the attribute
    [pt_profile] that [add_retrieval] would set. *)
Definition profiled : result node :=
  let* h :=
    add_samples (C := demo) "multinest"
      (Arr2 [[1500; 1200; 900; -5.5; 1.5; 300; 0.1; 0.55];
             [1550; 1250; 950; -5.0; 1.6; 320; 0.2; 0.60]]%float)
      (Arr1 [-5.0; -1.0]%float) None None ("model", "petitradtrans") "planet"
      ["t1"; "t2"; "t3"; "log_delta"; "alpha"; "tint"; "metallicity"; "c_o_ratio"]
      None None empty_group in
  set_attr (samples_path "planet") "pt_profile" (AStr "molliere") h.


(** The lines of an evolution table that lists the older age first:
    [age(Gyr), M/Msun, log(L/Lsun), Teff(K), log(g), R/Rsun]. *)
Definition older_first : list (list float) :=
  [[2.0; 0.01; -5.0; 500; 4.5; 0.1]; [1.0; 0.01; -4.5; 600; 4.4; 0.1]]%float.

(** The database after [add_sonora] on three such tables. *)
Definition sonora : result node :=
  add_sonora (C := demo) [older_first; older_first; older_first] empty_group.

End Fixture.

(** * Properties *)

(** ** Loops and exceptions *)

Module PyFacts.

Lemma bind_ok {A B} (m : result A) (k : A -> result B) b :
  Py.bind m k = ok b -> exists a, m = ok a /\ k a = ok b.
Proof. destruct m as [e|a]; simpl; [discriminate | eauto]. Qed.

Lemma for_each_app {A S} (xs ys : list A) (body : S -> A -> result S) acc :
  for_each (xs ++ ys) body acc = Py.bind (for_each xs body acc) (for_each ys body).
Proof.
  revert acc; induction xs as [|x xs IH]; intros acc; simpl; [done|].
  destruct (body acc x) as [e|s]; simpl; [done | apply IH].
Qed.

(** An invariant of the loop body holds after the loop. *)
Lemma for_each_invariant {A S} (P : S -> Prop) (xs : list A) (body : S -> A -> result S) acc r :
  (forall s x s', x ∈ xs -> P s -> body s x = ok s' -> P s') ->
  P acc -> for_each xs body acc = ok r -> P r.
Proof.
  revert acc; induction xs as [|x xs IH]; intros acc Hstep Hacc Hrun; simpl in Hrun.
  - by injection Hrun as <-.
  - apply bind_ok in Hrun as (s & Hs & Hrun).
    eapply IH; [| |exact Hrun].
    + intros ? ? ? ?; apply Hstep; by right.
    + eapply Hstep; [by left | exact Hacc | exact Hs].
Qed.

(** A loop whose body cannot fail under the invariant completes. *)
Lemma for_each_total {A S} (P : S -> Prop) (xs : list A) (body : S -> A -> result S) acc :
  (forall s x, x ∈ xs -> P s -> exists s', body s x = ok s' /\ P s') ->
  P acc -> exists r, for_each xs body acc = ok r /\ P r.
Proof.
  revert acc; induction xs as [|x xs IH]; intros acc Hstep Hacc; simpl.
  - eauto.
  - destruct (Hstep acc x) as (s & -> & Hs); [by left | done |]. simpl.
    apply IH; [|done]. intros ? ? ?; apply Hstep; by right.
Qed.

End PyFacts.

(** ** The file tree *)

Module H5Facts.
Import PyFacts.

Lemma lookup_path_cons k p m a :
  lookup_path (k :: p) (Group m a) =
  match m !! k with Some c => lookup_path p c | None => None end.
Proof. done. Qed.

Lemma create_node_cons k k' p v m a :
  create_node (k :: k' :: p) v (Group m a) =
  let* c := create_node (k' :: p) v (default empty_group (m !! k)) in
  ok (Group (<[k := c]> m) a).
Proof. done. Qed.

Lemma create_node_single k v m a :
  create_node [k] v (Group m a) =
  match m !! k with
  | Some _ => raise ValueError
  | None => ok (Group (<[k := v]> m) a)
  end.
Proof. done. Qed.

Lemma remove_path_cons k k' p m a :
  remove_path (k :: k' :: p) (Group m a) =
  match m !! k with
  | Some c => Group (<[k := remove_path (k' :: p) c]> m) a
  | None => Group m a
  end.
Proof. done. Qed.

Lemma remove_path_single k m a :
  remove_path [k] (Group m a) = Group (delete k m) a.
Proof. done. Qed.

Lemma lookup_create_node p v n n' :
  create_node p v n = ok n' -> lookup_path p n' = Some v.
Proof.
  revert n n'; induction p as [|k p IH]; intros n n' H; simpl in H; [discriminate|].
  destruct n as [|m a]; [discriminate|].
  destruct p as [|k' p].
  - destruct (m !! k); [discriminate|]. injection H as <-.
    simpl. by rewrite lookup_insert_eq.
  - apply bind_ok in H as (c & Hc & H). injection H as <-.
    rewrite lookup_path_cons, lookup_insert_eq. by eapply IH.
Qed.

Lemma update_path_lookup p f n n' :
  update_path p f n = ok n' ->
  exists d, lookup_path p n = Some d /\ lookup_path p n' = Some (f d).
Proof.
  revert n n'; induction p as [|k p IH]; intros n n' H; simpl in H.
  - injection H as <-. eauto.
  - destruct n as [|m a]; [discriminate|].
    destruct (m !! k) as [c|] eqn:Hk; [|discriminate].
    apply bind_ok in H as (c' & Hc & H). injection H as <-.
    destruct (IH _ _ Hc) as (d & Hd & Hd'). exists d. simpl.
    by rewrite Hk, lookup_insert_eq.
Qed.

Lemma update_path_total p f n d :
  lookup_path p n = Some d -> exists n', update_path p f n = ok n'.
Proof.
  revert n; induction p as [|k p IH]; intros n H; simpl in *; [eauto|].
  destruct n as [|m a]; [discriminate|].
  destruct (m !! k) as [c|]; [|discriminate].
  destruct (IH _ H) as (c' & ->). simpl. eauto.
Qed.

Lemma set_attr_lookup p k v n d :
  lookup_path p n = Some d ->
  exists n', set_attr p k v n = ok n' /\ lookup_path p n' = Some (with_attr k v d).
Proof.
  intros H. destruct (update_path_total p (with_attr k v) n d H) as (n' & Hn').
  exists n'. split; [done|].
  destruct (update_path_lookup _ _ _ _ Hn') as (d' & Hd & Hd'). congruence.
Qed.

Lemma set_attr_inv p k v n n' :
  set_attr p k v n = ok n' ->
  exists d, lookup_path p n = Some d /\ lookup_path p n' = Some (with_attr k v d).
Proof. apply update_path_lookup. Qed.


Lemma contains_true q n : contains q n = true <-> is_Some (lookup_path q n).
Proof. unfold contains. destruct (lookup_path q n); split; (done || by eauto || by intros [? ?]). Qed.

Lemma contains_false q n : contains q n = false <-> lookup_path q n = None.
Proof. unfold contains. by destruct (lookup_path q n). Qed.






(** Removing a link that is not there changes nothing. *)
Lemma remove_path_absent p n :
  lookup_path p n = None -> remove_path p n = n.
Proof.
  revert n; induction p as [|k p IH]; intros n H; [done|].
  destruct n as [|m a]; [done|]. rewrite lookup_path_cons in H. simpl.
  destruct p as [|k' p].
  - destruct (m !! k) eqn:Hk; [done|]. by rewrite delete_id.
  - destruct (m !! k) as [c|] eqn:Hk; [|done].
    rewrite (IH c H). by rewrite insert_id.
Qed.

Lemma lookup_remove_path p n :
  p <> [] -> lookup_path p (remove_path p n) = None.
Proof.
  revert n; induction p as [|k p IH]; intros n Hp; [done|].
  destruct n as [|m a]; [done|]. simpl remove_path.
  destruct p as [|k' p].
  - simpl. by rewrite lookup_delete_eq.
  - destruct (m !! k) as [c|] eqn:Hk.
    + rewrite lookup_path_cons, lookup_insert_eq. by apply IH.
    + by rewrite lookup_path_cons, Hk.
Qed.




End H5Facts.

(** ** The order of the doubles *)

Module FloatFacts.

(** The place of a number among the doubles: the sign class, then the
    exponent and the mantissa (negated for negative numbers). *)
Definition rank (x : spec_float) : option (Z * Z * Z) :=
  match x with
  | S754_nan => None
  | S754_infinity true => Some (-2, 0, 0)%Z
  | S754_infinity false => Some (2, 0, 0)%Z
  | S754_zero _ => Some (0, 0, 0)%Z
  | S754_finite true m e => Some (-1, - e, - Z.pos m)%Z
  | S754_finite false m e => Some (1, e, Z.pos m)%Z
  end.

Definition lt3 (a b : Z * Z * Z) : Prop :=
  (a.1.1 < b.1.1 \/ (a.1.1 = b.1.1 /\ (a.1.2 < b.1.2 \/ (a.1.2 = b.1.2 /\ a.2 < b.2))))%Z.

Lemma SFcompare_rank x y :
  match SFcompare x y with
  | None => rank x = None \/ rank y = None
  | Some Lt => exists a b, rank x = Some a /\ rank y = Some b /\ lt3 a b
  | Some Eq => exists a, rank x = Some a /\ rank y = Some a
  | Some Gt => exists a b, rank x = Some a /\ rank y = Some b /\ lt3 b a
  end.
Proof.
  destruct x as [sx|sx| |sx mx ex], y as [sy|sy| |sy my ey]; simpl;
    repeat match goal with b : bool |- _ => destruct b end; simpl;
    try (by eauto); try (by (do 2 eexists; split; [done|split; [done|unfold lt3; simpl; lia]])).
  - destruct (Z.compare_spec ex ey) as [->|?|?]; simpl.
    + rewrite Pos.compare_cont_spec. simpl.
      destruct (Pos.compare_spec mx my) as [->|?|?]; simpl; eauto;
        do 2 eexists; (split; [done|split; [done|unfold lt3; simpl; lia]]).
    + do 2 eexists; (split; [done|split; [done|unfold lt3; simpl; lia]]).
    + do 2 eexists; (split; [done|split; [done|unfold lt3; simpl; lia]]).
  - destruct (Z.compare_spec ex ey) as [->|?|?]; simpl.
    + rewrite Pos.compare_cont_spec. simpl.
      destruct (Pos.compare_spec mx my) as [->|?|?]; simpl; eauto;
        do 2 eexists; (split; [done|split; [done|unfold lt3; simpl; lia]]).
    + do 2 eexists; (split; [done|split; [done|unfold lt3; simpl; lia]]).
    + do 2 eexists; (split; [done|split; [done|unfold lt3; simpl; lia]]).
Qed.

Definition frank (x : float) : option (Z * Z * Z) := rank (Prim2SF x).

Lemma ltb_rank x y :
  PrimFloat.ltb x y = true <-> exists a b, frank x = Some a /\ frank y = Some b /\ lt3 a b.
Proof.
  rewrite FloatAxioms.ltb_spec. unfold SFltb, frank.
  pose proof (SFcompare_rank (Prim2SF x) (Prim2SF y)) as H.
  destruct (SFcompare (Prim2SF x) (Prim2SF y)) as [[]|]; split; try done.
  - intros (a & b & Ha & Hb & Hlt). destruct H as (c & Hc & Hc').
    rewrite Hc in Ha. rewrite Hc' in Hb. simplify_eq. unfold lt3 in Hlt. lia.
  - intros (a & b & Ha & Hb & Hlt). destruct H as (a' & b' & Ha' & Hb' & Hlt').
    rewrite Ha' in Ha. rewrite Hb' in Hb. simplify_eq. unfold lt3 in *. lia.
  - intros (a & b & Ha & Hb & Hlt). destruct H as [H|H]; congruence.
Qed.

Definition le3 (a b : Z * Z * Z) : Prop := lt3 a b \/ a = b.

Lemma leb_rank x y :
  PrimFloat.leb x y = true <-> exists a b, frank x = Some a /\ frank y = Some b /\ le3 a b.
Proof.
  rewrite FloatAxioms.leb_spec. unfold SFleb, frank.
  pose proof (SFcompare_rank (Prim2SF x) (Prim2SF y)) as H.
  destruct (SFcompare (Prim2SF x) (Prim2SF y)) as [[]|]; split; try done.
  - intros _. destruct H as (c & Hc & Hc'). exists c, c. unfold le3. eauto.
  - intros _. destruct H as (a & b & Ha & Hb & Hlt). exists a, b. unfold le3. eauto.
  - intros (a & b & Ha & Hb & Hle). destruct H as (a' & b' & Ha' & Hb' & Hlt').
    rewrite Ha' in Ha. rewrite Hb' in Hb. simplify_eq.
    destruct Hle as [Hlt| ->]; unfold lt3 in *; lia.
  - intros (a & b & Ha & Hb & Hlt). destruct H as [H|H]; congruence.
Qed.

Lemma is_nan_rank x : is_nan x = true <-> frank x = None.
Proof.
  unfold is_nan. rewrite FloatAxioms.eqb_spec. unfold SFeqb, frank.
  pose proof (SFcompare_rank (Prim2SF x) (Prim2SF x)) as H.
  destruct (SFcompare (Prim2SF x) (Prim2SF x)) as [[]|]; simpl; split; intros Hx; try done.
  all: try (destruct H as (a & b & Ha & Hb & Hlt); simplify_eq; unfold lt3 in Hlt; lia).
  all: try (destruct H as (c & Hc & _); congruence).
  all: by destruct H.
Qed.

Lemma is_nan_false_rank x : is_nan x = false <-> is_Some (frank x).
Proof.
  rewrite <- not_true_iff_false, is_nan_rank.
  destruct (frank x); split; intros H; try done; try (by destruct H).
Qed.

Lemma ltb_trans x y z :
  PrimFloat.ltb x y = true -> PrimFloat.ltb y z = true -> PrimFloat.ltb x z = true.
Proof.
  rewrite !ltb_rank. intros (a & b & Ha & Hb & Hab) (b' & c & Hb' & Hc & Hbc).
  simplify_eq. exists a, c. repeat split; try done. unfold lt3 in *. lia.
Qed.

Lemma sort_lt_asym x y : sort_lt x y = true -> sort_lt y x = false.
Proof.
  unfold sort_lt. intros H.
  apply orb_true_iff in H as [H|H].
  - apply ltb_rank in H as (a & b & Ha & Hb & Hab).
    apply orb_false_iff. split.
    + apply not_true_iff_false. rewrite ltb_rank.
      intros (b' & a' & Hb' & Ha' & Hba). simplify_eq. unfold lt3 in *. lia.
    + apply andb_false_iff. left. apply is_nan_false_rank. by rewrite Ha.
  - apply andb_true_iff in H as [Hy Hx]. apply negb_true_iff in Hx.
    apply orb_false_iff. split.
    + apply not_true_iff_false. rewrite ltb_rank.
      intros (b' & a' & Hb' & Ha' & Hba). apply is_nan_rank in Hy. congruence.
    + by rewrite Hx.
Qed.

(** Among numbers, "not less or equal" is "greater". *)
Lemma not_leb_ltb x y :
  is_nan x = false -> is_nan y = false -> PrimFloat.leb x y = false -> PrimFloat.ltb y x = true.
Proof.
  rewrite !is_nan_false_rank. intros [a Ha] [b Hb] H.
  apply ltb_rank. exists b, a. repeat split; try done.
  apply not_true_iff_false in H. rewrite leb_rank in H.
  destruct (decide (lt3 b a)) as [|Hn]; [done|]. exfalso. apply H. exists a, b.
  repeat split; try done. unfold le3, lt3 in *.
  destruct a as [[a1 a2] a3], b as [[b1 b2] b3]; simpl in *.
  destruct (decide ((a1, a2, a3) = (b1, b2, b3))) as [|Hne]; [by right|left].
  assert (a1 <> b1 \/ a2 <> b2 \/ a3 <> b3) by (destruct (decide (a1 = b1)), (decide (a2 = b2)), (decide (a3 = b3)); subst; tauto).
  lia.
Qed.

Lemma leb_ltb_trans x y z :
  PrimFloat.leb x y = true -> PrimFloat.ltb y z = true -> PrimFloat.leb x z = true.
Proof.
  rewrite !leb_rank, ltb_rank. intros (a & b & Ha & Hb & Hab) (b' & c & Hb' & Hc & Hbc).
  simplify_eq. exists a, c. repeat split; try done. left.
  destruct Hab as [Hab| ->]; [|done]. unfold lt3 in *. lia.
Qed.

Lemma leb_refl x : is_nan x = false -> PrimFloat.leb x x = true.
Proof.
  rewrite is_nan_false_rank. intros [a Ha]. apply leb_rank. exists a, a.
  repeat split; try done. by right.
Qed.

Lemma ltb_leb x y : PrimFloat.ltb x y = true -> PrimFloat.leb x y = true.
Proof.
  rewrite ltb_rank, leb_rank. intros (a & b & ? & ? & ?). exists a, b. unfold le3. eauto.
Qed.

End FloatFacts.

(** ** add_filter *)

Module FilterFacts.
Import PyFacts H5Facts FloatFacts Filter.

(** A loop over [range(n)] with an invariant that follows the counter. *)
Lemma for_each_seq_invariant {S} (P : nat -> S -> Prop) (body : S -> nat -> result S)
    a n acc r :
  P a acc ->
  (forall i s s', a <= i < a + n -> P i s -> body s i = ok s' -> P (Datatypes.S i) s') ->
  for_each (seq a n) body acc = ok r -> P (a + n) r.
Proof.
  revert a acc; induction n as [|n IH]; intros a acc Hacc Hstep Hrun; simpl in Hrun.
  - injection Hrun as <-. by rewrite Nat.add_0_r.
  - apply bind_ok in Hrun as (s & Hs & Hrun).
    replace (a + Datatypes.S n) with (Datatypes.S a + n) by lia.
    eapply IH; [| |exact Hrun].
    + eapply Hstep; [|exact Hacc|exact Hs]. lia.
    + intros i s0 s' Hi. apply Hstep. lia.
Qed.

Lemma strictly_increasing_snoc v top w :
  strictly_increasing v -> last v = Some top -> PrimFloat.ltb top w = true ->
  strictly_increasing (v ++ [w]).
Proof.
  intros Hv Hlast Hlt i j x y Hij Hx Hy.
  rewrite last_lookup in Hlast.
  assert (j < length (v ++ [w])) as Hj by (by eapply lookup_lt_Some).
  rewrite length_app in Hj. simpl in Hj.
  destruct (decide (j = length v)) as [->|Hne].
  - rewrite lookup_app_r, Nat.sub_diag in Hy by lia. simpl in Hy. injection Hy as <-.
    rewrite lookup_app_l in Hx by lia.
    destruct (decide (i = pred (length v))) as [->|Hi].
    + rewrite Hlast in Hx. by injection Hx as <-.
    + eapply ltb_trans; [|exact Hlt]. eapply (Hv i (pred (length v))); [lia|done|done].
  - rewrite lookup_app_l in Hx by lia. rewrite lookup_app_l in Hy by lia. exact (Hv i j x y Hij Hx Hy).
Qed.

Lemma sublist_take_mono {A} (l k : list A) i j :
  i <= j -> sublist l (take i k) -> sublist l (take j k).
Proof.
  intros Hij Hl. etrans; [exact Hl|].
  replace (take i k) with (take i (take j k)) by (rewrite take_take; f_equal; lia).
  apply sublist_take.
Qed.

(** What the loop of [add_filter] keeps: the kept wavelengths increase, and
    the kept rows are rows of the input, in their order. *)
Definition kept (wavelength transmission : list float) (i : nat)
    (acc : list float * list float) : Prop :=
  strictly_increasing acc.1 /\ acc.1 <> [] /\ length acc.1 = length acc.2 /\
  sublist (zip acc.1 acc.2) (take (Datatypes.S i) (zip wavelength transmission)).

Lemma keep_increasing_kept wavelength transmission i acc acc' :
  kept wavelength transmission i acc ->
  keep_increasing wavelength transmission acc i = ok acc' ->
  kept wavelength transmission (Datatypes.S i) acc'.
Proof.
  intros (Hinc & Hne & Hlen & Hsub) H. unfold keep_increasing in H.
  apply bind_ok in H as (w & Hw & H).
  apply bind_ok in H as (top & Htop & H).
  destruct (wavelength !! (i + 1)) as [w'|] eqn:Hwi; [|discriminate]. injection Hw as ->.
  destruct (last acc.1) as [top'|] eqn:Hlast; [|discriminate]. injection Htop as ->.
  destruct (PrimFloat.ltb top w) eqn:Hlt.
  - apply bind_ok in H as (t & Ht & H). injection H as <-.
    destruct (transmission !! (i + 1)) as [t'|] eqn:Hti; [|discriminate]. injection Ht as ->.
    repeat split; simpl.
    + by eapply strictly_increasing_snoc.
    + by destruct acc.1.
    + rewrite !length_app. simpl. lia.
    + rewrite zip_with_app by done.
      rewrite (take_S_r _ (Datatypes.S i) (w, t)).
      * by apply sublist_app.
      * replace (Datatypes.S i) with (i + 1) by lia.
        rewrite lookup_zip_with, Hwi. simpl. by rewrite Hti.
  - injection H as <-. repeat split; try done.
    eapply sublist_take_mono; [|exact Hsub]. lia.
Qed.

Lemma monotonic_profile_kept wavelength transmission wn tn :
  monotonic_profile wavelength transmission = ok (wn, tn) ->
  strictly_increasing wn /\ length wn = length tn /\
  sublist (zip wn tn) (zip wavelength transmission).
Proof.
  unfold monotonic_profile. intros H.
  apply bind_ok in H as (w0 & Hw0 & H).
  apply bind_ok in H as (t0 & Ht0 & H).
  destruct (wavelength !! 0) as [w0'|] eqn:Hw; [|discriminate]. injection Hw0 as ->.
  destruct (transmission !! 0) as [t0'|] eqn:Ht; [|discriminate]. injection Ht0 as ->.
  unfold range in H.
  apply (for_each_seq_invariant (kept wavelength transmission)) in H.
  - destruct H as (Hinc & _ & Hlen & Hsub). repeat split; try done.
    etrans; [exact Hsub|]. apply sublist_take.
  - repeat split; simpl; try done.
    + intros i j x y Hij Hx Hy. apply lookup_lt_Some in Hy. simpl in Hy. lia.
    + destruct wavelength, transmission; simplify_eq/=. done.
  - intros i s s' _. apply keep_increasing_kept.
Qed.

Lemma column_stack2_ok a b data :
  column_stack2 a b = ok data ->
  length a = length b /\ data = zip_with (fun x y => [x; y]) a b.
Proof.
  unfold column_stack2. destruct (decide _); [|discriminate]. by injection 1 as <-.
Qed.

(** The first column of the stored array is [wavel_new]. *)
Lemma column_stack2_first a b data :
  column_stack2 a b = ok data -> column 0 data = ok a.
Proof.
  intros (Hlen & ->)%column_stack2_ok. unfold column.
  enough (forall acc, for_each (zip_with (fun x y => [x; y]) a b)
            (fun acc r => let* x := of_option IndexError (r !! 0) in ok (acc ++ [x])) acc
          = ok (acc ++ a)) as Hgen by apply (Hgen []).
  revert b Hlen; induction a as [|x a IH]; intros [|y b] Hlen acc; simplify_eq/=.
  - by rewrite app_nil_r.
  - rewrite IH by done. by rewrite <- app_assoc.
Qed.

End FilterFacts.

(** ** argmax *)

Module ArgmaxFacts.
Import PyFacts FloatFacts.

(** What the scan of [argmax] keeps: [mp] is the entry at [best], no
    number seen so far is greater, and those before [best] are smaller. *)
Lemma argmax_loop_greatest pre mp best xs :
  Forall (fun x => is_nan x = false) (pre ++ xs) ->
  pre !! best = Some mp ->
  (forall j x, pre !! j = Some x ->
     PrimFloat.leb x mp = true /\ (j < best -> PrimFloat.ltb x mp = true)) ->
  let k := argmax_loop mp best (length pre) xs in
  exists y, (pre ++ xs) !! k = Some y /\
    forall j x, (pre ++ xs) !! j = Some x ->
      PrimFloat.leb x y = true /\ (j < k -> PrimFloat.ltb x y = true).
Proof.
  revert pre mp best; induction xs as [|x xs IH]; intros pre mp best Hnan Hbest Hmax; simpl.
  - rewrite app_nil_r. eauto.
  - assert (is_nan x = false) as Hx.
    { rewrite Forall_app in Hnan. destruct Hnan as [_ Hn]. by inversion Hn. }
    assert (is_nan mp = false) as Hmp.
    { rewrite Forall_app in Hnan. destruct Hnan as [Hn _].
      rewrite Forall_lookup in Hn. by eapply Hn. }
    assert (best < length pre) as Hlt by (by eapply lookup_lt_Some).
    replace (pre ++ x :: xs) with ((pre ++ [x]) ++ xs) in * by (by rewrite <- app_assoc).
    replace (S (length pre)) with (length (pre ++ [x])) by (rewrite length_app; simpl; lia).
    destruct (PrimFloat.leb x mp) eqn:Hle; simpl.
    + apply IH; [done|by rewrite lookup_app_l|].
      intros j z Hz. destruct (decide (j < length pre)).
      * rewrite lookup_app_l in Hz by done. by apply Hmax.
      * rewrite lookup_app_r in Hz by lia.
        destruct (j - length pre) eqn:Hj; simplify_eq/=. split; [done|lia].
    + rewrite Hx.
      pose proof (not_leb_ltb x mp Hx Hmp Hle) as Hgt.
      apply IH; [done| |].
      * rewrite lookup_app_r by lia. by rewrite Nat.sub_diag.
      * intros j z Hz. destruct (decide (j < length pre)).
        -- rewrite lookup_app_l in Hz by done. destruct (Hmax j z Hz) as [Hzle _].
           split; [by eapply leb_ltb_trans|]. intros _.
           apply ltb_rank. apply leb_rank in Hzle as (a & b & Ha & Hb & Hab).
           apply ltb_rank in Hgt as (b' & c & Hb' & Hc & Hbc). simplify_eq.
           exists a, c. repeat split; try done.
           destruct Hab as [Hab| ->]; [|done]. unfold lt3 in *. lia.
        -- rewrite lookup_app_r in Hz by lia.
           destruct (j - length pre) eqn:Hj; simplify_eq/=.
           split; [by apply leb_refl|lia].
Qed.

Lemma argmax_total v : v <> [] -> exists k, argmax v = ok k.
Proof. destruct v as [|x xs]; [done|]. intros _. simpl. destruct (is_nan x); eauto. Qed.

Lemma argmax_loop_bound mp best i xs :
  best < i -> argmax_loop mp best i xs < i + length xs.
Proof.
  revert mp best i; induction xs as [|x xs IH]; intros mp best i Hb; simpl; [lia|].
  destruct (negb _).
  - destruct (is_nan x); [lia|]. specialize (IH x i (S i)). lia.
  - specialize (IH mp best (S i)). lia.
Qed.

Lemma argmax_bound v k : argmax v = ok k -> k < length v.
Proof.
  destruct v as [|x xs]; [discriminate|]. simpl.
  destruct (is_nan x); intros [= <-]; [lia|].
  pose proof (argmax_loop_bound x 0 1 xs). lia.
Qed.

(** Among numbers, [argmax] is the first index of the greatest entry. *)
Lemma argmax_greatest v k :
  Forall (fun x => is_nan x = false) v -> argmax v = ok k ->
  exists y, v !! k = Some y /\
    forall j x, v !! j = Some x ->
      PrimFloat.leb x y = true /\ (j < k -> PrimFloat.ltb x y = true).
Proof.
  destruct v as [|x xs]; [discriminate|]. intros Hnan. simpl.
  assert (is_nan x = false) as Hx by (by inversion Hnan). rewrite Hx. intros [= <-].
  apply (argmax_loop_greatest [x] x 0 xs); [done|done|].
  intros [|j] z Hz; simplify_eq/=. split; [by apply leb_refl|lia].
Qed.

End ArgmaxFacts.

(** ** Burn-in *)

Module SamplesFacts.
Import PyFacts H5Facts FloatFacts Samples.

(** C10.  For a stored sample array of two dimensions both accessors give
    the same result (value or exception) for every [burnin], negative or
    beyond the number of samples, as for [burnin=None]. *)
Theorem burnin_ignored_for_two_dimensional_samples tag (burnin : Z) h m a :
  lookup_path (samples_path tag) h = Some (Dataset (Arr2 m) a) ->
  get_probable_sample tag (Some burnin) h = get_probable_sample tag None h /\
  get_median_sample tag (Some burnin) h = get_median_sample tag None h.
Proof.
  intros Hs. unfold get_probable_sample, get_median_sample, read_dataset.
  rewrite Hs. simpl. split; [|done].
  by destruct (lookup_path (ln_prob_path tag) h) as [[]|].
Qed.

Lemma burnin_ignored_for_two_dimensional_samples_witness :
  Fixture.nested = ok (Fixture.file_of Fixture.nested) /\
  get_probable_sample "planet" (Some 7%Z) (Fixture.file_of Fixture.nested)
  = get_probable_sample "planet" None (Fixture.file_of Fixture.nested) /\
  get_median_sample "planet" (Some 7%Z) (Fixture.file_of Fixture.nested)
  = get_median_sample "planet" None (Fixture.file_of Fixture.nested).
Proof.
  split; [vm_compute; exact eq_refl|].
  apply (burnin_ignored_for_two_dimensional_samples "planet" 7
           (Fixture.file_of Fixture.nested) [[1200; 4.5]; [1350; 4.0]]%float
           (Fixture.attrs_at (samples_path "planet") (Fixture.file_of Fixture.nested))).
  vm_compute. exact eq_refl.
Defined.

(** The number of rows after the burn-in step: the samples lost are the
    first [burnin] entries of the first axis. *)
Lemma length_chunks n l fuel :
  0 < n -> length l <= fuel -> length l `mod` n = 0 ->
  length (chunks fuel n l) = length l `div` n.
Proof.
  intros Hn. revert l; induction fuel as [|fuel IH]; intros l Hfuel Hmod.
  - destruct l; [|simpl in Hfuel; lia]. simpl. by rewrite Nat.Div0.div_0_l.
  - destruct l as [|x l]; [simpl; by rewrite Nat.Div0.div_0_l|].
    change (chunks (S fuel) n (x :: l))
      with (take n (x :: l) :: chunks fuel n (drop n (x :: l))).
    set (k := x :: l) in *.
    assert (0 < length k) as Hpos by (simpl; lia).
    assert (n <= length k) as Hle.
    { destruct (decide (n <= length k)); [done|].
      rewrite Nat.mod_small in Hmod by lia. lia. }
    assert (length k = (length k - n) + 1 * n) as Hsplit by lia.
    cbn [length]. rewrite IH.
    + rewrite length_drop. rewrite Hsplit at 2. rewrite Nat.div_add by lia. lia.
    + rewrite length_drop. lia.
    + rewrite length_drop. rewrite Hsplit in Hmod.
      by rewrite Nat.Div0.mod_add in Hmod.
Qed.

Lemma length_concat_rectangular {A} n (m : list (list A)) :
  rectangular n m -> length (concat m) = length m * n.
Proof.
  induction 1 as [|r m Hr _ IH]; [done|]. simpl. rewrite length_app, IH, Hr. lia.
Qed.

Lemma flatten_chain_rows (burnin : nat) n1 p chain :
  0 < p -> burnin <= length chain ->
  Forall (fun walker => length walker = n1 /\ rectangular p walker) chain ->
  exists rows,
    flatten_chain (Z.of_nat burnin) (ok (Z.of_nat p)) chain = ok rows /\
    length rows = (length chain - burnin) * n1.
Proof.
  intros Hp Hb Hchain. unfold flatten_chain, reshape_rows. simpl.
  destruct (Z.of_nat p <=? 0)%Z eqn:Hz; [lia|]. rewrite Nat2Z.id.
  unfold slice_from. destruct (Z.of_nat burnin <? 0)%Z eqn:Hneg; [lia|]. rewrite Nat2Z.id.
  set (rest := drop burnin chain).
  assert (Forall (fun walker => length walker = n1 /\ rectangular p walker) rest) as Hrest
    by (by apply Forall_drop).
  assert (length (concat (concat rest)) = length rest * n1 * p) as Hlen.
  { clear -Hrest. induction Hrest as [|w rest [Hw Hrect] _ IH]; [done|].
    simpl. rewrite concat_app, length_app, IH, (length_concat_rectangular p) by done. lia. }
  assert (length rest = length chain - burnin) as Hr by apply length_drop.
  destruct (decide _) as [Hmod|Hmod].
  - eexists. split; [done|]. rewrite length_chunks by (done || lia).
    rewrite Hlen, Nat.div_mul by lia. lia.
  - exfalso. apply Hmod. rewrite Hlen. apply Nat.Div0.mod_mul.
Qed.

(** C2.  On a chain of shape (10, 50, 3) a burn-in of 60 is refused with a
    [ValueError] by both accessors; a burn-in of 10 passes the check
    (it is compared with the length 10 of the first axis) and the slice
    along that axis leaves no row at all, so that [get_probable_sample]
    fails in [argmax] -- where the claim has 400 rows. *)
Theorem burnin_is_taken_from_the_first_axis tag h chain ln_prob a a' :
  lookup_path (samples_path tag) h = Some (Dataset (Arr3 chain) a) ->
  lookup_path (ln_prob_path tag) h = Some (Dataset (Arr2 ln_prob) a') ->
  a !! "n_param" = Some (AInt 3) ->
  length chain = 10 -> length ln_prob = 10 ->
  get_probable_sample tag (Some 60%Z) h = raise ValueError /\
  get_median_sample tag (Some 60%Z) h = raise ValueError /\
  flatten_chain 10 (ok 3%Z) chain = ok [] /\
  trim_median 10 (ok 3%Z) (Arr3 chain) = ok (Arr2 []) /\
  get_probable_sample tag (Some 10%Z) h = raise ValueError.
Proof.
  intros Hs Hl Hn Hc Hlp.
  assert (slice_from 10 chain = []) as Hchain.
  { unfold slice_from. simpl. apply drop_ge. rewrite Hc. simpl. lia. }
  assert (slice_from 10 ln_prob = []) as Hprob.
  { unfold slice_from. simpl. apply drop_ge. rewrite Hlp. simpl. lia. }
  unfold get_probable_sample, get_median_sample, read_dataset, read_n_param.
  rewrite Hs, Hl. cbv beta iota delta [Py.bind ok default from_option id]. rewrite Hn.
  unfold trim_probable, trim_median, flatten_chain, flatten_ln_prob.
  cbv beta iota. rewrite Hc, Hchain, Hprob. repeat split.
Qed.

Lemma burnin_is_taken_from_the_first_axis_witness :
  Fixture.sampled = ok (Fixture.file_of Fixture.sampled) /\
  get_probable_sample "planet" (Some 60%Z) (Fixture.file_of Fixture.sampled)
  = raise ValueError /\
  flatten_chain 10 (ok 3%Z) Fixture.chain = ok [] /\
  get_probable_sample "planet" (Some 10%Z) (Fixture.file_of Fixture.sampled)
  = raise ValueError.
Proof.
  split; [vm_compute; exact eq_refl|].
  destruct (burnin_is_taken_from_the_first_axis "planet"
              (Fixture.file_of Fixture.sampled) Fixture.chain
              (replicate 10 (replicate 50 (-1)%float))
              (Fixture.attrs_at (samples_path "planet") (Fixture.file_of Fixture.sampled))
              (Fixture.attrs_at (ln_prob_path "planet") (Fixture.file_of Fixture.sampled)))
    as (H60 & _ & Hflat & _ & H10).
  - vm_compute. exact eq_refl.
  - vm_compute. exact eq_refl.
  - vm_compute. exact eq_refl.
  - exact eq_refl.
  - exact eq_refl.
  - exact (conj H60 (conj Hflat H10)).
Defined.

End SamplesFacts.

(** ** get_probable_sample *)

Module ProbableFacts.
Import PyFacts H5Facts FloatFacts ArgmaxFacts Samples.

(** A loop over [range(n)] that cannot fail under an invariant that
    follows the counter. *)
Lemma for_each_seq_total {S} (P : nat -> S -> Prop) (body : S -> nat -> result S) a n acc :
  P a acc ->
  (forall i s, a <= i < a + n -> P i s -> exists s', body s i = ok s' /\ P (Datatypes.S i) s') ->
  exists r, for_each (seq a n) body acc = ok r /\ P (a + n) r.
Proof.
  revert a acc; induction n as [|n IH]; intros a acc Hacc Hstep; simpl.
  - exists acc. by rewrite Nat.add_0_r.
  - destruct (Hstep a acc) as (s & -> & Hs); [lia|done|]. simpl.
    replace (a + Datatypes.S n) with (Datatypes.S a + n) by lia.
    apply IH; [done|]. intros i s0 Hi. apply Hstep. lia.
Qed.

(** The dictionary that the loop over the parameters builds: a name maps
    to the entry of the row at the last position that carries the name. *)
Lemma parameter_loop (a : gmap string attr) (names : list string) (row : list float)
    (get : nat -> result float) n :
  length names = n ->
  (forall i name, names !! i = Some name ->
     a !! ("parameter" +:+ fmt_nat i) = Some (AStr name)) ->
  (forall i, i < n -> exists x, get i = ok x /\ row !! i = Some x) ->
  exists d : gmap string float,
    for_each (range (Z.of_nat n))
      (fun d i =>
         let* par_key := Py.bind (get_attr a ("parameter" +:+ fmt_nat i)) attr_str in
         let* par_value := get i in
         ok (<[par_key := par_value]> d)) ∅ = ok d /\
    (forall i name, names !! i = Some name ->
       (forall j name', i < j -> names !! j = Some name' -> name' <> name) ->
       d !! name = row !! i) /\
    (forall name, name ∉ names -> d !! name = None).
Proof.
  intros Hlen Hnames Hget. unfold range. rewrite Nat2Z.id.
  pose (P := fun (k : nat) (d : gmap string float) =>
    (forall i name, i < k -> names !! i = Some name ->
       (forall j name', i < j < k -> names !! j = Some name' -> name' <> name) ->
       d !! name = row !! i) /\
    (forall name, name ∉ names -> d !! name = None)).
  destruct (for_each_seq_total P
    (fun d i =>
       let* par_key := Py.bind (get_attr a ("parameter" +:+ fmt_nat i)) attr_str in
       let* par_value := get i in
       ok (<[par_key := par_value]> d)) 0 n ∅) as (d & Hd & Hin & Hout).
  - split; [intros; lia|]. intros. apply lookup_empty.
  - intros i d [_ Hi] [Hin Hout]. simpl in Hi.
    destruct (lookup_lt_is_Some_2 names i) as [name Hname]; [lia|].
    destruct (Hget i Hi) as (x & Hx & Hrow).
    unfold get_attr. rewrite (Hnames i name Hname). simpl. rewrite Hx. simpl.
    eexists. split; [done|]. split.
    + intros i0 name0 Hi0 Hname0 Hlater.
      destruct (decide (i0 = i)) as [->|Hne].
      * simplify_eq. by rewrite lookup_insert_eq.
      * rewrite lookup_insert_ne.
        -- apply Hin; [lia|done|]. intros j name' Hj. apply Hlater. lia.
        -- intros <-. eapply (Hlater i name); [lia|done|done].
    + intros name0 Hname0. rewrite lookup_insert_ne; [by apply Hout|].
      intros <-. apply Hname0. by eapply list_elem_of_lookup_2.
  - exists d. split; [done|]. split; [|done].
    intros i name Hname Hlater. apply Hin; [|done|].
    + apply lookup_lt_Some in Hname. lia.
    + intros j name' [Hj _]. by apply Hlater.
Qed.

Lemma add_float_attr_ok (a : gmap string attr) k (d : gmap string float) :
  (a !! k = None \/ exists x, a !! k = Some (AFloat x)) ->
  exists d', add_float_attr a k d = ok d' /\
    forall name, (name <> k \/ a !! k = None) -> d' !! name = d !! name.
Proof.
  unfold add_float_attr. intros [Hk|[x Hk]]; rewrite Hk.
  - eauto.
  - eexists. split; [done|]. intros name [Hne|?]; [|congruence].
    by rewrite lookup_insert_ne.
Qed.

(** C3.  When the stored samples and log-probabilities pass the burn-in
    step as an array of rows and a vector of as many log-probabilities,
    [get_probable_sample] returns, and what it returns maps every
    parameter name to the entry of the row at [argmax] of the
    log-probabilities (for a name that is used once and that [distance]
    and [pt_smooth] do not overwrite); among numbers that row has the
    greatest log-probability.  For the log-probabilities
    [-5.0, -1.0] it is the second row. *)
Theorem probable_sample_is_the_argmax_row :
  argmax [-5.0; -1.0]%float = ok 1 /\
  (forall tag burnin h samples ln_prob a a' n names rows v,
     lookup_path (samples_path tag) h = Some (Dataset samples a) ->
     lookup_path (ln_prob_path tag) h = Some (Dataset ln_prob a') ->
     read_n_param a = ok (Z.of_nat n) ->
     length names = n ->
     (forall i name, names !! i = Some name ->
        a !! ("parameter" +:+ fmt_nat i) = Some (AStr name)) ->
     (forall k, k ∈ ["distance"; "pt_smooth"] ->
        a !! k = None \/ exists x, a !! k = Some (AFloat x)) ->
     trim_probable (default 0%Z burnin) (ok (Z.of_nat n)) samples ln_prob
     = ok (Arr2 rows, Arr1 v) ->
     v <> [] -> length rows = length v -> rectangular n rows ->
     exists k row d,
       argmax v = ok k /\ rows !! k = Some row /\
       get_probable_sample tag burnin h = ok d /\
       (forall i name, names !! i = Some name ->
          (forall j name', i < j -> names !! j = Some name' -> name' <> name) ->
          (forall k, k ∈ ["distance"; "pt_smooth"] -> name <> k \/ a !! k = None) ->
          d !! name = row !! i) /\
       (Forall (fun x => is_nan x = false) v ->
        exists y, v !! k = Some y /\
          forall j x, v !! j = Some x ->
            PrimFloat.leb x y = true /\ (j < k -> PrimFloat.ltb x y = true))).
Proof.
  split; [by vm_compute|].
  intros tag burnin h samples ln_prob a a' n names rows v
         Hs Hl Hn Hlen Hnames Hextra Htrim Hv Hrows Hrect.
  destruct (argmax_total v Hv) as (k & Hk).
  pose proof (argmax_bound v k Hk) as Hkv.
  destruct (lookup_lt_is_Some_2 rows k) as [row Hrow]; [lia|].
  assert (length row = n) as Hrowlen.
  { unfold rectangular in Hrect. rewrite Forall_lookup in Hrect. by eapply Hrect. }
  destruct (parameter_loop a names row (sample_item (Some row)) n Hlen Hnames)
    as (d0 & Hloop & Hin & _).
  { intros i Hi. destruct (lookup_lt_is_Some_2 row i) as [x Hx]; [lia|].
    exists x. simpl. by rewrite Hx. }
  destruct (add_float_attr_ok a "distance" d0) as (d1 & Hd1 & Hkeep1).
  { apply Hextra. set_solver. }
  destruct (add_float_attr_ok a "pt_smooth" d1) as (d2 & Hd2 & Hkeep2).
  { apply Hextra. set_solver. }
  exists k, row, d2. split; [done|]. split; [done|]. split; [|split].
  - unfold get_probable_sample, read_dataset. rewrite Hs, Hl.
    cbv beta iota delta [Py.bind ok]. rewrite Hn.
    change (inr ?x) with (ok x) at 1.
    rewrite Htrim. cbv beta iota delta [Py.bind ok].
    unfold max_sample. rewrite Hk. simpl. rewrite Hrow. simpl.
    simpl in Hloop. unfold ok, Py.bind in Hloop, Hd1 |- *. rewrite Hloop, Hd1. exact Hd2.
  - intros i name Hname Hlater Hfree.
    rewrite Hkeep2 by (apply Hfree; set_solver).
    rewrite Hkeep1 by (apply Hfree; set_solver).
    by apply Hin.
  - intros Hnan. by apply argmax_greatest.
Qed.

Lemma probable_sample_is_the_argmax_row_witness :
  exists d,
    Fixture.nested = ok (Fixture.file_of Fixture.nested) /\
    get_probable_sample "planet" None (Fixture.file_of Fixture.nested) = ok d /\
    d !! "teff" = Some 1350%float /\ d !! "logg" = Some 4.0%float.
Proof.
  enough (forall h a a',
            lookup_path (samples_path "planet") h
            = Some (Dataset (Arr2 [[1200; 4.5]; [1350; 4.0]]%float) a) ->
            lookup_path (ln_prob_path "planet") h
            = Some (Dataset (Arr1 [-5.0; -1.0]%float) a') ->
            read_n_param a = ok 2%Z ->
            a !! "parameter0" = Some (AStr "teff") ->
            a !! "parameter1" = Some (AStr "logg") ->
            a !! "distance" = Some (AFloat 19.75) ->
            a !! "pt_smooth" = None ->
            exists d, get_probable_sample "planet" None h = ok d /\
                      d !! "teff" = Some 1350%float /\ d !! "logg" = Some 4.0%float)
    as Hgen.
  { destruct (Hgen (Fixture.file_of Fixture.nested)
                (Fixture.attrs_at (samples_path "planet") (Fixture.file_of Fixture.nested))
                (Fixture.attrs_at (ln_prob_path "planet") (Fixture.file_of Fixture.nested)))
      as (d & Hd & Hteff & Hlogg); [vm_compute; exact eq_refl..|].
    exists d. split; [vm_compute; exact eq_refl|]. exact (conj Hd (conj Hteff Hlogg)). }
  intros h a a' Hs Hl Hn H0 H1 Hdist Hsmooth.
  destruct (proj2 probable_sample_is_the_argmax_row "planet" None h
              (Arr2 [[1200; 4.5]; [1350; 4.0]]%float) (Arr1 [-5.0; -1.0]%float) a a' 2
              ["teff"; "logg"] [[1200; 4.5]; [1350; 4.0]]%float [-5.0; -1.0]%float Hs Hl Hn)
    as (k & row & d & Hk & Hrow & Hd & Hnames & _).
  - reflexivity.
  - intros [|[|i]] name Hi; simpl in Hi; [| |discriminate Hi];
      injection Hi as <-; assumption.
  - intros k Hk.
    apply elem_of_cons in Hk as [->|Hk]; [right; by eexists|].
    apply elem_of_cons in Hk as [->|Hk]; [by left|].
    by apply elem_of_nil in Hk.
  - reflexivity.
  - discriminate.
  - reflexivity.
  - repeat constructor.
  - vm_compute in Hk. injection Hk as <-.
    change (Some [1350; 4.0]%float = Some row) in Hrow. injection Hrow as <-.
    exists d. split; [exact Hd|]. split.
    + apply (Hnames 0 "teff"); [reflexivity| |].
      * intros [|[|j]] name' Hj Hname'; simpl in Hname';
          [lia|injection Hname' as <-; discriminate|discriminate Hname'].
      * intros k Hk. left.
        apply elem_of_cons in Hk as [->|Hk]; [discriminate|].
        apply elem_of_cons in Hk as [->|Hk]; [discriminate|].
        by apply elem_of_nil in Hk.
    + apply (Hnames 1 "logg"); [reflexivity| |].
      * intros [|[|j]] name' Hj Hname'; simpl in Hname';
          [lia|lia|discriminate Hname'].
      * intros k Hk. left.
        apply elem_of_cons in Hk as [->|Hk]; [discriminate|].
        apply elem_of_cons in Hk as [->|Hk]; [discriminate|].
        by apply elem_of_nil in Hk.
Defined.

End ProbableFacts.

(** ** The isochrone tables *)

Module IsochroneFacts.
Import PyFacts H5Facts FloatFacts Isochrones.

Lemma ages_app (m1 m2 : list (list float)) : ages (m1 ++ m2) = ages m1 ++ ages m2.
Proof. apply omap_app. Qed.

Lemma evolution_row_age {C : Collab} param r :
  evolution_row param = ok r ->
  head r = Some (PrimFloat.mul 1e3 (default 0%float (head param))).
Proof.
  unfold evolution_row. intros H.
  apply bind_ok in H as (p0 & H0 & H).
  apply bind_ok in H as (p1 & _ & H).
  apply bind_ok in H as (p3 & _ & H).
  apply bind_ok in H as (p2 & _ & H).
  apply bind_ok in H as (p4 & _ & H).
  injection H as <-. destruct param as [|x param]; [discriminate|].
  injection H0 as <-. done.
Qed.

(** The ages of the table that [add_sonora] and [add_saumon] build are
    the ages of the lines, in megayears, in the order of the lines. *)
Lemma evolution_table_ages {C : Collab} lines rows :
  evolution_table lines = ok rows ->
  ages rows = (fun p => PrimFloat.mul 1e3 (default 0%float (head p))) <$> lines.
Proof.
  unfold evolution_table.
  enough (forall acc,
            for_each lines
              (fun acc param => let* r := evolution_row param in ok (acc ++ [r])) acc
            = ok rows ->
            ages rows
            = ages acc ++ ((fun p => PrimFloat.mul 1e3 (default 0%float (head p))) <$> lines))
    as Hgen by exact (Hgen []).
  induction lines as [|p lines IH]; intros acc H; simpl in H.
  - injection H as <-. by rewrite app_nil_r.
  - apply bind_ok in H as (acc' & Hstep & H).
    apply bind_ok in Hstep as (r & Hr & Hstep). injection Hstep as <-.
    rewrite (IH _ H), ages_app, <- app_assoc. f_equal.
    unfold ages. simpl. by rewrite (evolution_row_age _ _ Hr).
Qed.

Lemma store_evolution_lookup tag model isochrones database h :
  store_evolution tag model isochrones database = ok h ->
  lookup_path (evolution_path tag) h
  = Some (Dataset (Arr2 isochrones) {["model" := AStr model]}).
Proof.
  unfold store_evolution. intros H.
  apply bind_ok in H as (h1 & Hcreate & H).
  apply lookup_create_node in Hcreate.
  apply set_attr_inv in H as (d & Hd & ->).
  rewrite Hcreate in Hd. by injection Hd as <-.
Qed.

(** C9.  [add_sonora] stores each table with its rows in the order of the
    lines of the file, without sorting them: the age column of the stored
    array is the age column of the file in megayears (shown for the table
    written last, which no later step touches). *)
Theorem sonora_table_keeps_the_order_of_its_file {C : Collab} t1 t2 t3 database h :
  add_sonora [t1; t2; t3] database = ok h ->
  exists rows,
    lookup_path (evolution_path "sonora-0.5") h
    = Some (Dataset (Arr2 rows) {["model" := AStr "sonora"]}) /\
    ages rows = (fun p => PrimFloat.mul 1e3 (default 0%float (head p))) <$> t3.
Proof.
  unfold add_sonora. intros H. simpl in H.
  apply bind_ok in H as (h1 & _ & H).
  apply bind_ok in H as (h2 & _ & H).
  apply bind_ok in H as (h3 & H3 & H). injection H as <-.
  apply bind_ok in H3 as (rows & Hrows & H3).
  exists rows. split.
  - exact (store_evolution_lookup _ _ _ _ _ H3).
  - by apply evolution_table_ages.
Qed.

Lemma sonora_table_keeps_the_order_of_its_file_witness :
  exists h rows,
    Fixture.sonora = ok h /\
    lookup_path (evolution_path "sonora-0.5") h
    = Some (Dataset (Arr2 rows) {["model" := AStr "sonora"]}) /\
    ages rows = [2000; 1000]%float /\
    ascendingb (ages rows) = false.
Proof.
  destruct Fixture.sonora as [e|h] eqn:Hrun; [by vm_compute in Hrun|].
  destruct (sonora_table_keeps_the_order_of_its_file (C := Fixture.demo)
              Fixture.older_first Fixture.older_first Fixture.older_first
              empty_group h Hrun) as (rows & Hlook & Hages).
  exists h, rows. split; [done|]. split; [done|].
  split; [by rewrite Hages | by rewrite Hages].
Defined.

End IsochroneFacts.

(** ** Pressure-temperature profiles *)

Module ProfileFacts.
Import PyFacts H5Facts Samples PT.

Lemma length_linspace a b n : length (linspace a b n) = n.
Proof. unfold linspace. by rewrite length_imap, length_replicate. Qed.

Lemma length_logspace {C : Collab} a b n : length (logspace a b n) = n.
Proof. unfold logspace. by rewrite length_fmap, length_linspace. Qed.

Lemma width_zeros r c : 0 < r -> width (zeros r c) = c.
Proof. destruct r; [lia|]. intros _. simpl. by rewrite length_replicate. Qed.

Lemma for_each_raise {A S} (xs : list A) (body : S -> A -> result S) acc x e :
  body acc x = raise e -> for_each (x :: xs) body acc = raise e.
Proof. intros H. simpl. by rewrite H. Qed.

(** On an array of fewer than fifteen columns the step for a free or
    monotonic profile cannot complete: it writes column 14. *)
Lemma profile_step_free_raises {C : Collab} prof idx press samples temp i :
  prof = "free" \/ prof = "monotonic" ->
  width temp < 15 ->
  exists e, profile_step (AStr prof) idx press samples temp i = raise e.
Proof.
  intros Hprof Hw. unfold profile_step.
  destruct (of_option IndexError (samples !! i)) as [e|item]; [by exists e|].
  cbn [Py.bind].
  replace (attr_is (AStr prof) "molliere") with false
    by (destruct Hprof as [-> | ->]; reflexivity).
  replace (attr_is (AStr prof) "mod-molliere") with false
    by (destruct Hprof as [-> | ->]; reflexivity).
  replace (attr_is (AStr prof) "free" || attr_is (AStr prof) "monotonic") with true
    by (destruct Hprof as [-> | ->]; reflexivity).
  cbv iota.
  destruct (match idx !! "pt_smooth" with
            | Some _ => param_value idx item "pt_smooth"
            | None => ok 0%float
            end) as [e|pt_smooth]; [by exists e|].
  cbn [Py.bind].
  destruct (of_option IndexError (head press)) as [e|p0]; [by exists e|].
  cbn [Py.bind].
  destruct (of_option IndexError (last press)) as [e|p1]; [by exists e|].
  cbn [Py.bind].
  destruct (for_each (range 15) _ []) as [e|knot_temp]; [by exists e|].
  cbn [Py.bind].
  exists IndexError. unfold set_column.
  change (default 0 (last (range 15))) with 14.
  destruct (decide (14 < width temp)); [lia|done].
Qed.

(** C8.  For a stored sample set with the profile kind ['free'] or
    ['monotonic'] and between one and fourteen samples, [get_pt_profiles]
    returns no arrays at all: the step for the first sample writes its
    profile to column 14 of the temperature array, which has one column
    per sample. *)
Theorem get_pt_profiles_free_needs_fifteen_columns {C : Collab} tag h m a prof :
  lookup_path (samples_path tag) h = Some (Dataset (Arr2 m) a) ->
  a !! "pt_profile" = Some (AStr prof) ->
  prof = "free" \/ prof = "monotonic" ->
  0 < length m < 15 ->
  exists e, get_pt_profiles tag None h = raise e.
Proof.
  intros Hlook Hprof Hkind Hlen. unfold get_pt_profiles, read_dataset.
  rewrite Hlook. cbn [Py.bind ok].
  destruct (get_attr a "spectrum") as [e|spectrum]; [by exists e|].
  cbn [Py.bind].
  unfold get_attr at 1. rewrite Hprof. cbn [of_option Py.bind ok].
  destruct (negb (attr_is spectrum "petitradtrans")); [by eexists|].
  cbn [Py.bind ok].
  destruct (read_n_param a) as [e|n]; [by exists e|].
  cbn [Py.bind].
  destruct (build_param_index a n) as [e|idx]; [by exists e|].
  cbn [Py.bind].
  destruct (length m) as [|k] eqn:Hk; [lia|].
  destruct (profile_step_free_raises prof idx (logspace (-6) 3 180) m
              (zeros (length (logspace (-6) 3 180)) (S k)) 0 Hkind) as (e & He).
  { rewrite width_zeros; [lia|]. rewrite length_logspace. lia. }
  exists e. cbn [seq]. by rewrite (for_each_raise _ _ _ _ _ He).
Qed.

Lemma get_pt_profiles_free_needs_fifteen_columns_witness :
  Fixture.retrieved = ok (Fixture.file_of Fixture.retrieved) /\
  length (Fixture.rows_at (samples_path "planet") (Fixture.file_of Fixture.retrieved)) = 2 /\
  exists e,
    get_pt_profiles (C := Fixture.demo) "planet" None (Fixture.file_of Fixture.retrieved)
    = raise e /\
    e = IndexError.
Proof.
  split; [vm_compute; exact eq_refl|].
  split; [vm_compute; exact eq_refl|].
  destruct (get_pt_profiles_free_needs_fifteen_columns (C := Fixture.demo) "planet"
              (Fixture.file_of Fixture.retrieved)
              (Fixture.rows_at (samples_path "planet") (Fixture.file_of Fixture.retrieved))
              (Fixture.attrs_at (samples_path "planet") (Fixture.file_of Fixture.retrieved))
              "free") as (e & He).
  - vm_compute; exact eq_refl.
  - vm_compute; exact eq_refl.
  - left; exact eq_refl.
  - vm_compute; lia.
  - exists e. split; [exact He|].
    assert (get_pt_profiles (C := Fixture.demo) "planet" None
              (Fixture.file_of Fixture.retrieved) = raise IndexError) as Hc
      by (vm_compute; exact eq_refl).
    exact (f_equal (fun r : result (list float * list (list float)) =>
                      match r with inl x => x | inr _ => IndexError end)
                   (eq_trans (eq_sym He) Hc)).
Defined.

End ProfileFacts.

(** ** Covariance matrices from text files *)

Module CovarianceFacts.
Import PyFacts H5Facts Object.

(** A loop with a round that fails whatever the state does not complete. *)
Lemma for_each_raises_at {A S} (xs : list A) (body : S -> A -> result S) x :
  x ∈ xs -> (forall s, exists e, body s x = raise e) ->
  forall acc, exists e, for_each xs body acc = raise e.
Proof.
  intros Hin Hx. induction xs as [|y xs IH]; intros acc; [by apply elem_of_nil in Hin|].
  simpl. destruct (body acc y) as [e|s] eqn:Hy; [by exists e|]. simpl.
  apply elem_of_cons in Hin as [->|Hin]; [|by apply IH].
  destruct (Hx acc) as (e & He). rewrite He in Hy. discriminate Hy.
Qed.

Lemma three_in_shape_false m :
  length m <> 3 -> width m <> 3 -> three_in_shape m = false.
Proof.
  intros H1 H2. unfold three_in_shape.
  by rewrite !bool_decide_eq_false_2.
Qed.

(** A text file with a matrix that has neither three rows nor three
    columns is refused as a covariance file. *)
Lemma load_covariance_text_refused {C : Collab} cov_file m spec w :
  is_fits cov_file = false -> loadtxt cov_file = ok (Arr2 m) ->
  length m <> 3 -> width m <> 3 ->
  load_covariance cov_file spec w = raise ValueError.
Proof.
  intros Hfits Hload H1 H2. unfold load_covariance.
  rewrite Hfits, Hload. cbn [Py.bind ok].
  by rewrite three_in_shape_false.
Qed.

(** C6.  A covariance matrix from a text file goes through the shape test
    of the spectra, [3 in data.shape]: a matrix with neither three rows nor
    three columns is refused with a [ValueError], square and with ones on
    the diagonal or not, and [add_object] with such a file among its
    spectra stores nothing and raises. *)
Theorem text_covariance_needs_a_three_in_its_shape {C : Collab}
    cov_file (m : list (list float)) :
  is_fits cov_file = false -> loadtxt cov_file = ok (Arr2 m) ->
  length m <> 3 -> width m <> 3 ->
  (forall spec w, load_covariance cov_file spec w = raise ValueError) /\
  (forall object_name distance app_mag flux_density spectrum deredden h5_file
          key filename specres,
     (key, (filename, Some cov_file, specres)) ∈ spectrum ->
     exists e,
       add_object object_name distance app_mag flux_density (Some spectrum) deredden h5_file
       = raise e).
Proof.
  intros Hfits Hload H1 H2.
  split; [intros; by apply load_covariance_text_refused with m|].
  intros object_name distance app_mag flux_density spectrum deredden h5_file
         key filename specres Hin.
  unfold add_object.
  destruct (match app_mag with
            | Some app_mag => require_calibration app_mag.*1 (h5_file, [])
            | None => ok (h5_file, [])
            end) as [e|st1]; [by exists e|]. cbn [Py.bind].
  destruct (match flux_density with
            | Some flux_density => require_calibration flux_density.*1 st1
            | None => ok st1
            end) as [e|[h2 w2]]; [by exists e|]. cbn [Py.bind].
  destruct (require_group (h5path "objects") h2) as [e|h3]; [by exists e|]. cbn [Py.bind].
  destruct (require_group _ h3) as [e|h4]; [by exists e|]. cbn [Py.bind].
  destruct (match distance with Some d => _ | None => ok h4 end) as [e|h5];
    [by exists e|]. cbn [Py.bind].
  destruct (match app_mag with Some a => _ | None => ok (h5, w2, None) end)
    as [e|[[h6 w6] app_mag']]; [by exists e|]. cbn [Py.bind].
  destruct (match flux_density with Some f => _ | None => ok (h6, w6) end)
    as [e|[h7 w7]]; [by exists e|]. cbn [Py.bind].
  enough (exists e, add_spectrum object_name spectrum
                      (default (DeredDict ∅) deredden) (h7, w7) = raise e)
    as (e & ->) by by exists e.
  unfold add_spectrum.
  destruct (del_if_present _ h7) as [e|h8]; [by exists e|]. cbn [Py.bind].
  destruct (for_each spectrum (read_spectrum _) ∅) as [e|read_spec]; [by exists e|].
  cbn [Py.bind].
  destruct (for_each_raises_at spectrum (read_covariance read_spec)
              (key, (filename, Some cov_file, specres)) Hin) with (acc := (∅ : gmap string (option (list (list float))), w7))
    as (e & ->); [|by exists e].
  intros [read_cov w]. unfold read_covariance.
  destruct (of_option KeyError (read_spec !! key)) as [e|spec]; [by exists e|].
  cbn [Py.bind]. rewrite (load_covariance_text_refused cov_file m) by done.
  by exists ValueError.
Qed.

Lemma text_covariance_needs_a_three_in_its_shape_witness :
  square Fixture.identity4 = true /\
  unit_diagonal Fixture.identity4 = true /\
  length Fixture.spectrum4 = length Fixture.identity4 /\
  load_covariance (C := Fixture.demo) "covariance.dat" Fixture.spectrum4 [] = raise ValueError /\
  add_object (C := Fixture.demo) "planet" None None None
    (Some [("SPHERE", ("spectrum.dat", Some "covariance.dat", None))]) None empty_group
  = raise ValueError.
Proof.
  destruct (text_covariance_needs_a_three_in_its_shape (C := Fixture.demo)
              "covariance.dat" Fixture.identity4)
    as (Hload & Hadd); [reflexivity | reflexivity | simpl; lia | simpl; lia |].
  split; [reflexivity|]. split; [reflexivity|]. split; [reflexivity|].
  split; [apply Hload|].
  destruct (Hadd "planet" None None None
              [("SPHERE", ("spectrum.dat", Some "covariance.dat", @None float))] None
              empty_group "SPHERE" "spectrum.dat" None) as (e & He);
    [apply list_elem_of_singleton; reflexivity|].
  rewrite He. f_equal.
  assert (add_object (C := Fixture.demo) "planet" None None None
            (Some [("SPHERE", ("spectrum.dat", Some "covariance.dat", None))]) None
            empty_group = raise ValueError) as Hc by (vm_compute; exact eq_refl).
  rewrite He in Hc. unfold raise in Hc. by injection Hc.
Defined.

End CovarianceFacts.

(** ** Writing to the file, and magnitudes without a filter *)

Module WriteFacts.
Import PyFacts H5Facts.

Lemma writable_cons k k' p m a :
  writable (k :: k' :: p) (Group m a) =
  match m !! k with Some c => writable (k' :: p) c | None => true end.
Proof. done. Qed.

Lemma writable_nonempty p n : writable p n = true -> p <> [].
Proof. by destruct p. Qed.

(** In an empty group every link can be created. *)
Lemma create_node_empty p v a :
  p <> [] -> exists n', create_node p v (Group ∅ a) = ok n'.
Proof.
  revert a; induction p as [|k p IH]; intros a Hp; [done|].
  destruct p as [|k' p].
  - rewrite create_node_single, lookup_empty. eauto.
  - rewrite create_node_cons, lookup_empty.
    destruct (IH ∅) as (c & Hc); [done|].
    unfold empty_group. simpl default. rewrite Hc. simpl. eauto.
Qed.

(** Once a link is removed it can be written, if no dataset is in the way. *)
Lemma create_after_remove p v n :
  writable p n = true -> exists n', create_node p v (remove_path p n) = ok n'.
Proof.
  revert n; induction p as [|k p IH]; intros n Hw; [done|].
  destruct n as [|m a]; [done|].
  destruct p as [|k' p].
  - rewrite remove_path_single, create_node_single, lookup_delete_eq. eauto.
  - rewrite writable_cons in Hw. rewrite remove_path_cons.
    destruct (m !! k) as [c|] eqn:Hk.
    + rewrite create_node_cons, lookup_insert_eq.
      destruct (IH c Hw) as (c' & Hc').
      change (default empty_group (Some ?x)) with x. rewrite Hc'. simpl. eauto.
    + rewrite create_node_cons, Hk.
      destruct (create_node_empty (k' :: p) v ∅) as (c' & Hc'); [done|].
      unfold empty_group. simpl default. rewrite Hc'. simpl. eauto.
Qed.

(** A link that is there has only groups above it. *)
Lemma writable_present p n :
  p <> [] -> is_Some (lookup_path p n) -> writable p n = true.
Proof.
  revert n; induction p as [|k p IH]; intros n Hp Hin; [done|].
  destruct n as [|m a]; [by destruct Hin|].
  destruct p as [|k' p]; [done|].
  rewrite writable_cons. rewrite lookup_path_cons in Hin.
  destruct (m !! k) as [c|]; [|done]. by apply IH.
Qed.

(** The guarded deletion leaves the tree without the link. *)
Lemma del_if_present_remove p n :
  p <> [] -> del_if_present p n = ok (remove_path p n).
Proof.
  intros Hp. unfold del_if_present, del_item.
  destruct (contains p n) eqn:Hc.
  - by destruct p.
  - apply contains_false in Hc. by rewrite remove_path_absent.
Qed.

(** Deleting, if need be, and writing anew: the pattern of every
    ingestion completes, and the new node is at the link. *)
Lemma rewrite_completes p v n :
  writable p n = true ->
  exists n1 n2,
    del_if_present p n = ok n1 /\ create_node p v n1 = ok n2 /\
    lookup_path p n2 = Some v.
Proof.
  intros Hw. pose proof (writable_nonempty _ _ Hw) as Hp.
  destruct (create_after_remove p v n Hw) as (n2 & Hn2).
  exists (remove_path p n), n2. split; [by apply del_if_present_remove|].
  split; [done|]. by eapply lookup_create_node.
Qed.

End WriteFacts.

Module PhotometryFacts.
Import PyFacts H5Facts WriteFacts Object.

Lemma flux_or_nan_missing {C : Collab} object_name f factor h mag err w :
  magnitude_to_flux h f mag err = raise KeyError ->
  flux_or_nan object_name f factor h mag err w
  = ok (nan, nan,
        (w ++ (Foreign <$> flux_warnings h f)) ++ [FilterNotAvailable f object_name]).
Proof. intros H. unfold flux_or_nan. by rewrite H. Qed.





End PhotometryFacts.

(** ** Derived columns of a retrieval *)

Module RetrievalFacts.
Import PyFacts H5Facts WriteFacts Samples Retrieval.

(** Copying a list of attributes onto the dataset at [p]. *)
Lemma copy_attrs p (l : list (string * attr)) h d b :
  lookup_path p h = Some (Dataset d b) ->
  exists h',
    for_each l (fun h kv => set_attr p kv.1 kv.2 h) h = ok h' /\
    lookup_path p h' = Some (Dataset d (foldl (fun acc kv => <[kv.1 := kv.2]> acc) b l)).
Proof.
  revert h b; induction l as [|[k v] l IH]; intros h b Hlook; simpl.
  - by exists h.
  - destruct (set_attr_lookup p k v h _ Hlook) as (h1 & -> & Hlook1). simpl.
    by apply IH.
Qed.

(** Inserting the entries of a map one by one gives the map back. *)
Lemma foldl_insert_map_to_list (a : gmap string attr) :
  foldl (fun acc kv => <[kv.1 := kv.2]> acc) ∅ (map_to_list a) = a.
Proof.
  assert (forall l : list (string * attr),
            foldl (fun acc kv => <[kv.1 := kv.2]> acc) (∅ : gmap string attr) l
            = list_to_map (reverse l)) as Hrev.
  { induction l as [|x l IH] using rev_ind; [done|].
    by rewrite foldl_snoc, reverse_snoc, IH. }
  rewrite Hrev.
  rewrite <- (list_to_map_proper (map_to_list a) (reverse (map_to_list a))).
  - apply list_to_map_to_list.
  - apply NoDup_fst_map_to_list.
  - symmetry. apply reverse_Permutation.
Qed.

Lemma parameter_name_inj (i j : nat) :
  "parameter" +:+ fmt_nat i = "parameter" +:+ fmt_nat j -> i = j.
Proof.
  unfold fmt_nat. intros H. simpl in H. simplify_eq.
  by apply Nat2Z.inj, (inj pretty).
Qed.

Lemma parameter_name_not_n_param s : "parameter" +:+ s <> "n_param".
Proof. done. Qed.

Lemma append_column_rows (n : nat) m col m' :
  rectangular n m -> append_column m col = ok m' ->
  m' = zip_with (fun r x => r ++ [x]) m col /\ length m' = length m /\
  rectangular (S n) m'.
Proof.
  unfold append_column, rectangular. intros Hrect H.
  destruct (decide (length m = length col)) as [Hlen|]; [|discriminate].
  injection H as <-. split; [done|]. split.
  - rewrite length_zip_with. lia.
  - clear Hlen. revert col; induction Hrect as [|r m Hr Hm IH]; intros [|x col]; simpl;
      try by constructor.
    constructor; [rewrite length_app; simpl; lia | apply IH].
Qed.

Lemma parameter_name_prefix s : String.prefix "parameter" ("parameter" +:+ s) = true.
Proof. simpl. by destruct s. Qed.

Lemma consistentb_sound d a : consistentb d a = true -> consistent d a.
Proof.
  unfold consistentb. destruct d as [|m| |]; try discriminate.
  destruct (a !! "n_param") as [[z| | | |]|] eqn:Hn; try discriminate.
  intros H. apply andb_prop in H as [H Hnames]. apply andb_prop in H as [Hz Hrows].
  apply bool_decide_eq_true in Hz.
  exists m, (Z.to_nat z). split; [done|]. split; [by rewrite Z2Nat.id|]. split.
  - apply Forall_forall. intros r Hr.
    rewrite forallb_forall in Hrows. apply list_elem_of_In, Hrows in Hr.
    by apply bool_decide_eq_true in Hr.
  - intros i Hi. destruct (a !! ("parameter" +:+ fmt_nat i)) as [v|] eqn:Hv; [|done].
    exfalso. apply elem_of_map_to_list in Hv.
    rewrite forallb_forall in Hnames. apply list_elem_of_In, Hnames in Hv.
    cbn [fst] in Hv. rewrite parameter_name_prefix in Hv. cbn [negb orb] in Hv.
    apply bool_decide_eq_true, list_elem_of_fmap in Hv as (j & Hj & Hin).
    apply parameter_name_inj in Hj as ->. apply elem_of_seq in Hin. lia.
Qed.

(** C1.  The block that appends a derived column to a stored sample set,
    on a set that is consistent (a two-dimensional array with [n_param]
    columns, no parameter named beyond them) and for a column with one
    value for each sample: it completes; the new array has the old rows,
    each with its value of the column at the end; [n_param] is the old one
    plus one and is the number of columns; the attribute
    [parameter{n_param-1}] holds the name of the column; every attribute
    of the dataset other than [n_param] is there with the value it had;
    and the set is consistent again. *)
Theorem append_derived_keeps_the_sample_set_consistent
    db_tag col name h d a :
  db_tag <> [] ->
  lookup_path db_tag h = Some (Dataset d a) ->
  consistent d a ->
  length col = shape0 d ->
  exists (n : nat) m h' m' a',
    d = Arr2 m /\ a !! "n_param" = Some (AInt (Z.of_nat n)) /\
    append_derived db_tag col name h = ok (h', m') /\
    lookup_path db_tag h' = Some (Dataset (Arr2 m') a') /\
    m' = zip_with (fun r x => r ++ [x]) m col /\
    a' !! "n_param" = Some (AInt (Z.of_nat (S n))) /\
    rectangular (S n) m' /\
    a' !! ("parameter" +:+ fmt_nat n) = Some (AStr name) /\
    (forall k v, k <> "n_param" -> a !! k = Some v -> a' !! k = Some v) /\
    consistent (Arr2 m') a'.
Proof.
  intros Hp Hlook (m & n & -> & Hn & Hrect & Hfree) Hlen. simpl in Hlen.
  destruct (append_column m col) as [e|m'] eqn:Happ.
  { unfold append_column in Happ. by destruct (decide (length m = length col)). }
  destruct (append_column_rows n m col m' Hrect Happ) as (Hm' & Hlen' & Hrect').
  destruct (create_after_remove db_tag (Dataset (Arr2 m') ∅) h) as (h1 & Hcreate).
  { apply writable_present; [done | by rewrite Hlook]. }
  pose proof (lookup_create_node _ _ _ _ Hcreate) as Hlook1.
  destruct (copy_attrs db_tag (map_to_list a) h1 _ _ Hlook1) as (h2 & Hcopy & Hlook2).
  rewrite foldl_insert_map_to_list in Hlook2.
  destruct (set_attr_lookup db_tag "n_param" (AInt (Z.of_nat n + 1)) h2 _ Hlook2)
    as (h3 & Hset3 & Hlook3).
  destruct (set_attr_lookup db_tag ("parameter" +:+ fmt (Z.of_nat n + 1 - 1)) (AStr name)
              h3 _ Hlook3) as (h4 & Hset4 & Hlook4).
  simpl with_attr in Hlook4.
  replace (Z.of_nat n + 1 - 1)%Z with (Z.of_nat n) in * by lia.
  replace (Z.of_nat n + 1)%Z with (Z.of_nat (S n)) in * by lia.
  change (fmt (Z.of_nat n)) with (fmt_nat n) in *.
  exists n, m, h4, m'. eexists.
  split; [done|]. split; [done|]. split.
  { unfold append_derived, read_dataset, del_item. rewrite Hlook. cbn [Py.bind ok].
    rewrite Happ. cbn [Py.bind ok].
    assert (contains db_tag h = true) as -> by (apply contains_true; by rewrite Hlook).
    destruct db_tag as [|k0 db_tag]; [done|].
    cbn [Py.bind ok]. unfold create_dataset. rewrite Hcreate. cbn [Py.bind ok].
    rewrite Hcopy. cbn [Py.bind ok].
    unfold get_attr. rewrite Hn. cbn [of_option Py.bind ok attr_int].
    replace (Z.of_nat n + 1 - 1)%Z with (Z.of_nat n) by lia.
    replace (Z.of_nat n + 1)%Z with (Z.of_nat (S n)) by lia.
    change (fmt (Z.of_nat n)) with (fmt_nat n).
    rewrite Hset3. cbn [Py.bind ok]. rewrite Hset4. done. }
  split; [exact Hlook4|]. split; [done|].
  assert ((<["parameter" +:+ fmt_nat n := AStr name]>
             (<["n_param" := AInt (Z.of_nat (S n))]> a)) !! "n_param"
          = Some (AInt (Z.of_nat (S n)))) as Hn'.
  { rewrite lookup_insert_ne by apply parameter_name_not_n_param.
    by rewrite lookup_insert_eq. }
  split; [exact Hn'|]. split; [done|]. split; [by rewrite lookup_insert_eq|].
  split.
  - intros k v Hk Hv.
    destruct (decide (k = "parameter" +:+ fmt_nat n)) as [->|Hne].
    + rewrite (Hfree n) in Hv by lia. discriminate.
    + rewrite lookup_insert_ne by done. by rewrite lookup_insert_ne.
  - exists m', (S n). split; [done|]. split; [exact Hn'|]. split; [done|].
    intros i Hi.
    rewrite lookup_insert_ne by (intros Heq; apply parameter_name_inj in Heq; lia).
    rewrite lookup_insert_ne by (apply not_eq_sym, parameter_name_not_n_param).
    apply Hfree. lia.
Qed.

Lemma append_derived_keeps_the_sample_set_consistent_witness :
  Fixture.stored = ok (Fixture.file_of Fixture.stored) /\
  exists h' m' a',
    append_derived (samples_path "planet") [0.5; 0.5]%float "mgsio3_fraction"
      (Fixture.file_of Fixture.stored) = ok (h', m') /\
    lookup_path (samples_path "planet") h' = Some (Dataset (Arr2 m') a') /\
    m' = [[3.5; 0.1; 0.5]; [4.0; 0.2; 0.5]]%float /\
    a' !! "n_param" = Some (AInt 3) /\
    a' !! "parameter2" = Some (AStr "mgsio3_fraction") /\
    a' !! "parameter0" = Some (AStr "logg") /\
    consistent (Arr2 m') a'.
Proof.
  split; [vm_compute; exact eq_refl|].
  enough (forall p h a,
            p <> [] ->
            lookup_path p h = Some (Dataset (Arr2 [[3.5; 0.1]; [4.0; 0.2]]%float) a) ->
            consistentb (Arr2 [[3.5; 0.1]; [4.0; 0.2]]%float) a = true ->
            a !! "n_param" = Some (AInt 2) ->
            a !! "parameter0" = Some (AStr "logg") ->
            exists h' m' a',
              append_derived p [0.5; 0.5]%float "mgsio3_fraction" h = ok (h', m') /\
              lookup_path p h' = Some (Dataset (Arr2 m') a') /\
              m' = [[3.5; 0.1; 0.5]; [4.0; 0.2; 0.5]]%float /\
              a' !! "n_param" = Some (AInt 3) /\
              a' !! "parameter2" = Some (AStr "mgsio3_fraction") /\
              a' !! "parameter0" = Some (AStr "logg") /\
              consistent (Arr2 m') a') as Hgen.
  { apply (Hgen (samples_path "planet") (Fixture.file_of Fixture.stored)
             (Fixture.attrs_at (samples_path "planet") (Fixture.file_of Fixture.stored))).
    - vm_compute. intros H. discriminate H.
    - vm_compute; exact eq_refl.
    - vm_compute; exact eq_refl.
    - vm_compute; exact eq_refl.
    - vm_compute; exact eq_refl. }
  intros p h a Hp Hlook Hcons Hn H0.
  destruct (append_derived_keeps_the_sample_set_consistent
              p [0.5; 0.5]%float "mgsio3_fraction" h _ a Hp Hlook
              (consistentb_sound _ _ Hcons) eq_refl)
    as (n & m & h' & m' & a' & Hd & Hn0 & Hrun & Hlook' & Hm' & Hn' & _ & Hname & Hkeep & Hc').
  assert (n = 2) as ->.
  { rewrite Hn in Hn0. injection Hn0 as Hn0. lia. }
  exists h', m', a'. split; [exact Hrun|]. split; [exact Hlook'|].
  split; [injection Hd as <-; exact Hm'|].
  split; [exact Hn'|]. split; [exact Hname|].
  split; [|exact Hc'].
  apply Hkeep; [intros H; discriminate H|exact H0].
Defined.

End RetrievalFacts.

(** ** Names as paths *)

Module PathFacts.
Import PyFacts H5Facts WriteFacts.

Lemma rev_app_append a b t : String.rev_app a b +:+ t = String.rev_app a (b +:+ t).
Proof. revert b; induction a as [|c a IH]; intros b; [done|]. simpl. by rewrite IH. Qed.

Lemma append_empty_r s : s +:+ "" = s.
Proof. induction s as [|c s IH]; [done|]. unfold append; fold append. by rewrite IH. Qed.

Lemma split_aux_nonempty sep cur s : split_aux sep cur s <> [].
Proof.
  revert cur; induction s as [|c s IH]; intros cur; simpl; [done|].
  destruct (Ascii.eqb c sep); [done | apply IH].
Qed.

(** The piece being read is the start of the first piece. *)
Lemma split_aux_split_on sep cur s :
  split_aux sep cur s =
  match split_on sep s with
  | x :: rest => (String.rev cur +:+ x) :: rest
  | [] => []
  end.
Proof.
  unfold split_on. revert cur; induction s as [|c s IH]; intros cur; simpl.
  - by rewrite append_empty_r.
  - destruct (Ascii.eqb c sep).
    + by rewrite append_empty_r.
    + rewrite (IH (String c cur)), (IH (String c "")).
      destruct (split_aux sep "" s) as [|x rest]; [done|].
      f_equal. unfold String.rev. simpl. by rewrite !rev_app_append.
Qed.

Lemma split_on_empty sep : split_on sep "" = [""].
Proof. done. Qed.

Lemma split_on_cons sep c s :
  split_on sep (String c s) =
  if Ascii.eqb c sep then "" :: split_on sep s
  else match split_on sep s with
       | x :: rest => String c x :: rest
       | [] => []
       end.
Proof.
  unfold split_on at 1. simpl. destruct (Ascii.eqb c sep); [done|].
  rewrite split_aux_split_on. by destruct (split_on sep s).
Qed.

Lemma split_on_nonempty sep s : split_on sep s <> [].
Proof. apply split_aux_nonempty. Qed.

(** [(a + sep + b).split(sep) == a.split(sep) + b.split(sep)] *)
Lemma split_on_app sep a b :
  split_on sep (a +:+ String sep b) = split_on sep a ++ split_on sep b.
Proof.
  induction a as [|c a IH].
  - change ("" +:+ String sep b) with (String sep b).
    by rewrite split_on_cons, Ascii.eqb_refl.
  - change (String c a +:+ String sep b) with (String c (a +:+ String sep b)).
    rewrite !split_on_cons, IH. destruct (Ascii.eqb c sep); [done|].
    pose proof (split_on_nonempty sep a). by destruct (split_on sep a).
Qed.

(** The first piece holds no separator. *)
Lemma split_on_head sep s x rest :
  split_on sep s = x :: rest -> split_on sep x = [x].
Proof.
  revert x rest; induction s as [|c s IH]; intros x rest H.
  - by injection H as <- <-.
  - rewrite split_on_cons in H. destruct (Ascii.eqb c sep) eqn:Hc.
    + by injection H as <- <-.
    + destruct (split_on sep s) as [|y rest'] eqn:Hs; [done|].
      injection H as <- <-. rewrite split_on_cons, Hc. by rewrite (IH y rest').
Qed.

Lemma h5path_app a b : h5path (a +:+ String "/" b) = h5path a ++ h5path b.
Proof. unfold h5path, split_slash. by rewrite split_on_app, filter_app. Qed.

(** The links of the first piece of a name start the links of the name. *)
Lemma h5path_head name :
  exists r, h5path name = h5path (default EmptyString (head (split_slash name))) ++ r.
Proof.
  unfold h5path, split_slash.
  destruct (split_on "/" name) as [|x rest] eqn:Hs; [by apply split_on_nonempty in Hs|].
  simpl head. simpl default. rewrite (split_on_head _ _ _ _ Hs).
  exists (filter (fun k => k ≠ EmptyString) rest).
  change (x :: rest) with ([x] ++ rest). by rewrite filter_app.
Qed.




Lemma filter_path_links name : Filter.filter_path name = "filters" :: h5path name.
Proof.
  unfold Filter.filter_path.
  change ("filters/" +:+ name) with ("filters" +:+ String "/" name).
  by rewrite h5path_app.
Qed.

(** *** More on the tree *)

Lemma lookup_empty_group p : p <> [] -> lookup_path p empty_group = None.
Proof. destruct p; [done|]. intros _. simpl. by rewrite lookup_empty. Qed.




(** A new empty group has nothing below it. *)
Lemma create_group_keeps_absent g r n n' :
  r <> [] -> create_group g n = ok n' ->
  lookup_path (g ++ r) n = None -> lookup_path (g ++ r) n' = None.
Proof.
  unfold create_group. intros Hr.
  revert n n'; induction g as [|k g IH]; intros n n' H Hno; [discriminate|].
  destruct n as [|m a]; [discriminate|].
  change ((k :: g) ++ r) with (k :: (g ++ r)) in *. rewrite lookup_path_cons in Hno.
  destruct g as [|k' g].
  - rewrite create_node_single in H. destruct (m !! k); [discriminate|].
    injection H as <-. rewrite lookup_path_cons, lookup_insert_eq.
    by apply lookup_empty_group.
  - rewrite create_node_cons in H. apply bind_ok in H as (c & Hc & H). injection H as <-.
    rewrite lookup_path_cons, lookup_insert_eq. apply (IH _ _ Hc).
    destruct (m !! k); [done|]. by apply lookup_empty_group.
Qed.




Lemma require_group_keeps_absent g r n n' :
  r <> [] -> require_group g n = ok n' ->
  lookup_path (g ++ r) n = None -> lookup_path (g ++ r) n' = None.
Proof.
  unfold require_group. intros Hr. destruct (contains g n); intros H.
  - by injection H as <-.
  - by apply create_group_keeps_absent.
Qed.


End PathFacts.

(** ** Ingesting twice *)

Module IngestionFacts.
Import PyFacts H5Facts WriteFacts PathFacts Filter Samples.

Lemma ok_inj {A} (a b : A) : ok a = ok b -> a = b.
Proof. intros H. by injection H. Qed.












End IngestionFacts.

(** ** More on add_object *)

Module ObjectFacts.
Import PyFacts H5Facts WriteFacts PhotometryFacts CovarianceFacts Object.

(** The inner loop over the magnitudes of one filter that cannot be
    resolved. *)
Lemma duplicates_missing {C : Collab} object_name f factor h
    (l : list (float * float)) fl el w :
  (forall mag err, (mag, err) ∈ l -> magnitude_to_flux h f mag err = raise KeyError) ->
  for_each l
    (fun acc dupl_item =>
       let '(flux_list, error_list, w) := acc in
       let* (f', e, w) :=
         flux_or_nan object_name f factor h dupl_item.1 dupl_item.2 w in
       ok (flux_list ++ [f'], error_list ++ [e], w)) (fl, el, w)
  = ok (fl ++ replicate (length l) nan, el ++ replicate (length l) nan,
        w ++ concat (replicate (length l)
                      ((Foreign <$> flux_warnings h f) ++ [FilterNotAvailable f object_name]))).
Proof.
  revert fl el w; induction l as [|[mag err] l IH]; intros fl el w Hl.
  - simpl. by rewrite !app_nil_r.
  - cbn [for_each fst snd].
    rewrite (flux_or_nan_missing object_name f factor h mag err w) by (apply Hl; by left).
    cbn [Py.bind ok]. rewrite IH by (intros mag' err' Hin; apply Hl; by right).
    cbn [length replicate concat]. by rewrite <- !app_assoc.
Qed.

(** X1.  A filter with a list of [n] magnitudes whose flux calibration
    fails with a [KeyError], the filter not being dereddened: the round of
    the calibration loop completes, records [n] not-a-numbers for the
    fluxes and [n] for the errors, and issues [n] warnings of its own, one
    for each magnitude, each after the warnings of its calibration. *)
Theorem duplicate_magnitudes_warn_once_each {C : Collab}
    object_name f (l : list (float * float)) deredden h dp fl er w :
  dered_of deredden f = None ->
  (forall mag err, (mag, err) ∈ l -> magnitude_to_flux h f mag err = raise KeyError) ->
  calibrate object_name deredden h (dp, fl, er, w) (f, MagList l)
  = ok (<[f := 1%float]> dp,
        <[f := PhotMany (replicate (length l) nan)]> fl,
        <[f := PhotMany (replicate (length l) nan)]> er,
        w ++ concat (replicate (length l)
                      ((Foreign <$> flux_warnings h f) ++ [FilterNotAvailable f object_name]))).
Proof.
  intros Hd Hl. unfold calibrate, dered_factor. rewrite Hd. cbn [Py.bind ok].
  rewrite (duplicates_missing object_name f 1%float h l [] [] w Hl).
  cbn [Py.bind ok]. done.
Qed.

Lemma duplicate_magnitudes_warn_once_each_witness :
  calibrate (C := Fixture.demo) "planet" (DeredDict ∅) empty_group (∅, ∅, ∅, [])
    ("Fake/Filter", MagList [(15.0, 0.1); (15.2, 0.1)]%float)
  = ok ({["Fake/Filter" := 1%float]},
        {["Fake/Filter" := PhotMany [nan; nan]]},
        {["Fake/Filter" := PhotMany [nan; nan]]},
        [Foreign "Filter not found on the SVO Filter Profile Service";
         FilterNotAvailable "Fake/Filter" "planet";
         Foreign "Filter not found on the SVO Filter Profile Service";
         FilterNotAvailable "Fake/Filter" "planet"]).
Proof.
  apply (duplicate_magnitudes_warn_once_each (C := Fixture.demo) "planet" "Fake/Filter"
           [(15.0, 0.1); (15.2, 0.1)]%float (DeredDict ∅) empty_group ∅ ∅ ∅ []).
  - reflexivity.
  - intros mag err _. reflexivity.
Defined.

(** X2.  The dereddening of a magnitude is computed before the [try]
    block: when the filter is to be dereddened and its profile cannot be
    read, the round of the calibration loop raises what the reader of the
    profile raises, for a pair and for a list alike, and the part of
    [add_object] on the magnitudes does not complete. *)
Theorem dereddening_is_outside_the_guard {C : Collab}
    object_name f value deredden a_v h e :
  dered_of deredden f = Some a_v ->
  get_filter h f = raise e ->
  (forall st, calibrate object_name deredden h st (f, value) = raise e) /\
  (forall app_mag, (f, value) ∈ app_mag ->
     exists e', add_magnitudes object_name app_mag deredden h = raise e').
Proof.
  intros Hd Hg.
  assert (forall st, calibrate object_name deredden h st (f, value) = raise e) as Hstep.
  { intros [[[dp fl] er] w]. unfold calibrate, dered_factor. by rewrite Hd, Hg. }
  split; [exact Hstep|].
  intros app_mag Hin. unfold add_magnitudes.
  destruct (for_each_raises_at app_mag (calibrate object_name deredden h) (f, value) Hin)
    with (acc := ((∅, ∅, ∅, []) : calibration)) as (e' & He').
  { intros st. exists e. apply Hstep. }
  exists e'. by rewrite He'.
Qed.

Lemma dereddening_is_outside_the_guard_witness :
  add_magnitudes (C := Fixture.demo) "planet" [("Fake/Filter", MagTuple 15.0 0.1)]
    (DeredFloat 1.5) empty_group = raise KeyError.
Proof.
  destruct (dereddening_is_outside_the_guard (C := Fixture.demo) "planet" "Fake/Filter"
              (MagTuple 15.0 0.1) (DeredFloat 1.5) 1.5%float empty_group KeyError
              eq_refl eq_refl) as [Hstep _].
  unfold add_magnitudes. cbn [for_each]. by rewrite Hstep.
Defined.

(** X3.  A flux density is stored without a magnitude: the dataset of
    the filter holds two not-a-numbers, the flux and its error, with
    [n_phot = 1]; what was stored for the filter before is replaced; and
    a dereddening asked for the filter is met with one warning and not
    applied. *)
Theorem flux_density_is_stored_as_given
    object_name deredden h w f (flux error : float) :
  writable (object_path object_name f) h = true ->
  exists h',
    store_flux_density object_name deredden (h, w) (f, (flux, error))
    = ok (h', w ++ match dered_of deredden f with
                   | Some _ => [DereddenIgnored f]
                   | None => []
                   end) /\
    lookup_path (object_path object_name f) h'
    = Some (Dataset (Arr1 [nan; nan; flux; error]) {["n_phot" := AInt 1]}).
Proof.
  intros Hw. unfold store_flux_density.
  destruct (rewrite_completes (object_path object_name f)
              (Dataset (Arr1 [nan; nan; flux; error]) ∅) h Hw)
    as (h1 & h2 & Hdel & Hcreate & Hlook).
  rewrite Hdel. cbn [Py.bind ok]. unfold create_dataset. rewrite Hcreate. cbn [Py.bind ok].
  destruct (set_attr_lookup (object_path object_name f) "n_phot" (AInt 1) h2 _ Hlook)
    as (h3 & Hset & Hlook3).
  rewrite Hset. cbn [Py.bind ok]. exists h3. split; [|exact Hlook3].
  destruct (dered_of deredden f); [done|by rewrite app_nil_r].
Qed.

Lemma flux_density_is_stored_as_given_witness :
  exists h',
    store_flux_density "planet" (DeredFloat 1.5) (empty_group, [])
      ("Test/Synthetic", (1e-15, 1e-16)%float)
    = ok (h', [DereddenIgnored "Test/Synthetic"]) /\
    lookup_path (object_path "planet" "Test/Synthetic") h'
    = Some (Dataset (Arr1 [nan; nan; 1e-15; 1e-16]%float) {["n_phot" := AInt 1]}).
Proof.
  apply (flux_density_is_stored_as_given "planet" (DeredFloat 1.5) empty_group []
           "Test/Synthetic" 1e-15%float 1e-16%float).
  reflexivity.
Defined.

(** The array that [first_array] finds is the array of a unit that
    passes the test, and no earlier unit has such an array. *)
Lemma first_array_found test hdulist m :
  first_array test hdulist = Some m ->
  exists i u,
    hdulist !! i = Some u /\ hdu_data u = Some (Arr2 m) /\ test m = true /\
    forall j v m', j < i -> hdulist !! j = Some v -> hdu_data v = Some (Arr2 m') ->
                   test m' = false.
Proof.
  induction hdulist as [|u rest IH]; [discriminate|].
  simpl. intros H.
  destruct (hdu_data u) as [[v|m0|c|l]|] eqn:Hu;
    try (destruct (IH H) as (i & u' & Hi & Hd & Ht & Hfirst);
         exists (S i), u'; repeat split; try done;
         intros [|j] v' m' Hj Hv Hm; [simpl in Hv; congruence|];
         apply (Hfirst j v' m'); [lia|done|done]).
  destruct (test m0) eqn:Ht0.
  - injection H as <-. exists 0, u. repeat split; try done. intros j v m' Hj. lia.
  - destruct (IH H) as (i & u' & Hi & Hd & Ht & Hfirst).
    exists (S i), u'. repeat split; try done.
    intros [|j] v' m' Hj Hv Hm.
    + simpl in Hv. injection Hv as <-. rewrite Hu in Hm. by injection Hm as <-.
    + apply (Hfirst j v' m'); [lia|done|done].
Qed.

(** X4.  What the reader of covariance matrices takes from a FITS file
    that is not in the GRAVITY format is the first array of the file that
    is square and has as many rows as the spectrum; with ones on the
    whole diagonal it is converted with the errors of the spectrum and one
    warning is issued, otherwise it is kept as it is. *)
Theorem fits_covariance_has_the_size_of_the_spectrum {C : Collab}
    filename hdulist spec w cov w' :
  is_fits filename = true ->
  fits_open filename = ok hdulist ->
  is_gravity hdulist = ok false ->
  load_covariance filename spec w = ok (cov, w') ->
  exists i u data,
    hdulist !! i = Some u /\ hdu_data u = Some (Arr2 data) /\
    length data = width data /\ length data = length spec /\
    (forall j v m, j < i -> hdulist !! j = Some v -> hdu_data v = Some (Arr2 m) ->
                   ~ (length m = width m /\ length m = length spec)) /\
    (unit_diagonal data = true /\
       (exists sigma, column 2 spec = ok sigma /\
                      cov = correlation_to_covariance data sigma) /\
       w' = w ++ [CorrelationConverted filename]
     \/ unit_diagonal data = false /\ cov = data /\ w' = w).
Proof.
  intros Hfits Hopen Hgrav H. unfold load_covariance in H.
  rewrite Hfits, Hopen in H. cbn [Py.bind ok] in H. rewrite Hgrav in H.
  cbn [Py.bind ok] in H.
  destruct (first_array _ hdulist) as [data|] eqn:Hfirst; [|discriminate].
  apply first_array_found in Hfirst as (i & u & Hi & Hu & Htest & Hearlier).
  apply andb_prop in Htest as [Hsq Hlen].
  apply bool_decide_eq_true in Hsq, Hlen.
  exists i, u, data. split; [done|]. split; [done|]. split; [done|]. split; [done|].
  split.
  - intros j v m Hj Hv Hm [Hs Hl]. specialize (Hearlier j v m Hj Hv Hm).
    unfold square in Hearlier.
    rewrite (bool_decide_eq_true_2 _ Hs), (bool_decide_eq_true_2 _ Hl) in Hearlier.
    discriminate.
  - unfold convert_if_correlation in H. destruct (unit_diagonal data).
    + left. apply bind_ok in H as (sigma & Hsigma & H). injection H as <- <-.
      split; [done|]. split; [by exists sigma|done].
    + right. by injection H as <- <-.
Qed.

Lemma fits_covariance_has_the_size_of_the_spectrum_witness :
  load_covariance (C := Fixture.observatory) "covariance.fits" Fixture.spectrum4 []
  = ok (correlation_to_covariance (Collab := Fixture.observatory) Fixture.identity4
          [0.1; 0.2; 0.3; 0.4]%float,
        [CorrelationConverted "covariance.fits"]) /\
  exists hdulist i u data,
    fits_open (Collab := Fixture.observatory) "covariance.fits" = ok hdulist /\
    hdulist !! i = Some u /\ hdu_data u = Some (Arr2 data) /\
    length data = length Fixture.spectrum4.
Proof.
  assert (load_covariance (C := Fixture.observatory) "covariance.fits" Fixture.spectrum4 []
          = ok (correlation_to_covariance (Collab := Fixture.observatory) Fixture.identity4
                  [0.1; 0.2; 0.3; 0.4]%float,
                [CorrelationConverted "covariance.fits"])) as Hrun
    by (vm_compute; exact eq_refl).
  split; [exact Hrun|].
  destruct (fits_covariance_has_the_size_of_the_spectrum (C := Fixture.observatory)
              "covariance.fits" _ Fixture.spectrum4 [] _ _ eq_refl eq_refl eq_refl Hrun)
    as (i & u & data & Hi & Hu & _ & Hlen & _).
  eexists _, i, u, data. split; [reflexivity|]. split; [exact Hi|]. split; [exact Hu|exact Hlen].
Defined.

End ObjectFacts.

(** ** Sorting by age *)

Module SortFacts.
Import PyFacts H5Facts FloatFacts IsochroneFacts Isochrones.

(** Each entry of the list is related to the next one. *)
Inductive linked {A} (R : A -> A -> Prop) : list A -> Prop :=
| linked_nil : linked R []
| linked_one x : linked R [x]
| linked_cons x y l : R x y -> linked R (y :: l) -> linked R (x :: y :: l).

Lemma linked_lookup {A} (R : A -> A -> Prop) l i a b :
  linked R l -> l !! i = Some a -> l !! (S i) = Some b -> R a b.
Proof.
  intros Hl. revert i; induction Hl as [|x|x y l Hxy Hl IH]; intros i Ha Hb.
  - done.
  - by destruct i.
  - destruct i as [|i]; simpl in *.
    + by simplify_eq.
    + by apply (IH i).
Qed.

Lemma linked_fmap {A B} (f : A -> B) (R : B -> B -> Prop) l :
  linked (fun a b => R (f a) (f b)) l -> linked R (f <$> l).
Proof. induction 1; simpl; by constructor. Qed.

Section insertion.
Context {A : Type} (key : A -> float).

(** No entry is smaller than the one before it. *)
Definition ordered (a b : A) : Prop := sort_lt (key b) (key a) = false.

Lemma insert_by_linked x l :
  linked ordered l -> linked ordered (insert_by key x l).
Proof.
  induction 1 as [|y|y z l Hyz Hl IH]; simpl.
  - constructor.
  - destruct (sort_lt (key y) (key x)) eqn:Hyx.
    + constructor; [by apply sort_lt_asym | constructor].
    + constructor; [done | constructor].
  - destruct (sort_lt (key y) (key x)) eqn:Hyx.
    + simpl in IH. destruct (sort_lt (key z) (key x)).
      * by constructor.
      * constructor; [by apply sort_lt_asym | done].
    + constructor; [done|]. by constructor.
Qed.

Lemma insert_by_perm x l : insert_by key x l ≡ₚ x :: l.
Proof.
  induction l as [|y l IH]; simpl; [done|].
  destruct (sort_lt (key y) (key x)); [|done].
  rewrite IH. apply Permutation_swap.
Qed.

Lemma sort_by_linked l : linked ordered (sort_by key l).
Proof.
  induction l as [|x l IH]; simpl; [constructor|]. by apply insert_by_linked.
Qed.

Lemma sort_by_perm l : sort_by key l ≡ₚ l.
Proof.
  induction l as [|x l IH]; simpl; [done|]. by rewrite insert_by_perm, IH.
Qed.

End insertion.

Lemma column_rows j m c :
  column j m = ok c -> Forall2 (fun r x => r !! j = Some x) m c.
Proof.
  unfold column.
  enough (forall acc c,
            for_each m (fun acc r => let* x := of_option IndexError (r !! j) in ok (acc ++ [x]))
                     acc = ok c ->
            exists c', c = acc ++ c' /\ Forall2 (fun r x => r !! j = Some x) m c') as Hgen.
  { intros H. destruct (Hgen [] c H) as (c' & -> & Hc). done. }
  induction m as [|r m IH]; intros acc c0 H; simpl in H.
  - injection H as <-. exists []. by rewrite app_nil_r.
  - apply bind_ok in H as (acc' & Hstep & H).
    apply bind_ok in Hstep as (x & Hx & Hstep). injection Hstep as <-.
    destruct (IH _ _ H) as (c' & -> & Hc). exists (x :: c').
    rewrite <- app_assoc. split; [done|]. constructor; [|done].
    destruct (r !! j) as [y|]; [|discriminate Hx]. simpl in Hx. by injection Hx as ->.
Qed.

Lemma take_rows_rows {A} idx (m m' : list A) :
  take_rows idx m = ok m' -> Forall2 (fun i r => m !! i = Some r) idx m'.
Proof.
  unfold take_rows.
  enough (forall acc c,
            for_each idx (fun acc i => let* r := of_option IndexError (m !! i) in ok (acc ++ [r]))
                     acc = ok c ->
            exists c', c = acc ++ c' /\ Forall2 (fun i r => m !! i = Some r) idx c') as Hgen.
  { intros H. destruct (Hgen [] m' H) as (c' & -> & Hc). done. }
  induction idx as [|i idx IH]; intros acc c0 H; simpl in H.
  - injection H as <-. exists []. by rewrite app_nil_r.
  - apply bind_ok in H as (acc' & Hstep & H).
    apply bind_ok in Hstep as (x & Hx & Hstep). injection Hstep as <-.
    destruct (IH _ _ H) as (c' & -> & Hc). exists (x :: c').
    rewrite <- app_assoc. split; [done|]. constructor; [|done].
    destruct (m !! i) as [y|]; [|discriminate Hx]. simpl in Hx. by injection Hx as ->.
Qed.

Lemma imap_pair_fst {A} (v : list A) : (imap (fun i x => (i, x)) v).*1 = seq 0 (length v).
Proof.
  enough (forall k, (imap (fun i x => (k + i, x)) v).*1 = seq k (length v)) as Hgen
    by exact (Hgen 0).
  induction v as [|x v IH]; intros k; [done|]. simpl. rewrite Nat.add_0_r. f_equal.
  rewrite <- (IH (S k)). f_equal. apply imap_ext. intros i y _. simpl. f_equal. lia.
Qed.

Lemma imap_pair_lookup {A} (v : list A) i x :
  (i, x) ∈ imap (fun i x => (i, x)) v -> v !! i = Some x.
Proof.
  intros (j & Hj)%list_elem_of_lookup_1. rewrite list_lookup_imap in Hj.
  destruct (v !! j) as [y|] eqn:Hy; [|done]. simpl in Hj. by simplify_eq.
Qed.

Lemma omap_lookup_seq {A} (pre l : list A) :
  omap (fun i => (pre ++ l) !! i) (seq (length pre) (length l)) = l.
Proof.
  revert pre; induction l as [|x l IH]; intros pre; [done|].
  cbn [length seq omap list_omap]. rewrite list_lookup_middle by done.
  f_equal. specialize (IH (pre ++ [x])).
  rewrite <- app_assoc, length_app in IH. simpl in IH.
  by rewrite Nat.add_1_r in IH.
Qed.

(** The rows taken at a permutation of the indices are a permutation of
    the rows. *)
Lemma rows_at_permutation {A} (idx : list nat) (m m' : list A) :
  idx ≡ₚ seq 0 (length m) -> Forall2 (fun i r => m !! i = Some r) idx m' -> m' ≡ₚ m.
Proof.
  intros Hperm Hrows.
  assert (omap (fun i => m !! i) idx = m') as Hm'.
  { clear Hperm. induction Hrows as [|i r idx m' Hi _ IH]; [done|].
    cbn [omap list_omap]. by rewrite Hi, IH. }
  rewrite <- Hm', Hperm. pose proof (omap_lookup_seq [] m) as Hm. simpl in Hm.
  by rewrite Hm.
Qed.

(** [np.argsort] on the ages and the indexing with its result: the rows
    are the same rows, and no age is smaller than the one before it. *)
Lemma sort_by_age_ascending m m' :
  sort_by_age m = ok m' -> m' ≡ₚ m /\ ascending (ages m').
Proof.
  unfold sort_by_age. intros H. apply bind_ok in H as (age & Hage & H).
  apply column_rows in Hage. apply take_rows_rows in H.
  pose proof (Forall2_length _ _ _ Hage) as Hlen.
  set (ps := sort_by snd (imap (fun i x => (i, x)) age)) in *.
  assert (ps ≡ₚ imap (fun i x => (i, x)) age) as Hps by apply sort_by_perm.
  split.
  - apply (rows_at_permutation (argsort age)); [|done].
    unfold argsort. fold ps. rewrite Hps, imap_pair_fst. by rewrite Hlen.
  - assert (ages m' = ps.*2) as ->.
    { unfold argsort in H. fold ps in H.
      assert (Forall (fun p => age !! p.1 = Some p.2) ps) as Hall.
      { apply Forall_forall. intros [i x] Hin. apply imap_pair_lookup.
        by rewrite <- Hps. }
      clearbody ps. clear Hps. revert m' H.
      induction Hall as [|[i x] ps Hix _ IH]; intros m' H.
      - by apply Forall2_nil_inv_l in H as ->.
      - rewrite fmap_cons in H.
        apply Forall2_cons_inv_l in H as (r & m0 & Hr & Hm0 & ->).
        cbn [fst snd] in Hix, Hr.
        destruct (Forall2_lookup_l _ _ _ _ _ Hage Hr) as (y & Hy & Hry).
        rewrite Hix in Hy. injection Hy as <-.
        unfold ages in *. rewrite fmap_cons. cbn [omap list_omap snd].
        assert (head r = Some x) as -> by (by destruct r).
        f_equal. by apply IH. }
    intros i x y Hx Hy.
    apply (linked_lookup (fun a b : float => sort_lt b a = false) (ps.*2) i x y);
      [|done|done].
    apply linked_fmap. apply (sort_by_linked snd).
Qed.

(** X5.  [add_marleau] stores its rows sorted by age: in the stored
    array no age is smaller than the one before it (not-a-numbers
    last). *)
Theorem marleau_rows_are_sorted_by_age {C : Collab} tag file_name database h :
  add_marleau tag file_name database = ok h ->
  exists rows,
    lookup_path (evolution_path tag) h
    = Some (Dataset (Arr2 rows) {["model" := AStr "marleau"]}) /\
    ascending (ages rows).
Proof.
  unfold add_marleau. intros H.
  apply bind_ok in H as (cols & _ & H).
  destruct cols as [|mass [|age [|c2 [|lum [|c4 [|radius [|teff [|]]]]]]]]; try discriminate.
  apply bind_ok in H as (rows & Hsort & H).
  apply bind_ok in H as (h1 & Hcreate & Hset).
  apply lookup_create_node in Hcreate.
  apply set_attr_inv in Hset as (d & Hd & Hd').
  rewrite Hcreate in Hd. injection Hd as <-.
  exists rows. split; [exact Hd'|]. by apply sort_by_age_ascending in Hsort as [_ ?].
Qed.

Lemma marleau_rows_are_sorted_by_age_witness :
  exists h rows,
    add_marleau (C := Fixture.demo) "marleau" "marleau.dat" empty_group = ok h /\
    lookup_path (evolution_path "marleau") h
    = Some (Dataset (Arr2 rows) {["model" := AStr "marleau"]}) /\
    ascending (ages rows) /\
    ages rows = [10; 20]%float.
Proof.
  destruct (add_marleau (C := Fixture.demo) "marleau" "marleau.dat" empty_group)
    as [e|h] eqn:Hrun; [by vm_compute in Hrun|].
  destruct (marleau_rows_are_sorted_by_age (C := Fixture.demo) "marleau" "marleau.dat"
              empty_group h Hrun) as (rows & Hlook & Hasc).
  exists h, rows. split; [done|]. split; [done|]. split; [done|].
  vm_compute in Hrun. injection Hrun as <-. vm_compute in Hlook.
  injection Hlook as <-. reflexivity.
Defined.

Lemma ages_take n (m : list (list float)) : 0 < n -> ages (take n <$> m) = ages m.
Proof.
  intros Hn. unfold ages. induction m as [|r m IH]; [done|].
  rewrite fmap_cons. cbn [omap list_omap].
  assert (head (take n r) = head r) as -> by (destruct n; [lia|by destruct r]).
  by rewrite IH.
Qed.

(** X6.  [add_manual] stores the evolution columns of its rows sorted
    by age: in the stored array no age is smaller than the one before
    it. *)
Theorem manual_rows_are_sorted_by_age {C : Collab} tag data check_baraffe database h :
  add_manual tag data check_baraffe database = ok h ->
  exists rows,
    lookup_path (evolution_path tag) h
    = Some (Dataset (Arr2 rows) {["model" := AStr "manual"]}) /\
    ascending (ages rows).
Proof.
  unfold add_manual. intros H.
  apply bind_ok in H as ([[age header] isochrones] & _ & H).
  apply bind_ok in H as (header' & _ & H).
  apply bind_ok in H as (m0 & _ & H).
  apply bind_ok in H as (m1 & _ & H).
  apply bind_ok in H as (m2 & _ & H).
  apply bind_ok in H as (m3 & Hsort & H).
  apply bind_ok in H as (h1 & _ & H).
  apply bind_ok in H as (h2 & _ & H).
  apply bind_ok in H as (h3 & Hcreate & Hset).
  apply lookup_create_node in Hcreate.
  apply set_attr_inv in Hset as (d & Hd & Hd').
  rewrite Hcreate in Hd. injection Hd as <-.
  exists (take 8 <$> m3). split; [exact Hd'|].
  rewrite ages_take by lia. by apply sort_by_age_ascending in Hsort as [_ ?].
Qed.

Lemma manual_rows_are_sorted_by_age_witness :
  exists h rows,
    add_manual (C := Fixture.observatory) "phoenix" Fixture.manual_lines true empty_group
    = ok h /\
    lookup_path (evolution_path "phoenix") h
    = Some (Dataset (Arr2 rows) {["model" := AStr "manual"]}) /\
    ascending (ages rows) /\
    ages rows = [PrimFloat.mul 0.01 1e3; PrimFloat.mul 0.02 1e3]%float.
Proof.
  destruct (add_manual (C := Fixture.observatory) "phoenix" Fixture.manual_lines true
              empty_group) as [e|h] eqn:Hrun; [by vm_compute in Hrun|].
  destruct (manual_rows_are_sorted_by_age (C := Fixture.observatory) _ _ _ _ _ Hrun)
    as (rows & Hlook & Hasc).
  exists h, rows. split; [done|]. split; [done|]. split; [done|].
  vm_compute in Hrun. injection Hrun as <-. vm_compute in Hlook.
  injection Hlook as <-. reflexivity.
Defined.

Lemma unpack_columns m cols :
  unpack (Arr2 m) = ok cols ->
  forall j c, cols !! j = Some c -> column j m = ok c.
Proof.
  unfold unpack. intros H.
  apply (FilterFacts.for_each_seq_invariant
           (fun i acc => length acc = i /\
                         forall j c, acc !! j = Some c -> column j m = ok c)) in H.
  - by destruct H.
  - done.
  - intros i s s' _ [Hlen Hs] Hstep. apply bind_ok in Hstep as (c & Hc & Hstep).
    injection Hstep as <-. split; [rewrite length_app; simpl; lia|].
    intros j c' Hj. apply lookup_app_Some in Hj as [Hj|[Hge Hj]]; [by apply Hs|].
    apply list_lookup_singleton_Some in Hj as [Hj <-].
    replace j with i by lia. done.
Qed.

Lemma ages_rows_of (age : list float) rest :
  ages (rows_of (length age) (age :: rest)) = age.
Proof.
  unfold ages. revert rest; induction age as [|x age IH]; intros rest; [done|].
  cbn [length rows_of]. rewrite fmap_cons. cbn [omap list_omap head drop].
  f_equal. apply IH.
Qed.

(** X7.  [add_baraffe2015] stores the rows in the order of the file: the
    ages of the stored array are those of the second column of the file,
    [1e-6 * 10**log_age], one after the other, with no sorting. *)
Theorem baraffe2015_rows_stay_in_file_order {C : Collab} data_file database h :
  add_baraffe2015 data_file database = ok h ->
  exists m log_age rows,
    loadtxt data_file = ok (Arr2 m) /\ column 1 m = ok log_age /\
    lookup_path (evolution_path "baraffe2015") h
    = Some (Dataset (Arr2 rows) {["model" := AStr "baraffe2015"]}) /\
    ages rows = (fun a => PrimFloat.mul 1e-6 (pow10 a)) <$> log_age.
Proof.
  unfold add_baraffe2015. intros H.
  apply bind_ok in H as (cols & Hcols & H).
  apply bind_ok in Hcols as (a & Hload & Hunpack).
  destruct a as [|m| |]; try discriminate.
  pose proof (unpack_columns m cols Hunpack) as Hcol.
  destruct cols as [|mass [|log_age cols]]; try discriminate.
  do 11 (destruct cols as [|? cols]; try discriminate).
  destruct cols; [|discriminate].
  exists m, log_age. eexists. split; [done|]. split; [by apply (Hcol 1)|].
  split; [exact (store_evolution_lookup _ _ _ _ _ H)|].
  pose proof (ages_rows_of ((fun a => PrimFloat.mul 1e-6 (pow10 a)) <$> log_age)) as Hages.
  rewrite length_fmap in Hages |- *. apply Hages.
Qed.

Lemma baraffe2015_rows_stay_in_file_order_witness :
  exists h rows,
    add_baraffe2015 (C := Fixture.observatory) "BHAC15_tracks+structure" empty_group = ok h /\
    lookup_path (evolution_path "baraffe2015") h
    = Some (Dataset (Arr2 rows) {["model" := AStr "baraffe2015"]}) /\
    ages rows = [PrimFloat.mul 1e-6 7.0; PrimFloat.mul 1e-6 6.0]%float /\
    ascendingb (ages rows) = false.
Proof.
  destruct (add_baraffe2015 (C := Fixture.observatory) "BHAC15_tracks+structure" empty_group)
    as [e|h] eqn:Hrun; [by vm_compute in Hrun|].
  destruct (baraffe2015_rows_stay_in_file_order (C := Fixture.observatory) _ _ _ Hrun)
    as (m & log_age & rows & Hload & Hcol & Hlook & Hages).
  exists h, rows. split; [done|]. split; [done|].
  assert (log_age = [7.0; 6.0]%float) as ->.
  { vm_compute in Hload. injection Hload as <-. vm_compute in Hcol. by injection Hcol as <-. }
  rewrite Hages. split; reflexivity.
Defined.

End SortFacts.

(** ** What add_filter stores *)

Module FilterStored.
Import PyFacts H5Facts FloatFacts FilterFacts ProbableFacts WriteFacts PathFacts
       IngestionFacts Filter.

(** *** Which rows the loop keeps *)

(** After the round for index [i]: the columns kept have one length, the
    last wavelength kept is one of the first [i + 1] of the input, and
    every row up to [i] whose wavelength is greater than all wavelengths
    before it is among the rows kept. *)
Definition records_kept (w t : list float) (i : nat) (acc : list float * list float)
  : Prop :=
  length acc.1 = length acc.2 /\
  (exists j z, j <= i /\ w !! j = Some z /\ last acc.1 = Some z) /\
  forall k x y, k <= i -> w !! k = Some x -> t !! k = Some y ->
    (forall j z, j < k -> w !! j = Some z -> PrimFloat.ltb z x = true) ->
    (x, y) ∈ zip acc.1 acc.2.

Lemma keep_increasing_records w t i acc acc' :
  records_kept w t i acc ->
  keep_increasing w t acc i = ok acc' ->
  records_kept w t (S i) acc'.
Proof.
  intros (Hlen & (j0 & z0 & Hj0 & Hz0 & Hlast) & Hrec) H. unfold keep_increasing in H.
  replace (i + 1) with (S i) in H by lia.
  destruct (w !! S i) as [x'|] eqn:Hx'; [|discriminate].
  rewrite Hlast in H. cbn [of_option Py.bind ok] in H.
  destruct (PrimFloat.ltb z0 x') eqn:Hlt.
  - destruct (t !! S i) as [y'|] eqn:Hy'; [|discriminate].
    cbn [of_option Py.bind ok] in H. injection H as <-.
    unfold records_kept. cbn [fst snd].
    split; [rewrite !length_app; simpl; lia|]. split.
    + exists (S i), x'. split; [lia|]. split; [done|]. by rewrite last_snoc.
    + intros k x y Hk Hx Hy Hmax. rewrite zip_with_app by done.
      apply elem_of_app. destruct (decide (k = S i)) as [->|Hne].
      * right. rewrite Hx' in Hx. rewrite Hy' in Hy. simplify_eq. by left.
      * left. apply (Hrec k); [lia|done..].
  - injection H as <-. split; [done|]. split.
    + exists j0, z0. split; [lia|done].
    + intros k x y Hk Hx Hy Hmax. destruct (decide (k = S i)) as [->|Hne].
      * rewrite Hx' in Hx. injection Hx as <-.
        rewrite (Hmax j0 z0) in Hlt by (done || lia). discriminate.
      * apply (Hrec k); [lia|done..].
Qed.

(** Every row whose wavelength is greater than all wavelengths before it
    is kept, with its own transmission; the first row is. *)
Lemma monotonic_profile_records w t wn tn :
  monotonic_profile w t = ok (wn, tn) ->
  head wn = head w /\
  forall k x y, w !! k = Some x -> t !! k = Some y ->
    (forall j z, j < k -> w !! j = Some z -> PrimFloat.ltb z x = true) ->
    (x, y) ∈ zip wn tn.
Proof.
  unfold monotonic_profile. intros H.
  destruct (w !! 0) as [w0|] eqn:Hw0; [|discriminate].
  destruct (t !! 0) as [t0|] eqn:Ht0; [|discriminate].
  cbn [of_option Py.bind ok] in H. unfold range in H.
  split.
  - apply (for_each_invariant (fun acc : list float * list float => head acc.1 = Some w0))
      in H.
    + simpl in H. rewrite H. by destruct w.
    + intros [a b] i [a' b'] _ Ha Hstep. unfold keep_increasing in Hstep. simpl in *.
      apply bind_ok in Hstep as (x & _ & Hstep).
      apply bind_ok in Hstep as (top & _ & Hstep).
      destruct (PrimFloat.ltb top x).
      * apply bind_ok in Hstep as (y & _ & Hstep). injection Hstep as <- <-.
        by destruct a.
      * by injection Hstep as <- <-.
    + done.
  - apply (for_each_seq_invariant (records_kept w t)) in H.
    + destruct H as (_ & _ & Hrec). intros k x y Hx Hy. apply (Hrec k); [|done..].
      apply lookup_lt_Some in Hx. lia.
    + split; [done|]. split.
      * exists 0, w0. by repeat split.
      * intros k x y Hk Hx Hy _. replace k with 0 in * by lia.
        rewrite Hw0 in Hx. rewrite Ht0 in Hy. simplify_eq. by left.
    + intros i s s' _. apply keep_increasing_records.
Qed.

(** The loop completes on a profile that has a transmission for every
    wavelength. *)
Lemma monotonic_profile_total w t :
  w <> [] -> length w <= length t ->
  exists wn tn, monotonic_profile w t = ok (wn, tn).
Proof.
  intros Hw Hlen. unfold monotonic_profile.
  destruct w as [|w0 w']; [done|]. destruct t as [|t0 t']; [simpl in Hlen; lia|].
  cbn [lookup list_lookup of_option Py.bind ok]. unfold range.
  destruct (for_each_seq_total
              (fun (_ : nat) (acc : list float * list float) => acc.1 <> [])
              (keep_increasing (w0 :: w') (t0 :: t')) 0
              (Z.to_nat (Z.of_nat (length (w0 :: w')) - 1)) ([w0], [t0]))
    as ([wn tn] & Hrun & _).
  - done.
  - intros i [a b] Hi Ha. unfold keep_increasing. cbn [fst snd] in *.
    destruct (lookup_lt_is_Some_2 (w0 :: w') (i + 1)) as [x ->]; [simpl in *; lia|].
    destruct (lookup_lt_is_Some_2 (t0 :: t') (i + 1)) as [y ->]; [simpl in *; lia|].
    cbn [of_option Py.bind ok].
    destruct (last a) as [top|] eqn:Hlast; [|by apply last_None in Hlast].
    cbn [of_option Py.bind ok].
    destruct (PrimFloat.ltb top x); cbn [of_option Py.bind ok].
    + eexists. split; [reflexivity|]. simpl. by destruct a.
    + eexists. split; [reflexivity|done].
  - by exists wn, tn.
Qed.

(** *** Where a link can be written *)

Lemma writable_remove p n : writable p n = true -> writable p (remove_path p n) = true.
Proof.
  revert n; induction p as [|k p IH]; intros n Hw; [done|].
  destruct n as [|m a]; [done|]. destruct p as [|k' p]; [done|].
  rewrite writable_cons in Hw. rewrite remove_path_cons.
  destruct (m !! k) as [c|] eqn:Hk.
  - rewrite writable_cons, lookup_insert_eq. by apply IH.
  - by rewrite writable_cons, Hk.
Qed.

Lemma writable_prefix g r n : g <> [] -> writable (g ++ r) n = true -> writable g n = true.
Proof.
  revert n; induction g as [|k g IH]; intros n Hg Hw; [done|].
  destruct n as [|m a]; [done|]. destruct g as [|k' g]; [done|].
  change ((k :: k' :: g) ++ r) with (k :: k' :: (g ++ r)) in Hw.
  rewrite writable_cons in Hw |- *. destruct (m !! k); [|done]. by apply IH.
Qed.

Lemma writable_empty_group p : p <> [] -> writable p empty_group = true.
Proof.
  destruct p as [|k [|k' p]]; [done|done|]. intros _.
  unfold empty_group. by rewrite writable_cons, lookup_empty.
Qed.

(** A new group above a link leaves the link writable. *)
Lemma writable_create_group g r n n' :
  r <> [] -> create_group g n = ok n' ->
  writable (g ++ r) n = true -> writable (g ++ r) n' = true.
Proof.
  unfold create_group. intros Hr.
  revert n n'; induction g as [|k g IH]; intros n n' H Hw; [discriminate|].
  destruct n as [|m a]; [discriminate|].
  destruct (g ++ r) as [|k' gr] eqn:Hgr; [by apply app_eq_nil in Hgr as [_ ?]|].
  change ((k :: g) ++ r) with (k :: (g ++ r)) in *. rewrite Hgr in *.
  rewrite writable_cons in Hw.
  destruct g as [|k0 g].
  - rewrite create_node_single in H. destruct (m !! k); [discriminate|].
    injection H as <-. rewrite writable_cons, lookup_insert_eq.
    by apply writable_empty_group.
  - rewrite create_node_cons in H. apply bind_ok in H as (c & Hc & H). injection H as <-.
    rewrite writable_cons, lookup_insert_eq. apply (IH _ _ Hc).
    destruct (m !! k); [done|]. by apply writable_empty_group.
Qed.

Lemma create_node_total p v n :
  writable p n = true -> lookup_path p n = None -> exists n', create_node p v n = ok n'.
Proof.
  intros Hw Hno. destruct (create_after_remove p v n Hw) as (n' & Hn').
  exists n'. by rewrite remove_path_absent in Hn'.
Qed.

Lemma require_group_total g n :
  writable g n = true -> exists n', require_group g n = ok n'.
Proof.
  intros Hw. unfold require_group. destruct (contains g n) eqn:Hc; [by exists n|].
  apply create_node_total; [done | by apply contains_false].
Qed.

Lemma require_group_writable g r n n' :
  r <> [] -> require_group g n = ok n' ->
  writable (g ++ r) n = true -> writable (g ++ r) n' = true.
Proof.
  unfold require_group. intros Hr. destruct (contains g n); intros H.
  - by apply ok_inj in H as <-.
  - by apply writable_create_group.
Qed.

(** *** What [add_filter] stores *)

Lemma add_filter_stored {C : Collab} filter_name filename detector_type h h' w t det :
  read_profile filter_name filename detector_type = ok (Some w, Some t, det) ->
  add_filter filter_name filename detector_type h = ok h' ->
  exists wn tn,
    monotonic_profile w t = ok (wn, tn) /\
    lookup_path (filter_path filter_name) h'
    = Some (Dataset (Arr2 (zip_with (fun x y => [x; y]) wn tn))
                    {["det_type" := AStr det]}).
Proof.
  intros Hread H. unfold add_filter in H.
  apply bind_ok in H as (h1 & _ & H).
  apply bind_ok in H as (h2 & _ & H).
  apply bind_ok in H as (h3 & _ & H).
  rewrite Hread in H. cbn [Py.bind ok] in H.
  apply bind_ok in H as ([wn tn] & Hmono & H).
  apply bind_ok in H as (data & Hdata & H).
  apply bind_ok in H as (h4 & Hcreate & H).
  apply column_stack2_ok in Hdata as (_ & ->).
  apply lookup_create_node in Hcreate.
  apply set_attr_inv in H as (d & Hd & Hd').
  rewrite Hcreate in Hd. apply (inj Some) in Hd. subst d.
  by exists wn, tn.
Qed.

Lemma add_filter_total {C : Collab} filter_name filename detector_type h w t det :
  read_profile filter_name filename detector_type = ok (Some w, Some t, det) ->
  w <> [] -> length w <= length t ->
  h5path (default EmptyString (head (split_slash filter_name))) <> h5path filter_name ->
  writable (filter_path filter_name) h = true ->
  exists h', add_filter filter_name filename detector_type h = ok h'.
Proof.
  intros Hread Hw Hlen Hname Hwr. unfold add_filter.
  destruct (h5path_head filter_name) as (r & Hr).
  assert (r <> []) as Hrne by (intros ->; rewrite app_nil_r in Hr; congruence).
  rewrite !filter_path_links in *.
  change ("filters/" +:+ default EmptyString (head (split_slash filter_name)))
    with ("filters" +:+ String "/" (default EmptyString (head (split_slash filter_name)))).
  rewrite !h5path_app.
  change (h5path "filters") with ["filters"].
  change (["filters"] ++ ?x) with ("filters" :: x).
  remember (h5path (default EmptyString (head (split_slash filter_name)))) as G eqn:HG.
  clear HG Hname. rewrite Hr in *. clear Hr.
  set (fp := "filters" :: G ++ r) in *.
  (* the deletion *)
  rewrite del_if_present_remove by done. cbn [Py.bind ok].
  pose proof (writable_remove fp h Hwr) as Hwa.
  pose proof (lookup_remove_path fp h ltac:(done)) as Hno_a.
  (* the group of all filters *)
  destruct (require_group_total ["filters"] (remove_path fp h)) as (hb & Hb).
  { by apply (writable_prefix ["filters"] (G ++ r)). }
  rewrite Hb. cbn [Py.bind ok].
  assert (G ++ r <> []) as HGr by (by destruct G).
  pose proof (require_group_writable ["filters"] (G ++ r) _ _ HGr Hb Hwa) as Hwb.
  pose proof (require_group_keeps_absent ["filters"] (G ++ r) _ _ HGr Hb Hno_a) as Hno_b.
  (* the group of the first piece of the name *)
  destruct (require_group_total ("filters" :: G) hb) as (hc & Hc).
  { by apply (writable_prefix ("filters" :: G) r). }
  rewrite Hc. cbn [Py.bind ok].
  pose proof (require_group_writable ("filters" :: G) r _ _ Hrne Hc Hwb) as Hwc.
  pose proof (require_group_keeps_absent ("filters" :: G) r _ _ Hrne Hc Hno_b) as Hno_c.
  (* the profile and the dataset *)
  rewrite Hread. cbn [Py.bind ok].
  destruct (monotonic_profile_total w t Hw Hlen) as (wn & tn & Hmono).
  rewrite Hmono. cbn [Py.bind ok].
  pose proof (monotonic_profile_kept _ _ _ _ Hmono) as (_ & Hlen' & _).
  unfold column_stack2. destruct (decide (length wn = length tn)); [|done].
  cbn [Py.bind ok]. unfold create_dataset.
  destruct (create_node_total fp (Dataset (Arr2 (zip_with (fun x y => [x; y]) wn tn)) ∅) hc
              Hwc Hno_c) as (hd & Hd).
  change ("filters" :: (G ++ r)) with fp. rewrite Hd. cbn [Py.bind ok].
  destruct (set_attr_lookup fp "det_type" (AStr det) hd _ (lookup_create_node _ _ _ _ Hd))
    as (h' & Hset & _).
  by exists h'.
Qed.

(** C4.  [add_filter] stores the rows that its loop keeps, and nothing
    else.  For the wavelengths [1.0, 1.5, 1.4, 2.0] the stored array has
    the rows of [1.0], [1.5] and [2.0], each with its own transmission.
    For every profile, whenever [add_filter] returns, the stored array is
    the column stack of the wavelengths and transmissions that the loop
    keeps: the wavelengths increase strictly, the rows are rows of the
    input in their order, the first row is the first row of the input,
    and every row whose wavelength is greater than all wavelengths before
    it is stored.  And [add_filter] does return, for a profile with a
    transmission for each wavelength, a name with a group and a filter in
    it, and a file in which no dataset is in the way. *)
Theorem add_filter_stores_the_increasing_rows {C : Collab}
    filter_name filename detector_type h :
  (forall t0 t1 t2 t3 det h',
     read_profile filter_name filename detector_type
     = ok (Some [1.0; 1.5; 1.4; 2.0]%float, Some [t0; t1; t2; t3], det) ->
     add_filter filter_name filename detector_type h = ok h' ->
     lookup_path (filter_path filter_name) h'
     = Some (Dataset (Arr2 [[1.0%float; t0]; [1.5%float; t1]; [2.0%float; t3]])
                     {["det_type" := AStr det]})) /\
  (forall w t det h',
     read_profile filter_name filename detector_type = ok (Some w, Some t, det) ->
     add_filter filter_name filename detector_type h = ok h' ->
     exists wn tn,
       monotonic_profile w t = ok (wn, tn) /\
       lookup_path (filter_path filter_name) h'
       = Some (Dataset (Arr2 (zip_with (fun x y => [x; y]) wn tn))
                       {["det_type" := AStr det]}) /\
       column 0 (zip_with (fun x y => [x; y]) wn tn) = ok wn /\
       strictly_increasing wn /\
       length wn = length tn /\
       sublist (zip wn tn) (zip w t) /\
       head wn = head w /\
       forall k x y, w !! k = Some x -> t !! k = Some y ->
         (forall j z, j < k -> w !! j = Some z -> PrimFloat.ltb z x = true) ->
         (x, y) ∈ zip wn tn) /\
  (forall w t det,
     read_profile filter_name filename detector_type = ok (Some w, Some t, det) ->
     w <> [] -> length w <= length t ->
     h5path (default EmptyString (head (split_slash filter_name))) <> h5path filter_name ->
     writable (filter_path filter_name) h = true ->
     exists h', add_filter filter_name filename detector_type h = ok h').
Proof.
  split; [|split].
  - intros t0 t1 t2 t3 det h' Hread H.
    destruct (add_filter_stored _ _ _ _ _ _ _ _ Hread H) as (wn & tn & Hmono & Hlook).
    assert (monotonic_profile [1.0; 1.5; 1.4; 2.0]%float [t0; t1; t2; t3]
            = ok ([1.0; 1.5; 2.0]%float, [t0; t1; t3])) as Hex
      by (vm_compute; reflexivity).
    rewrite Hex in Hmono. apply ok_inj in Hmono. injection Hmono as <- <-.
    exact Hlook.
  - intros w t det h' Hread H.
    destruct (add_filter_stored _ _ _ _ _ _ _ _ Hread H) as (wn & tn & Hmono & Hlook).
    exists wn, tn. split; [done|]. split; [done|].
    pose proof (monotonic_profile_kept _ _ _ _ Hmono) as (Hinc & Hlen & Hsub).
    pose proof (monotonic_profile_records _ _ _ _ Hmono) as (Hhead & Hrec).
    split.
    { apply (column_stack2_first wn tn). unfold column_stack2.
      by destruct (decide (length wn = length tn)). }
    done.
  - intros w t det. apply add_filter_total.
Qed.

Lemma add_filter_stores_the_increasing_rows_witness :
  exists h',
    add_filter (C := Fixture.demo) "Test/Synthetic" None "photon" empty_group = ok h' /\
    lookup_path (filter_path "Test/Synthetic") h'
    = Some (Dataset (Arr2 [[1.0; 0.1]; [1.5; 0.9]; [2.0; 0.2]]%float)
                    {["det_type" := AStr "photon"]}).
Proof.
  destruct (add_filter_stores_the_increasing_rows (C := Fixture.demo)
              "Test/Synthetic" None "photon" empty_group) as (Hexample & _ & Htotal).
  destruct (Htotal [1.0; 1.5; 1.4; 2.0]%float [0.1; 0.9; 0.8; 0.2]%float "photon")
    as (h' & Hrun);
    [reflexivity | discriminate | simpl; lia | vm_compute; discriminate | reflexivity |].
  exists h'. split; [exact Hrun|].
  exact (Hexample _ _ _ _ "photon" h' eq_refl Hrun).
Defined.

End FilterStored.

(** ** Ingesting again *)

Module ReingestionFacts.
Import PyFacts H5Facts WriteFacts PathFacts IngestionFacts IsochroneFacts FilterStored
       Filter Samples Isochrones.











End ReingestionFacts.

(** ** A profile kept whole, the pressure grid, and deleting *)

Module ProfileKept.
Import PyFacts H5Facts FloatFacts FilterFacts ProbableFacts Filter.

Lemma monotonic_profile_nonempty w t wn tn :
  monotonic_profile w t = ok (wn, tn) -> wn <> [].
Proof.
  unfold monotonic_profile. intros H.
  apply bind_ok in H as (w0 & _ & H). apply bind_ok in H as (t0 & _ & H).
  apply (for_each_invariant (fun acc : list float * list float => acc.1 <> [])) in H;
    [done| |done].
  intros [a b] i [a' b'] _ Ha Hstep. unfold keep_increasing in Hstep. simpl in *.
  apply bind_ok in Hstep as (x & _ & Hstep). apply bind_ok in Hstep as (top & _ & Hstep).
  destruct (PrimFloat.ltb top x).
  - apply bind_ok in Hstep as (y & _ & Hstep). injection Hstep as <- <-. by destruct a.
  - by injection Hstep as <- <-.
Qed.

(** A profile whose wavelengths increase already is kept whole. *)
Lemma increasing_profile_is_kept w t :
  w <> [] -> length w = length t -> strictly_increasing w ->
  monotonic_profile w t = ok (w, t).
Proof.
  intros Hw Hlen Hinc. unfold monotonic_profile.
  destruct w as [|x0 w']; [done|]. destruct t as [|y0 t']; [done|].
  cbn [lookup list_lookup of_option Py.bind ok].
  replace (range (Z.of_nat (length (x0 :: w')) - 1)) with (seq 0 (length w')).
  2:{ unfold range. f_equal. simpl length. lia. }
  destruct (for_each_seq_total
              (fun i (acc : list float * list float) =>
                 acc = (take (S i) (x0 :: w'), take (S i) (y0 :: t')))
              (keep_increasing (x0 :: w') (y0 :: t')) 0 (length w') ([x0], [y0]))
    as (r & Hr & ->).
  - done.
  - intros i s Hi ->. unfold keep_increasing. cbn [fst snd].
    replace (i + 1) with (S i) by lia.
    destruct (lookup_lt_is_Some_2 (x0 :: w') (S i)) as [x Hx]; [simpl; lia|].
    destruct (lookup_lt_is_Some_2 (y0 :: t') (S i)) as [y Hy]; [simpl in *; lia|].
    destruct (lookup_lt_is_Some_2 (x0 :: w') i) as [top Htop]; [simpl; lia|].
    rewrite Hx. cbn [of_option Py.bind ok].
    assert (last (take (S i) (x0 :: w')) = Some top) as ->.
    { rewrite last_lookup, length_take, Nat.min_l by (simpl; lia).
      cbn [Nat.pred]. rewrite lookup_take_lt by lia. done. }
    cbn [of_option Py.bind ok].
    rewrite (Hinc i (S i) top x) by (done || lia).
    rewrite Hy. cbn [of_option Py.bind ok].
    eexists. split; [reflexivity|].
    by rewrite <- (take_S_r _ _ _ Hx), <- (take_S_r _ _ _ Hy).
  - rewrite Hr. f_equal. f_equal; apply take_ge; simpl in *; lia.
Qed.

(** X8.  The loop of [add_filter] that drops the wavelengths that do
    not increase changes nothing when it is run on its own result. *)
Theorem monotonic_profile_twice w t wn tn :
  monotonic_profile w t = ok (wn, tn) ->
  monotonic_profile wn tn = ok (wn, tn).
Proof.
  intros H. pose proof (monotonic_profile_nonempty _ _ _ _ H) as Hne.
  apply monotonic_profile_kept in H as (Hinc & Hlen & _).
  by apply increasing_profile_is_kept.
Qed.

Lemma monotonic_profile_twice_witness :
  monotonic_profile [1.0; 1.5; 2.0]%float [0.1; 0.9; 0.2]%float
  = ok ([1.0; 1.5; 2.0]%float, [0.1; 0.9; 0.2]%float).
Proof.
  apply (monotonic_profile_twice [1.0; 1.5; 1.4; 2.0]%float [0.1; 0.9; 0.8; 0.2]%float).
  reflexivity.
Defined.

End ProfileKept.

Module GridFacts.
Import PyFacts H5Facts ProfileFacts Samples PT.

Lemma set_column_shape j v (m m' : list (list float)) n :
  set_column j v m = ok m' ->
  length m' = length m /\ (rectangular n m -> rectangular n m').
Proof.
  unfold set_column, rectangular. intros H.
  destruct (decide (j < width m)); [|discriminate].
  destruct (decide (length v = length m)) as [Hlen|]; [|discriminate].
  injection H as <-. split; [rewrite length_zip_with; lia|].
  intros Hrect. clear Hlen l. revert v; induction Hrect as [|r m Hr Hm IH]; intros [|x v]; simpl;
    try by constructor.
  constructor; [by rewrite length_insert | apply IH].
Qed.

Lemma profile_step_shape {C : Collab} pt_profile idx press samples temp i temp' n :
  profile_step pt_profile idx press samples temp i = ok temp' ->
  length temp' = length temp /\ (rectangular n temp -> rectangular n temp').
Proof.
  unfold profile_step. intros H.
  apply bind_ok in H as (item & _ & H).
  destruct (attr_is pt_profile "molliere").
  { do 8 (apply bind_ok in H as (? & _ & H)). exact (set_column_shape _ _ _ _ n H). }
  destruct (attr_is pt_profile "mod-molliere").
  { do 5 (apply bind_ok in H as (? & _ & H)). exact (set_column_shape _ _ _ _ n H). }
  destruct (attr_is pt_profile "free" || attr_is pt_profile "monotonic").
  { do 4 (apply bind_ok in H as (? & _ & H)). exact (set_column_shape _ _ _ _ n H). }
  by injection H as <-.
Qed.

(** X9.  Whenever [get_pt_profiles] returns, the pressures are the 180
    points of [np.logspace(-6, 3, 180)], and the temperature array has a
    row for each pressure and a column for each profile asked for: one
    for each stored sample, or [random] of them. *)
Theorem pt_profiles_are_on_the_pressure_grid {C : Collab} tag random h press temp :
  get_pt_profiles tag random h = ok (press, temp) ->
  press = logspace (-6) 3 180 /\ length press = 180 /\ length temp = 180 /\
  exists m a,
    lookup_path (samples_path tag) h = Some (Dataset (Arr2 m) a) /\
    rectangular (default (length m) random) temp.
Proof.
  unfold get_pt_profiles. intros H.
  apply bind_ok in H as ([data attrs] & Hread & H).
  apply bind_ok in H as (spectrum & _ & H).
  apply bind_ok in H as (pt_profile & _ & H).
  destruct (negb (attr_is spectrum "petitradtrans")); [discriminate|].
  apply bind_ok in H as (samples & Hdata & H).
  destruct data as [|m| |]; try discriminate. injection Hdata as <-.
  apply bind_ok in H as ([n_profiles samples] & Hsel & H).
  apply bind_ok in H as (n & _ & H).
  apply bind_ok in H as (idx & _ & H).
  apply bind_ok in H as (temp' & Hloop & H).
  injection H as <- <-.
  assert (n_profiles = default (length m) random) as ->.
  { destruct random as [k|]; simpl in *.
    - apply bind_ok in Hsel as (rows & _ & Hsel). by injection Hsel as <- _.
    - by injection Hsel as <- _. }
  apply (for_each_invariant
           (fun t : list (list float) =>
              length t = 180 /\ rectangular (default (length m) random) t)) in Hloop.
  - destruct Hloop as [Hlen Hrect]. rewrite length_logspace.
    split; [done|]. split; [done|]. split; [done|].
    exists m, attrs. split; [|done].
    unfold read_dataset in Hread.
    destruct (lookup_path (samples_path tag) h) as [[d a|]|]; try discriminate.
    by injection Hread as -> ->.
  - intros t i t' _ [Hlen Hrect] Hstep.
    apply (profile_step_shape _ _ _ _ _ _ _ (default (length m) random)) in Hstep
      as [Hlen' Hrect'].
    split; [congruence | by apply Hrect'].
  - rewrite length_logspace. split.
    + unfold zeros. by rewrite length_replicate.
    + unfold rectangular, zeros. apply Forall_replicate. by rewrite length_replicate.
Qed.

Lemma pt_profiles_are_on_the_pressure_grid_witness :
  exists press temp,
    get_pt_profiles (C := Fixture.demo) "planet" None (Fixture.file_of Fixture.profiled)
    = ok (press, temp) /\
    length press = 180 /\ length temp = 180 /\ rectangular 2 temp.
Proof.
  enough (forall h r,
            get_pt_profiles (C := Fixture.demo) "planet" None h = r ->
            (exists pt, r = ok pt) ->
            length (Fixture.rows_at (samples_path "planet") h) = 2 ->
            exists press temp,
              get_pt_profiles (C := Fixture.demo) "planet" None h = ok (press, temp) /\
              length press = 180 /\ length temp = 180 /\ rectangular 2 temp) as Hgen.
  { apply (Hgen (Fixture.file_of Fixture.profiled)
             (get_pt_profiles (C := Fixture.demo) "planet" None
                (Fixture.file_of Fixture.profiled)) eq_refl).
    - vm_compute. eexists. exact eq_refl.
    - vm_compute. exact eq_refl. }
  intros h r Hr ([press temp] & ->) Hrows.
  destruct (pt_profiles_are_on_the_pressure_grid (C := Fixture.demo) "planet" None h
              press temp Hr) as (_ & Hlen & Hlen' & m & a & Hlook & Hrect).
  exists press, temp. split; [exact Hr|]. split; [exact Hlen|]. split; [exact Hlen'|].
  unfold Fixture.rows_at in Hrows. rewrite Hlook in Hrows. simpl in Hrect.
  rewrite Hrows in Hrect. exact Hrect.
Defined.

End GridFacts.

Module MaintenanceFacts.
Import PyFacts H5Facts WriteFacts PathFacts Maintenance.

(** X10.  [delete_data] on a name with at least one link completes;
    afterwards nothing is stored under the name; a warning is issued
    exactly when nothing was stored under it before; and a second call
    leaves the file as it is and warns. *)
Theorem delete_data_removes_the_name dataset h :
  h5path dataset <> [] ->
  exists h' w,
    delete_data dataset h = ok (h', w) /\
    lookup_path (h5path dataset) h' = None /\
    (w = [] <-> is_Some (lookup_path (h5path dataset) h)) /\
    (w = [NotFound dataset] <-> lookup_path (h5path dataset) h = None) /\
    delete_data dataset h' = ok (h', [NotFound dataset]).
Proof.
  intros Hp.
  assert (bool_decide (dataset <> EmptyString) = true) as Hname.
  { apply bool_decide_eq_true_2. intros ->. by apply Hp. }
  assert (forall n, delete_data dataset n
                    = if contains (h5path dataset) n
                      then let* h := del_item (h5path dataset) n in ok (h, [])
                      else ok (n, [NotFound dataset])) as Hdel.
  { intros n. unfold delete_data. by rewrite Hname. }
  rewrite Hdel. unfold del_item.
  destruct (contains (h5path dataset) h) eqn:Hc.
  - destruct (h5path dataset) as [|k p] eqn:Hpath; [done|]. cbn [Py.bind ok].
    exists (remove_path (k :: p) h), []. split; [done|].
    pose proof (lookup_remove_path (k :: p) h ltac:(done)) as Hgone.
    split; [done|]. apply contains_true in Hc. split; [done|]. split.
    + split; [done|]. intros Hno. rewrite Hno in Hc. by destruct Hc.
    + rewrite Hdel. apply contains_false in Hgone. by rewrite Hgone.
  - exists h, [NotFound dataset]. split; [done|].
    pose proof Hc as Hno. apply contains_false in Hno.
    split; [done|]. split.
    + split; [done|]. intros Hin. rewrite Hno in Hin. by destruct Hin.
    + split; [done|]. by rewrite Hdel, Hc.
Qed.

Lemma delete_data_removes_the_name_witness :
  exists h',
    delete_data "results/fit/planet" (Fixture.file_of Fixture.nested) = ok (h', []) /\
    lookup_path (h5path "results/fit/planet") h' = None /\
    delete_data "results/fit/planet" h' = ok (h', [NotFound "results/fit/planet"]).
Proof.
  enough (forall h,
            is_Some (lookup_path (h5path "results/fit/planet") h) ->
            exists h',
              delete_data "results/fit/planet" h = ok (h', []) /\
              lookup_path (h5path "results/fit/planet") h' = None /\
              delete_data "results/fit/planet" h' = ok (h', [NotFound "results/fit/planet"]))
    as Hgen.
  { apply Hgen. vm_compute. eexists. exact eq_refl. }
  intros h Hin.
  destruct (delete_data_removes_the_name "results/fit/planet" h)
    as (h' & w & Hrun & Hgone & Hw & _ & Hagain).
  { vm_compute. intros H. discriminate H. }
  assert (w = []) as -> by (apply Hw; exact Hin).
  exists h'. split; [exact Hrun|]. split; [exact Hgone|exact Hagain].
Defined.

End MaintenanceFacts.
